(** * jimbo-cam: a shallow embedding of [jimbo-cam.py]

    The daemon captures a still image with a Picamera2 camera, uploads it
    to Prusa Connect with an HTTP PUT and waits before the next cycle.

    Python values are modelled as follows.
    - [int] is [Z]; [bytes] is [list Byte.byte].
    - A [str] that comes from the environment, the command line or the
      operator is a [string], read as a sequence of code points below
      256.  A [str] that comes from a file can hold any code point: it is
      a [unicode], a list of code points, and so is all that is made of
      it (the identity of the camera, the header that carries it).  A
      [string] is read as the [unicode] of its code points.
    - [float] is an abstract type with an abstract reader
      [float_of_string] standing for Python's [float(...)]; [None] means
      that [float] raised [ValueError].
    - Python exceptions are the values of [exn]; a computation is a
      function from the state of the world to a result and a new state,
      so the effects made before an exception is raised are kept.
    - The file system is a finite map from paths to nodes.
    - What the camera, the network and the operator do is not decided by
      the program: each call takes the outcome of the outside world as an
      explicit argument ([capture_env], [cycle_env], [startup_env]). *)

From Stdlib Require Import ZArith NArith String Ascii List Bool Lia.
From stdpp Require Import base option list gmap strings.

Local Open Scope string_scope.

(** ** Text *)

(** [str.isspace] on the code points below 256. *)
Definition isspace (c : ascii) : bool :=
  let n := nat_of_ascii c in
  ((9 <=? n)%nat && (n <=? 13)%nat) || ((28 <=? n)%nat && (n <=? 32)%nat)
  || (n =? 133)%nat || (n =? 160)%nat.

Fixpoint lstrip (s : string) : string :=
  match s with
  | EmptyString => EmptyString
  | String c s' => if isspace c then lstrip s' else s
  end.

Fixpoint rstrip (s : string) : string :=
  match s with
  | EmptyString => EmptyString
  | String c s' =>
      match rstrip s' with
      | EmptyString => if isspace c then EmptyString else String c EmptyString
      | r => String c r
      end
  end.

(** [s.strip()] *)
Definition strip (s : string) : string := rstrip (lstrip s).

(** [c.lower()] on the code points below 256. *)
Definition lower_char (c : ascii) : ascii :=
  let n := nat_of_ascii c in
  if ((65 <=? n)%nat && (n <=? 90)%nat)
     || ((192 <=? n)%nat && (n <=? 222)%nat && negb (n =? 215)%nat)
  then ascii_of_nat (n + 32) else c.

Fixpoint lower (s : string) : string :=
  match s with
  | EmptyString => EmptyString
  | String c s' => String (lower_char c) (lower s')
  end.

(** Truth value of a string: the empty string is false. *)
Definition nonempty (s : string) : bool :=
  match s with EmptyString => false | _ => true end.

(** ** Text of any code points *)

Definition unicode := list N.

Fixpoint unicode_of_string (s : string) : unicode :=
  match s with
  | EmptyString => []
  | String c s' => N_of_ascii c :: unicode_of_string s'
  end.

Coercion unicode_of_string : string >-> unicode.

(** [str.isspace] on any code point: the white space of the Unicode
    database. *)
Definition uisspace (c : N) : bool :=
  ((9 <=? c) && (c <=? 13) || (28 <=? c) && (c <=? 32)
   || (c =? 0x85) || (c =? 0xa0) || (c =? 0x1680)
   || (0x2000 <=? c) && (c <=? 0x200a)
   || (c =? 0x2028) || (c =? 0x2029) || (c =? 0x202f) || (c =? 0x205f)
   || (c =? 0x3000))%N.

Fixpoint ulstrip (t : unicode) : unicode :=
  match t with
  | [] => []
  | c :: t' => if uisspace c then ulstrip t' else t
  end.

Fixpoint urstrip (t : unicode) : unicode :=
  match t with
  | [] => []
  | c :: t' =>
      match urstrip t' with
      | [] => if uisspace c then [] else [c]
      | r => c :: r
      end
  end.

(** [t.strip()] *)
Definition ustrip (t : unicode) : unicode := urstrip (ulstrip t).

(** Truth value of a text: the empty text is false. *)
Definition unonempty (t : unicode) : bool :=
  match t with [] => false | _ => true end.

(** ** UTF-8, the encoding of text files

    [read_text()], [write_text()] and [open(path, "w")] use the encoding
    of the locale and report errors (the [strict] error handler).  The
    encoding is UTF-8 where the daemon runs: in the UTF-8 locales of the
    Raspberry Pi, and under systemd, where no locale is set and Python
    then uses UTF-8. *)

Definition is_continuation (b : N) : bool := ((0x80 <=? b) && (b <=? 0xbf))%N.

(** [bytes.decode("utf-8")]; [None] stands for [UnicodeDecodeError].
    Overlong forms, surrogates and values above 0x10ffff are errors. *)
Fixpoint utf8_decode (d : list Byte.byte) : option unicode :=
  match d with
  | [] => Some []
  | b0 :: d1 =>
      let n0 := Byte.to_N b0 in
      if (n0 <? 0x80)%N then option_map (cons n0) (utf8_decode d1)
      else if (n0 <? 0xc2)%N then None
      else if (n0 <? 0xe0)%N then
        match d1 with
        | b1 :: d2 =>
            let n1 := Byte.to_N b1 in
            if is_continuation n1
            then option_map (cons ((n0 - 0xc0) * 64 + (n1 - 0x80))%N) (utf8_decode d2)
            else None
        | [] => None
        end
      else if (n0 <? 0xf0)%N then
        match d1 with
        | b1 :: b2 :: d3 =>
            let n1 := Byte.to_N b1 in
            let n2 := Byte.to_N b2 in
            let c := ((n0 - 0xe0) * 4096 + (n1 - 0x80) * 64 + (n2 - 0x80))%N in
            if is_continuation n1 && is_continuation n2
               && (0x800 <=? c)%N && negb ((0xd800 <=? c) && (c <=? 0xdfff))%N
            then option_map (cons c) (utf8_decode d3)
            else None
        | _ => None
        end
      else if (n0 <? 0xf5)%N then
        match d1 with
        | b1 :: b2 :: b3 :: d4 =>
            let n1 := Byte.to_N b1 in
            let n2 := Byte.to_N b2 in
            let n3 := Byte.to_N b3 in
            let c := ((n0 - 0xf0) * 262144 + (n1 - 0x80) * 4096
                      + (n2 - 0x80) * 64 + (n3 - 0x80))%N in
            if is_continuation n1 && is_continuation n2 && is_continuation n3
               && (0x10000 <=? c)%N && (c <=? 0x10ffff)%N
            then option_map (cons c) (utf8_decode d4)
            else None
        | _ => None
        end
      else None
  end.

Definition byte_of_N (n : N) : Byte.byte :=
  match Byte.of_N n with
  | Some b => b
  | None => Byte.x00
  end.

(** The UTF-8 encoding of one code point; [None] for a surrogate and for
    a value that is no code point. *)
Definition utf8_encode_char (c : N) : option (list Byte.byte) :=
  if (c <? 0x80)%N then Some [byte_of_N c]
  else if (c <? 0x800)%N then
    Some [byte_of_N (0xc0 + c / 64); byte_of_N (0x80 + c mod 64)]
  else if (c <? 0x10000)%N then
    if ((0xd800 <=? c) && (c <=? 0xdfff))%N then None
    else Some [byte_of_N (0xe0 + c / 4096); byte_of_N (0x80 + (c / 64) mod 64);
               byte_of_N (0x80 + c mod 64)]
  else if (c <? 0x110000)%N then
    Some [byte_of_N (0xf0 + c / 262144); byte_of_N (0x80 + (c / 4096) mod 64);
          byte_of_N (0x80 + (c / 64) mod 64); byte_of_N (0x80 + c mod 64)]
  else None.

(** [t.encode("utf-8")]; [None] stands for [UnicodeEncodeError]. *)
Fixpoint utf8_encode (t : unicode) : option (list Byte.byte) :=
  match t with
  | [] => Some []
  | c :: t' =>
      match utf8_encode_char c, utf8_encode t' with
      | Some a, Some b => Some (a ++ b)%list
      | _, _ => None
      end
  end.

(** The translation of line ends of a file opened for reading in text
    mode ([newline=None]): a carriage return followed by a line feed,
    and a carriage return alone, become a line feed. *)
Fixpoint universal_newlines (t : unicode) : unicode :=
  match t with
  | [] => []
  | c :: t' =>
      if (c =? 13)%N then
        10%N :: match t' with
                | c' :: t'' =>
                    if (c' =? 10)%N then universal_newlines t''
                    else universal_newlines t'
                | [] => []
                end
      else c :: universal_newlines t'
  end.

(** The text [read_text()] makes of the bytes of a file. *)
Definition decode_text (d : list Byte.byte) : option unicode :=
  option_map universal_newlines (utf8_decode d).

Definition hexdigit (d : N) : ascii :=
  match d with
  | 0 => "0" | 1 => "1" | 2 => "2" | 3 => "3" | 4 => "4" | 5 => "5"
  | 6 => "6" | 7 => "7" | 8 => "8" | 9 => "9" | 10 => "a" | 11 => "b"
  | 12 => "c" | 13 => "d" | 14 => "e" | _ => "f"
  end%N%char.

(** The [k] low hexadecimal digits of [n], most significant first. *)
Fixpoint hex_pad (k : nat) (n : N) (acc : string) : string :=
  match k with
  | O => acc
  | S k' => hex_pad k' (n / 16)%N (String (hexdigit (n mod 16)%N) acc)
  end.

(** [uuid.UUID.hex]: ['%032x' % self.int], the integer being below 2^128. *)
Definition uuid_hex (n : N) : string := hex_pad 32 n EmptyString.

(** The integer of [uuid.uuid4()] from 16 random bytes: the variant bits
    are set to RFC 4122 and the version to 4. *)
Definition uuid4_int (r : N) : N :=
  let i := (r mod 2 ^ 128)%N in
  let i := N.ldiff i (N.shiftl 0xc000 48) in
  let i := N.lor i (N.shiftl 0x8000 48) in
  let i := N.ldiff i (N.shiftl 0xf000 64) in
  N.lor i (N.shiftl 4 76).

(** ** A decimal reader

    A reader of plain decimals ([digits], [digits.digits]) into a pair of
    a mantissa and a number of decimals.  It instantiates the abstract
    [float_of_string] in the examples. *)

Definition digit_of (c : ascii) : option Z :=
  let n := nat_of_ascii c in
  if ((48 <=? n)%nat && (n <=? 57)%nat) then Some (Z.of_nat (n - 48)) else None.

Fixpoint read_digits (s : string) (m : Z) (scale : nat) (seen_dot : bool)
  : option (Z * nat) :=
  match s with
  | EmptyString => Some (m, scale)
  | String c s' =>
      match digit_of c with
      | Some d =>
          read_digits s' (10 * m + d)%Z (if seen_dot then S scale else scale) seen_dot
      | None =>
          if (nat_of_ascii c =? 46)%nat && negb seen_dot
          then read_digits s' m scale true
          else None
      end
  end.

Definition decimal_of_string (s : string) : option (Z * nat) :=
  match s with
  | EmptyString => None
  | String c _ =>
      match digit_of c with
      | Some _ => read_digits s 0%Z 0%nat false
      | None => None
      end
  end.

(** ** Exceptions and responses *)

(** [requests.Response], as far as the program looks at it. *)
Record Response := { status_code : Z; text : string }.

(** The exception classes the program meets.  [SystemExit] and
    [KeyboardInterrupt] derive from [BaseException] only; all the others
    derive from [Exception].  The two codec errors are kept without the
    position and the reason they report. *)
Inductive exn :=
| SystemExit (code : string)
| KeyboardInterrupt
| ValueError (msg : string)
| AttributeError (msg : string)
| OSError (msg : string)
| RuntimeError (msg : string)
| HTTPError (response : option Response)
| ConnectionError (msg : string)
| ReadTimeout (msg : string)
| SSLError (msg : string)
| UnicodeDecodeError
| UnicodeEncodeError.

(** [isinstance(e, Exception)] *)
Definition is_Exception (e : exn) : bool :=
  match e with
  | SystemExit _ | KeyboardInterrupt => false
  | _ => true
  end.

(** [isinstance(e, requests.HTTPError)] *)
Definition is_HTTPError (e : exn) : bool :=
  match e with
  | HTTPError _ => true
  | _ => false
  end.

Inductive result (A : Type) :=
| Ok (a : A)
| Raise (e : exn).
Arguments Ok {A} a.
Arguments Raise {A} e.

(** ** The file system *)

(** A path is the list of its components below the root. *)
Definition path := list string.

Inductive node :=
| Dir
| File (data : list Byte.byte).

(** [p.parent] *)
Definition parent (p : path) : path := removelast p.

Definition is_dir (t : gmap (list string) node) (p : path) : bool :=
  match p with
  | [] => true
  | _ => match t !! p with Some Dir => true | _ => false end
  end.

(** [p.mkdir(parents=True, exist_ok=True)]: the components [rest] are
    created below [pre] one after the other; a component that exists as a
    file makes the call fail, with the directories made so far kept. *)
Fixpoint mkdir_from (t : gmap (list string) node) (pre : path) (rest : list string)
  : bool * gmap (list string) node :=
  match rest with
  | [] => (true, t)
  | c :: rest' =>
      let q := (pre ++ [c])%list in
      match t !! q with
      | Some Dir => mkdir_from t q rest'
      | Some (File _) => (false, t)
      | None => mkdir_from (<[q := Dir]> t) q rest'
      end
  end.

Definition fs_exists (t : gmap (list string) node) (p : path) : bool :=
  match p with
  | [] => true
  | _ => match t !! p with Some _ => true | None => false end
  end.

Definition fs_read (t : gmap (list string) node) (p : path) : result (list Byte.byte) :=
  match t !! p with
  | Some (File d) => Ok d
  | Some Dir => Raise (OSError "IsADirectoryError")
  | None => Raise (OSError "FileNotFoundError")
  end.

Definition fs_write (t : gmap (list string) node) (p : path) (d : list Byte.byte)
  : result (gmap (list string) node) :=
  if is_dir t (parent p) then
    match t !! p with
    | Some Dir => Raise (OSError "IsADirectoryError")
    | _ => Ok (<[p := File d]> t)
    end
  else Raise (OSError "FileNotFoundError").

(** [p.unlink(missing_ok=True)] *)
Definition fs_unlink (t : gmap (list string) node) (p : path)
  : result (gmap (list string) node) :=
  match t !! p with
  | Some (File _) => Ok (delete p t)
  | Some Dir => Raise (OSError "IsADirectoryError")
  | None => Ok t
  end.

(** ** The camera, the log and the state of the world *)

Section Model.

Context {float : Type}.

(** Python's [float(s)]; [None] stands for [ValueError]. *)
Variable float_of_string : string -> option float.

(** The module constants read from the environment (lines 18-34), after
    their conversion by [int], [float], [strip] and [lower]. *)
Record Config := {
  HOME : path;
  PRUSA_URL : string;
  PRUSA_TOKEN : string;
  PRUSA_FINGERPRINT : string;
  INTERVAL_SEC : Z;
  WIDTH : Z;
  HEIGHT : Z;
  JPEG_QUALITY : Z;
  TIMEOUT : float;
  PRUSA_AF_MODE : string;
  PRUSA_AF_POSITION : string
}.

(** [controls.AfModeEnum] *)
Inductive AfModeEnum := AfManual | AfAuto | AfContinuous.

Inductive control :=
| AfModeCtl (m : AfModeEnum)
| LensPositionCtl (v : float).

(** A [Picamera2] object: whether the camera is started, the still
    configuration, [picam.options] and the controls set so far. *)
Record Picamera2 := {
  started : bool;
  still_config : option (Z * Z * string);
  options : gmap string Z;
  controls : gmap string control
}.

Inductive level := DEBUG | INFO | ERROR.

Inductive message :=
| LoadedFingerprint (fp : unicode)
| GeneratedFingerprint (fp : unicode)
| ConfiguringCamera (w h : Z)
| SetQuality (q : Z)
| StartingCamera
| CapturedImage (len : nat)
| UploadingSnapshot
| UploadSuccessful (status : Z)
| ConfiguringAutofocus (mode : string) (pos : option string)
| TerminationSignal
| MissingToken
| UsingFingerprint (fp : unicode)
| UploaderInitialized (url : string) (interval : Z)
| HttpErrorStatus (status : Z) (body : string)
| HttpErrorPlain (e : exn)
| UnexpectedError (e : exn)
| NextSnapshot (backoff : Z)
| Exiting
| StartupError (e : exn).

(** The calls that leave the process, in the order they are made. *)
Inductive event :=
| EvMkdir (p : path)
| EvExists (p : path)
| EvRead (p : path)
| EvWrite (p : path) (data : list Byte.byte)
| EvUnlink (p : path)
| EvUrandom
| EvCamNew (i : nat)
| EvCamSetControls (i : nat) (l : list (string * control))
| EvCamConfigure (i : nat)
| EvCamStart (i : nat)
| EvCamCapture (i : nat) (p : path)
| EvCamStop (i : nat)
| EvSleep (ms : N)
| EvPut (url : string) (headers : list (string * unicode))
        (body : list Byte.byte) (timeout : float).

Record World := {
  cams : list Picamera2;
  fs : gmap (list string) node;
  running : bool;
  log : list (level * message);
  trace : list event
}.

Definition set_cams (f : list Picamera2 -> list Picamera2) (w : World) : World :=
  {| cams := f (cams w); fs := fs w; running := running w;
     log := log w; trace := trace w |}.

Definition set_fs (t : gmap (list string) node) (w : World) : World :=
  {| cams := cams w; fs := t; running := running w;
     log := log w; trace := trace w |}.

Definition set_running (b : bool) (w : World) : World :=
  {| cams := cams w; fs := fs w; running := b;
     log := log w; trace := trace w |}.

Definition add_log (r : level * message) (w : World) : World :=
  {| cams := cams w; fs := fs w; running := running w;
     log := (log w ++ [r])%list; trace := trace w |}.

Definition add_event (e : event) (w : World) : World :=
  {| cams := cams w; fs := fs w; running := running w;
     log := log w; trace := (trace w ++ [e])%list |}.

(** ** Computations *)

Definition M (A : Type) : Type := World -> result A * World.

Definition ret {A} (a : A) : M A := fun w => (Ok a, w).

Definition bind {A B} (c : M A) (k : A -> M B) : M B :=
  fun w =>
    match c w with
    | (Ok a, w') => k a w'
    | (Raise e, w') => (Raise e, w')
    end.

Definition raise {A} (e : exn) : M A := fun w => (Raise e, w).

(** [try: c  except BaseException as e: h e]; the handlers of the program
    test the class of [e] and raise it again when no clause matches. *)
Definition try_except {A} (c : M A) (h : exn -> M A) : M A :=
  fun w =>
    match c w with
    | (Ok a, w') => (Ok a, w')
    | (Raise e, w') => h e w'
    end.

Definition modify (f : World -> World) : M unit := fun w => (Ok tt, f w).

Definition gets {A} (f : World -> A) : M A := fun w => (Ok (f w), w).

(** An outcome decided outside the program: [Some e] makes the call
    raise [e]. *)
Definition fault (o : option exn) : M unit :=
  match o with
  | Some e => raise e
  | None => ret tt
  end.

Definition lift_result {A} (r : result A) : M A :=
  match r with
  | Ok a => ret a
  | Raise e => raise e
  end.


Notation "'let*' x ':=' c 'in' k" := (bind c (fun x => k))
  (at level 10, x name, c at level 100, k at level 200).
Notation "c ;; k" := (bind c (fun _ => k))
  (at level 100, k at level 200, right associativity).

(** [logger.debug], [logger.info], [logger.error] *)
Definition logger (l : level) (m : message) : M unit := modify (add_log (l, m)).

Definition emit (e : event) : M unit := modify (add_event e).

(** ** Paths *)

Definition Path_mkdir (o : option exn) (p : path) : M unit :=
  emit (EvMkdir p) ;;
  fault o ;;
  fun w =>
    match mkdir_from (fs w) [] p with
    | (true, t) => (Ok tt, set_fs t w)
    | (false, t) => (Raise (OSError "FileExistsError"), set_fs t w)
    end.

Definition Path_exists (p : path) : M bool :=
  emit (EvExists p) ;;
  gets (fun w => fs_exists (fs w) p).

Definition Path_read_bytes (o : option exn) (p : path) : M (list Byte.byte) :=
  emit (EvRead p) ;;
  fault o ;;
  let* t := gets fs in
  lift_result (fs_read t p).

(** [p.read_text()]: the bytes are decoded and the line ends
    translated. *)
Definition Path_read_text (o : option exn) (p : path) : M unicode :=
  let* d := Path_read_bytes o p in
  match decode_text d with
  | Some t => ret t
  | None => raise UnicodeDecodeError
  end.

Definition Path_write_bytes (o : option exn) (p : path) (d : list Byte.byte) : M unit :=
  emit (EvWrite p d) ;;
  fault o ;;
  let* t := gets fs in
  let* t' := lift_result (fs_write t p d) in
  modify (set_fs t').

(** [p.write_text(s)], and [open(p, "w")] followed by [f.write(s)]: the
    file is opened, which empties it, before the text is encoded. *)
Definition Path_write_text (o : option exn) (p : path) (s : unicode) : M unit :=
  match utf8_encode s with
  | Some d => Path_write_bytes o p d
  | None => Path_write_bytes o p [] ;; raise UnicodeEncodeError
  end.

Definition Path_unlink (o : option exn) (p : path) : M unit :=
  emit (EvUnlink p) ;;
  fault o ;;
  let* t := gets fs in
  let* t' := lift_result (fs_unlink t p) in
  modify (set_fs t').

(** [time.sleep], in milliseconds. *)
Definition sleep (ms : N) : M unit := emit (EvSleep ms).

(** ** The Picamera2 interface *)

Definition fresh_camera : Picamera2 :=
  {| started := false; still_config := None; options := ∅; controls := ∅ |}.

(** [Picamera2()]: a new object, referred to by its index in [cams]. *)
Definition Picamera2_new (o : option exn) : M nat :=
  fault o ;;
  let* i := gets (fun w => length (cams w)) in
  emit (EvCamNew i) ;;
  modify (set_cams (fun l => (l ++ [fresh_camera])%list)) ;;
  ret i.

Definition update_camera (i : nat) (f : Picamera2 -> Picamera2) : M unit :=
  modify (set_cams (alter f i)).

Definition with_started (b : bool) (c : Picamera2) : Picamera2 :=
  {| started := b; still_config := still_config c; options := options c;
     controls := controls c |}.

Definition with_config (k : Z * Z * string) (c : Picamera2) : Picamera2 :=
  {| started := started c; still_config := Some k; options := options c;
     controls := controls c |}.

Definition with_option (name : string) (v : Z) (c : Picamera2) : Picamera2 :=
  {| started := started c; still_config := still_config c;
     options := <[name := v]> (options c); controls := controls c |}.

Definition with_controls (l : list (string * control)) (c : Picamera2) : Picamera2 :=
  {| started := started c; still_config := still_config c; options := options c;
     controls := foldl (fun m kv => <[fst kv := snd kv]> m) (controls c) l |}.

Definition picam_configure (o : option exn) (i : nat) (k : Z * Z * string) : M unit :=
  emit (EvCamConfigure i) ;;
  fault o ;;
  update_camera i (with_config k).

Definition picam_start (o : option exn) (i : nat) : M unit :=
  emit (EvCamStart i) ;;
  fault o ;;
  update_camera i (with_started true).

Definition picam_stop (o : option exn) (i : nat) : M unit :=
  emit (EvCamStop i) ;;
  fault o ;;
  update_camera i (with_started false).

(** [picam.capture_file(path)]: the camera raises, or hands over the
    encoded image, which is written at [path]. *)
Definition picam_capture_file (o : exn + list Byte.byte) (i : nat) (p : path) : M unit :=
  emit (EvCamCapture i p) ;;
  match o with
  | inl e => raise e
  | inr d => Path_write_bytes None p d
  end.

Definition picam_set_controls (i : nat) (l : list (string * control)) : M unit :=
  emit (EvCamSetControls i l) ;;
  update_camera i (with_controls l).

(** ** The signal handler (lines 225-235) *)

Definition _stop : M unit :=
  logger INFO TerminationSignal ;;
  modify (set_running false).

Definition deliver (b : bool) : M unit := if b then _stop else ret tt.


(** ** What the outside world does *)

(** The storage during one call of [get_or_create_fingerprint]: a fault
    for each access, and the 16 random bytes [uuid.uuid4] obtains. *)
Record storage_env := {
  st_mkdir : option exn;
  st_read : option exn;
  st_write : option exn;
  st_random : N
}.

(** The camera and the temporary file during one call of [capture_jpeg]. *)
Record capture_env := {
  cap_configure : option exn;
  cap_start : option exn;
  cap_capture : exn + list Byte.byte;
  cap_stop : option exn;
  cap_read : option exn;
  cap_unlink : option exn
}.

(** Where a termination signal reaches the process during a cycle. *)
Inductive signal_point :=
| DuringCapture
| DuringUpload
| DuringWait (k : nat).

(** One cycle of the loop: the camera, the answer of [requests.put] (an
    exception or a response) and the signal, if any. *)
Record cycle_env := {
  ce_capture : capture_env;
  ce_http : exn + Response;
  ce_signal : option signal_point
}.

Record startup_env := {
  su_first_camera : option exn;
  su_storage : storage_env;
  su_second_camera : option exn
}.

(** ** The program *)

Section Program.

Variable cfg : Config.

Definition CONFIG_DIR : path := (HOME cfg ++ [".config"; "jimbo-cam"])%list.
Definition FINGERPRINT_FILE : path := (CONFIG_DIR ++ ["fingerprint.txt"])%list.

(** [uuid.uuid4().hex] *)
Definition uuid4_hex (r : N) : M unicode :=
  emit EvUrandom ;;
  ret (unicode_of_string (uuid_hex (uuid4_int r))).

(** Lines 146-156. *)
Definition get_or_create_fingerprint (env : storage_env) : M unicode :=
  Path_mkdir (st_mkdir env) (parent FINGERPRINT_FILE) ;;
  let* ex := Path_exists FINGERPRINT_FILE in
  let* found :=
    (if ex then
       let* fp := Path_read_text (st_read env) FINGERPRINT_FILE in
       let fp := ustrip fp in
       if unonempty fp then
         logger INFO (LoadedFingerprint fp) ;;
         ret (Some fp)
       else ret None
     else ret None) in
  match found with
  | Some fp => ret fp
  | None =>
      let* fp := uuid4_hex (st_random env) in
      Path_write_text (st_write env) FINGERPRINT_FILE fp ;;
      logger INFO (GeneratedFingerprint fp) ;;
      ret fp
  end.

(** Lines 159-177. *)
Definition capture_jpeg (env : capture_env) (picam : nat) : M (list Byte.byte) :=
  let tmp : path := ["tmp"; "prusa_snapshot.jpg"] in
  logger DEBUG (ConfiguringCamera (WIDTH cfg) (HEIGHT cfg)) ;;
  let c := (WIDTH cfg, HEIGHT cfg, "RGB888") in
  picam_configure (cap_configure env) picam c ;;
  update_camera picam (with_option "quality" (JPEG_QUALITY cfg)) ;;
  logger DEBUG (SetQuality (JPEG_QUALITY cfg)) ;;
  logger INFO StartingCamera ;;
  picam_start (cap_start env) picam ;;
  sleep 200 ;;
  picam_capture_file (cap_capture env) picam tmp ;;
  picam_stop (cap_stop env) picam ;;
  let* data := Path_read_bytes (cap_read env) tmp in
  Path_unlink (cap_unlink env) tmp ;;
  logger INFO (CapturedImage (length data)) ;;
  ret data.

(** [requests.put]: the exchange fails with an exception or yields a
    response. *)
Definition requests_put (o : exn + Response) (url : string)
    (headers : list (string * unicode)) (data : list Byte.byte) (timeout : float)
  : M Response :=
  emit (EvPut url headers data timeout) ;;
  match o with
  | inl e => raise e
  | inr r => ret r
  end.

(** [resp.raise_for_status()]: statuses 400-499 and 500-599 raise. *)
Definition raise_for_status (resp : Response) : M unit :=
  if ((400 <=? status_code resp) && (status_code resp <? 500))%Z then
    raise (HTTPError (Some resp))
  else if ((500 <=? status_code resp) && (status_code resp <? 600))%Z then
    raise (HTTPError (Some resp))
  else ret tt.

(** Lines 180-190. *)
Definition upload_snapshot (o : exn + Response) (jpeg_bytes : list Byte.byte)
    (token : string) (fingerprint : unicode) : M unit :=
  let headers : list (string * unicode) :=
    [("accept", unicode_of_string "*/*"); ("content-type", unicode_of_string "image/jpeg");
     ("token", unicode_of_string token); ("fingerprint", fingerprint)] in
  logger INFO UploadingSnapshot ;;
  let* resp := requests_put o (PRUSA_URL cfg) headers jpeg_bytes (TIMEOUT cfg) in
  raise_for_status resp ;;
  logger INFO (UploadSuccessful (status_code resp)).

Definition mem (s : string) (l : list string) : bool :=
  existsb (String.eqb s) l.

(** Lines 193-222.  [cli_af] is [args.af]: [None], or the list of words
    after [--af]. *)
Definition configure_autofocus (picam : nat) (cli_af : option (list string)) : M unit :=
  let '(mode, pos) :=
    match cli_af with
    | Some (m :: rest) => (lower m, nth_error rest 0)
    | _ =>
        (PRUSA_AF_MODE cfg,
         if nonempty (PRUSA_AF_POSITION cfg) then Some (PRUSA_AF_POSITION cfg) else None)
    end in
  logger INFO (ConfiguringAutofocus mode pos) ;;
  if mem mode ["cont"; "continuous"] then
    picam_set_controls picam [("AfMode", AfModeCtl AfContinuous)]
  else if mem mode ["auto"; "af"] then
    picam_set_controls picam [("AfMode", AfModeCtl AfAuto)]
  else if mem mode ["man"; "manual"] then
    match pos with
    | Some (String a p) =>
        match float_of_string (String a p) with
        | Some lens_pos =>
            picam_set_controls picam
              [("AfMode", AfModeCtl AfManual); ("LensPosition", LensPositionCtl lens_pos)]
        | None => raise (ValueError ("Invalid manual lens position: " ++ String a p))
        end
    | _ => raise (ValueError "Manual mode requires a lens position, e.g. --af man 1.2")
    end
  else raise (ValueError ("Unknown autofocus mode: " ++ mode)).


(** ** The loop of [main] (lines 250-272) *)

Definition signal_is (p : signal_point) (o : option signal_point) : bool :=
  match o, p with
  | Some DuringCapture, DuringCapture => true
  | Some DuringUpload, DuringUpload => true
  | Some (DuringWait j), DuringWait k => (j =? k)%nat
  | _, _ => false
  end.

(** Lines 267-270: [for _ in range(backoff)], with [n] iterations left,
    the [i]-th being next.  A signal that arrives during a sleep is seen
    by the test of the next iteration. *)
Fixpoint wait (sig : option signal_point) (n i : nat) : M unit :=
  match n with
  | O => ret tt
  | S n' =>
      let* r := gets running in
      if negb r then ret tt
      else
        sleep 1000 ;;
        deliver (signal_is (DuringWait i) sig) ;;
        wait sig n' (S i)
  end.

(** Lines 253-254, the calls of the [try] block. *)
Definition attempt (picam : nat) (fingerprint : unicode) (env : cycle_env) : M unit :=
  deliver (signal_is DuringCapture (ce_signal env)) ;;
  let* jpeg := capture_jpeg (ce_capture env) picam in
  deliver (signal_is DuringUpload (ce_signal env)) ;;
  upload_snapshot (ce_http env) jpeg (PRUSA_TOKEN cfg) fingerprint.

(** Lines 256-260: the handler of [requests.HTTPError]; reading
    [e.response.status_code] fails with [AttributeError] when the
    exception carries no response. *)
Definition log_http_error (e : exn) : M unit :=
  try_except
    (match e with
     | HTTPError (Some r) => logger ERROR (HttpErrorStatus (status_code r) (text r))
     | _ => raise (AttributeError "'NoneType' object has no attribute 'status_code'")
     end)
    (fun e' => if is_Exception e' then logger ERROR (HttpErrorPlain e) else raise e').

(** Lines 252-270: one iteration of [while running], from the value of
    [backoff] before it to the value after it. *)
Definition cycle (picam : nat) (fingerprint : unicode) (env : cycle_env) (backoff : Z)
  : M Z :=
  let* backoff :=
    try_except
      (attempt picam fingerprint env ;;
       ret (INTERVAL_SEC cfg))
      (fun e =>
         if is_HTTPError e then
           log_http_error e ;;
           ret (Z.min (Z.max (INTERVAL_SEC cfg * 3) 15) 120)
         else if is_Exception e then
           logger ERROR (UnexpectedError e) ;;
           ret (Z.min (Z.max (INTERVAL_SEC cfg * 3) 15) 120)
         else raise e) in
  logger INFO (NextSnapshot backoff) ;;
  wait (ce_signal env) (Z.to_nat backoff) 0 ;;
  ret backoff.

(** How the run of the loop over a finite list of cycles ends: the test
    of [while running] failed, or the list is used up with the loop about
    to start its next iteration. *)
Inductive loop_status := LoopExited | LoopRunning.

Fixpoint main_loop (picam : nat) (fingerprint : unicode) (envs : list cycle_env)
    (backoff : Z) : M (loop_status * Z) :=
  let* r := gets running in
  if negb r then ret (LoopExited, backoff)
  else
    match envs with
    | [] => ret (LoopRunning, backoff)
    | env :: envs' =>
        let* backoff := cycle picam fingerprint env backoff in
        main_loop picam fingerprint envs' backoff
    end.

(** Line 243: [PRUSA_FINGERPRINT or get_or_create_fingerprint()]. *)
Definition fingerprint_of_main (env : storage_env) : M unicode :=
  if nonempty (PRUSA_FINGERPRINT cfg) then ret (unicode_of_string (PRUSA_FINGERPRINT cfg))
  else get_or_create_fingerprint env.

(** Lines 238-272. *)
Definition main (env : startup_env) (envs : list cycle_env) : M loop_status :=
  if negb (nonempty (PRUSA_TOKEN cfg)) then
    logger ERROR MissingToken ;;
    raise (SystemExit "You must set PRUSA_TOKEN environment variable.")
  else
    let* fingerprint := fingerprint_of_main (su_storage env) in
    logger INFO (UsingFingerprint fingerprint) ;;
    let* picam := Picamera2_new (su_second_camera env) in
    picam_set_controls picam [("AfMode", AfModeCtl AfContinuous)] ;;
    logger INFO (UploaderInitialized (PRUSA_URL cfg) (INTERVAL_SEC cfg)) ;;
    let backoff := INTERVAL_SEC cfg in
    let* r := main_loop picam fingerprint envs backoff in
    match fst r with
    | LoopExited => logger INFO Exiting ;; ret LoopExited
    | LoopRunning => ret LoopRunning
    end.

(** Lines 275-287, without [--setup]. *)
Definition program (af : option (list string)) (env : startup_env)
    (envs : list cycle_env) : M loop_status :=
  try_except
    (let* picam := Picamera2_new (su_first_camera env) in
     configure_autofocus picam af ;;
     main env envs)
    (fun e =>
       if is_Exception e then
         logger ERROR (StartupError e) ;;
         raise (SystemExit "1")
       else raise e).

End Program.

End Model.

Arguments Config float : clear implicits.
Arguments World float : clear implicits.
Arguments Picamera2 float : clear implicits.

(** ** Definitions used by the statements *)

(** The temporary file of [capture_jpeg] (line 160). *)
Definition tmp_path : path := ["tmp"; "prusa_snapshot.jpg"].

(** [clamp(x, lowerBound, upperBound)] as the specification words it. *)
Definition clamp (x lo hi : Z) : Z :=
  if (x <? lo)%Z then lo else if (hi <? x)%Z then hi else x.

(** The largest interval the loop ever computes (line 261). *)
Definition maxInterval : Z := 120.

Definition camera_started {float} (w : World float) (i : nat) : bool :=
  match cams w !! i with
  | Some c => started c
  | None => false
  end.

Definition capture_yields (d : list Byte.byte) : capture_env :=
  {| cap_configure := None; cap_start := None; cap_capture := inr d;
     cap_stop := None; cap_read := None; cap_unlink := None |}.

Definition capture_fails (e : exn) : capture_env :=
  {| cap_configure := None; cap_start := None; cap_capture := inl e;
     cap_stop := None; cap_read := None; cap_unlink := None |}.

Definition read_back_fails (d : list Byte.byte) (e : exn) : capture_env :=
  {| cap_configure := None; cap_start := None; cap_capture := inr d;
     cap_stop := None; cap_read := Some e; cap_unlink := None |}.

(** Every exception the outside world injects in a cycle derives from
    [Exception]. *)
Definition opt_is_Exception (o : option exn) : bool :=
  match o with
  | Some e => is_Exception e
  | None => true
  end.

Definition capture_env_ok (env : capture_env) : bool :=
  opt_is_Exception (cap_configure env) && opt_is_Exception (cap_start env)
  && match cap_capture env with inl e => is_Exception e | inr _ => true end
  && opt_is_Exception (cap_stop env) && opt_is_Exception (cap_read env)
  && opt_is_Exception (cap_unlink env).

Definition cycle_env_ok (env : cycle_env) : bool :=
  capture_env_ok (ce_capture env)
  && match ce_http env with inl e => is_Exception e | inr _ => true end.

Definition no_signal (env : cycle_env) : bool :=
  match ce_signal env with
  | None => true
  | Some _ => false
  end.

(** ** A concrete installation, for the examples *)

Definition demo_config (interval : Z) (fingerprint : string) : Config (Z * nat) :=
  {| HOME := ["home"; "pi"];
     PRUSA_URL := "https://webcam.connect.prusa3d.com/c/snapshot";
     PRUSA_TOKEN := "secret";
     PRUSA_FINGERPRINT := fingerprint;
     INTERVAL_SEC := interval;
     WIDTH := 1280;
     HEIGHT := 720;
     JPEG_QUALITY := 85;
     TIMEOUT := (10%Z, 0%nat);
     PRUSA_AF_MODE := "cont";
     PRUSA_AF_POSITION := "" |}.

Definition demo_fs : gmap (list string) node :=
  <[ ["home"; "pi"] := Dir ]> (<[ ["home"] := Dir ]> (<[ ["tmp"] := Dir ]> ∅)).

(** Before [main]: no camera object yet. *)
Definition boot_world : World (Z * nat) :=
  {| cams := []; fs := demo_fs; running := true; log := []; trace := [] |}.

(** Inside the loop: one camera object, not started. *)
Definition demo_world : World (Z * nat) :=
  {| cams := [fresh_camera]; fs := demo_fs; running := true; log := []; trace := [] |}.

Definition demo_jpeg : list Byte.byte := [Byte.xff; Byte.xd8; Byte.xff; Byte.xd9].

Definition response_200 : Response := {| status_code := 200; text := "" |}.
Definition response_401 : Response := {| status_code := 401; text := "Unauthorized" |}.
Definition response_304 : Response := {| status_code := 304; text := "" |}.

Definition demo_storage : storage_env :=
  {| st_mkdir := None; st_read := None; st_write := None; st_random := 0x1234567 |}.

Definition demo_startup : startup_env :=
  {| su_first_camera := None; su_storage := demo_storage; su_second_camera := None |}.

Definition good_cycle : cycle_env :=
  {| ce_capture := capture_yields demo_jpeg; ce_http := inr response_200;
     ce_signal := None |}.

Definition rejected_cycle : cycle_env :=
  {| ce_capture := capture_yields demo_jpeg; ce_http := inr response_401;
     ce_signal := None |}.

(** The server answers 304 Not Modified: no success status, and no
    status [raise_for_status] raises for. *)
Definition not_modified_cycle : cycle_env :=
  {| ce_capture := capture_yields demo_jpeg; ce_http := inr response_304;
     ce_signal := None |}.

Definition offline_cycle : cycle_env :=
  {| ce_capture := capture_yields demo_jpeg;
     ce_http := inl (ConnectionError "Connection refused");
     ce_signal := None |}.

Definition camera_busy_cycle : cycle_env :=
  {| ce_capture := capture_fails (RuntimeError "Camera frontend has timed out");
     ce_http := inr response_200;
     ce_signal := None |}.

(** The status test of [raise_for_status]. *)
Definition is_error_status (s : Z) : bool := ((400 <=? s) && (s <? 600))%Z.

(** The end of an iteration once [backoff] is assigned (lines 266-270):
    the log line and the wait; the wait never raises. *)
Definition after_try {float} (sig : option signal_point) (b : Z) (w : World float)
  : result Z * World float :=
  (Ok b, snd (wait sig (Z.to_nat b) 0 (add_log (INFO, NextSnapshot b) w))).

(** The intervals announced by ["Next snapshot in {backoff}s..."], oldest
    first: the waits the loop has made. *)
Definition waits (l : list (level * message)) : list Z :=
  omap (fun r => match snd r with NextSnapshot b => Some b | _ => None end) l.

Definition in_range (lo hi b : Z) : Prop := (lo <= b <= hi)%Z.

(** The directories [pre/c1], [pre/c1/c2], ... all exist. *)
Fixpoint dirs_present (t : gmap (list string) node) (pre : path) (rest : list string)
  : bool :=
  match rest with
  | [] => true
  | c :: rest' =>
      match t !! (pre ++ [c])%list with
      | Some Dir => dirs_present t (pre ++ [c])%list rest'
      | _ => false
      end
  end.

(** The characters below 128 other than the carriage return: one byte
    each in a file, and left as they are when the file is read. *)
Fixpoint all_plain (s : string) : bool :=
  match s with
  | EmptyString => true
  | String c s' =>
      (N_of_ascii c <? 128)%N && negb (N_of_ascii c =? 13)%N && all_plain s'
  end.

Fixpoint all_nonspace (s : string) : bool :=
  match s with
  | EmptyString => true
  | String c s' => negb (isspace c) && all_nonspace s'
  end.

(** A storage without faults in which [uuid.uuid4] would obtain [r]. *)
Definition quiet_storage (r : N) : storage_env :=
  {| st_mkdir := None; st_read := None; st_write := None; st_random := r |}.

(** The calls made to camera objects, in order. *)
Definition camera_events {float} (tr : list (@event float)) : list (@event float) :=
  List.filter
    (fun e =>
       match e with
       | EvCamNew _ | EvCamSetControls _ _ | EvCamConfigure _ | EvCamStart _
       | EvCamCapture _ _ | EvCamStop _ => true
       | _ => false
       end) tr.

(** The program started with [--af man 1.2] on the concrete
    installation, run over one cycle in which everything works. *)
Definition manual_focus_run : result loop_status * World (Z * nat) :=
  program decimal_of_string (demo_config 10 "") (Some ["man"; "1.2"])
    demo_startup [good_cycle] boot_world.

Definition demo_cycles : list cycle_env :=
  [camera_busy_cycle; rejected_cycle; offline_cycle; good_cycle].

(** A cycle that works, with a termination signal during the third
    second of the wait. *)
Definition interrupted_cycle : cycle_env :=
  {| ce_capture := capture_yields demo_jpeg; ce_http := inr response_200;
     ce_signal := Some (DuringWait 2) |}.
(** ** Readings of the record of calls *)

(** The requests sent with [requests.put], oldest first. *)
Definition puts {float} (tr : list (@event float))
  : list (string * list (string * unicode) * list Byte.byte * float) :=
  omap (fun e =>
          match e with
          | EvPut url headers body timeout => Some (url, headers, body, timeout)
          | _ => None
          end) tr.

(** The number of one-second sleeps: the seconds spent in the wait of
    lines 267-270 (the settle delay of [capture_jpeg] is 200 ms). *)
Definition naps {float} (tr : list (@event float)) : nat :=
  length (List.filter (fun e => match e with EvSleep 1000 => true | _ => false end) tr).

(** The request [upload_snapshot] sends for an image. *)
Definition request_for {float} (cfg : Config float) (fingerprint : unicode)
    (jpeg : list Byte.byte)
  : string * list (string * unicode) * list Byte.byte * float :=
  (PRUSA_URL cfg,
   [("accept", unicode_of_string "*/*"); ("content-type", unicode_of_string "image/jpeg");
    ("token", unicode_of_string (PRUSA_TOKEN cfg)); ("fingerprint", fingerprint)],
   jpeg, TIMEOUT cfg).

(** The words [configure_autofocus] accepts (lines 203-207). *)
Definition af_words : list string :=
  ["cont"; "continuous"; "auto"; "af"; "man"; "manual"].


(** The mode and the position [configure_autofocus] works with (lines
    194-199): the words after [--af] when there are any, else the
    environment. *)
Definition af_selection {float} (cfg : Config float) (cli_af : option (list string))
  : string * option string :=
  match cli_af with
  | Some (m :: rest) => (lower m, nth_error rest 0)
  | _ =>
      (PRUSA_AF_MODE cfg,
       if nonempty (PRUSA_AF_POSITION cfg) then Some (PRUSA_AF_POSITION cfg) else None)
  end.

(** The controls [configure_autofocus] hands to [picam.set_controls]
    (lines 203-220); [None] when it raises instead. *)
Definition af_controls {float} (float_of_string : string -> option float)
    (cfg : Config float) (cli_af : option (list string))
  : option (list (string * @control float)) :=
  let mode := fst (af_selection cfg cli_af) in
  let pos := snd (af_selection cfg cli_af) in
  if mem mode ["cont"; "continuous"] then Some [("AfMode", AfModeCtl AfContinuous)]
  else if mem mode ["auto"; "af"] then Some [("AfMode", AfModeCtl AfAuto)]
  else if mem mode ["man"; "manual"] then
    match pos with
    | Some (String a p) =>
        match float_of_string (String a p) with
        | Some lens_pos =>
            Some [("AfMode", AfModeCtl AfManual);
                  ("LensPosition", LensPositionCtl lens_pos)]
        | None => None
        end
    | _ => None
    end
  else None.

(** Lines 153-156 of [get_or_create_fingerprint]: a new identity is
    drawn, written to the identity file and returned. *)
Definition generate_identity {float} (cfg : Config float) (o : option exn) (r : N)
  : World float -> result unicode * World float :=
  bind (uuid4_hex r) (fun fp =>
    bind (Path_write_text o (FINGERPRINT_FILE cfg) fp) (fun _ =>
      bind (logger INFO (GeneratedFingerprint fp)) (fun _ => ret fp))).

(** The world in which the loop of [main] starts (lines 244-248), from
    the world [w] in which the identity [fp] has been resolved: the log
    line, the new camera object set to continuous autofocus, the log
    line. *)
Definition loop_start {float} (cfg : Config float) (fp : unicode) (w : World float)
  : World float :=
  add_log (INFO, UploaderInitialized (PRUSA_URL cfg) (INTERVAL_SEC cfg))
    (set_cams (alter (with_controls [("AfMode", AfModeCtl AfContinuous)])
                 (length (cams w)))
       (add_event (EvCamSetControls (length (cams w))
                     [("AfMode", AfModeCtl AfContinuous)])
          (set_cams (fun l => (l ++ [fresh_camera])%list)
             (add_event (EvCamNew (length (cams w)))
                (add_log (INFO, UsingFingerprint fp) w))))).

(** Lines 285-287: the handler of the start-up [try]. *)
Definition startup_handler {float} (e : exn) (w : World float)
  : result loop_status * World float :=
  if is_Exception e
  then (Raise (SystemExit "1"), add_log (ERROR, StartupError e) w)
  else (Raise e, w).

(** ** The module constants (lines 18-34) *)

Fixpoint all_space (s : string) : bool :=
  match s with
  | EmptyString => true
  | String c s' => isspace c && all_space s'
  end.

(** [os.getenv(key, default)]: the default is used only when the variable
    is not set; a variable set to the empty string yields the empty
    string. *)
Definition getenv (environ : gmap string string) (key default : string) : string :=
  match environ !! key with
  | Some v => v
  | None => default
  end.

Section Loading.

Context {float : Type}.

(** Python's [int(s)] and [float(s)]; [None] stands for [ValueError]. *)
Variable int_of_string : string -> option Z.
Variable float_of_string : string -> option float.

Definition py_int (s : string) : result Z :=
  match int_of_string s with
  | Some n => Ok n
  | None => Raise (ValueError ("invalid literal for int() with base 10: " ++ s))
  end.

Definition py_float (s : string) : result float :=
  match float_of_string s with
  | Some x => Ok x
  | None => Raise (ValueError ("could not convert string to float: " ++ s))
  end.

(** Lines 24-34, evaluated when the module is loaded, in that order;
    [home] is [Path.home()].  A conversion that fails ends the program
    before [main]. *)
Definition load_config (home : path) (environ : gmap string string)
  : result (Config float) :=
  let url := getenv environ "PRUSA_URL" "https://webcam.connect.prusa3d.com/c/snapshot" in
  let token := strip (getenv environ "PRUSA_TOKEN" "") in
  let fingerprint := strip (getenv environ "PRUSA_FINGERPRINT" "") in
  match py_int (getenv environ "PRUSA_INTERVAL_SEC" "10") with
  | Raise e => Raise e
  | Ok interval =>
  match py_int (getenv environ "PRUSA_WIDTH" "1280") with
  | Raise e => Raise e
  | Ok width =>
  match py_int (getenv environ "PRUSA_HEIGHT" "720") with
  | Raise e => Raise e
  | Ok height =>
  match py_int (getenv environ "PRUSA_JPEG_QUALITY" "85") with
  | Raise e => Raise e
  | Ok quality =>
  match py_float (getenv environ "PRUSA_HTTP_TIMEOUT" "10") with
  | Raise e => Raise e
  | Ok timeout =>
      Ok {| HOME := home;
            PRUSA_URL := url;
            PRUSA_TOKEN := token;
            PRUSA_FINGERPRINT := fingerprint;
            INTERVAL_SEC := interval;
            WIDTH := width;
            HEIGHT := height;
            JPEG_QUALITY := quality;
            TIMEOUT := timeout;
            PRUSA_AF_MODE := lower (strip (getenv environ "PRUSA_AF_MODE" "cont"));
            PRUSA_AF_POSITION := strip (getenv environ "PRUSA_AF_POSITION" "") |}
  end end end end end.

End Loading.

(** ** The interactive setup (lines 38-122)

    The setup talks to the operator, writes two files and runs
    [systemctl].  Its state is the world of the daemon (for the file
    system), the lines printed and the commands run.  What the operator
    types, the user id and the outcome of each external call are given by
    [setup_env]. *)

Section Setup.

Context {float : Type}.

Record SetupState := {
  s_world : World float;
  s_out : list string;
  s_cmds : list (list string)
}.

Record setup_env := {
  sx_euid : Z;
  sx_script_name : string;
  sx_script_parent : string;
  sx_script_absolute : string;
  sx_user : string;
  sx_token : string;
  sx_fingerprint : string;
  sx_af_choice : string;
  sx_af_position : string;
  sx_enable : string;
  sx_mkdir : option exn;
  sx_write_env : option exn;
  sx_write_unit : option exn;
  sx_run_reload : option exn;
  sx_run_enable : option exn
}.

Definition SetupM (A : Type) : Type := SetupState -> result A * SetupState.

Definition s_ret {A} (a : A) : SetupM A := fun s => (Ok a, s).

Definition s_bind {A B} (c : SetupM A) (k : A -> SetupM B) : SetupM B :=
  fun s =>
    match c s with
    | (Ok a, s') => k a s'
    | (Raise e, s') => (Raise e, s')
    end.

Definition s_raise {A} (e : exn) : SetupM A := fun s => (Raise e, s).

(** A computation on the world of the daemon, run inside the setup. *)
Definition lift {A} (c : World float -> result A * World float) : SetupM A :=
  fun s =>
    match c (s_world s) with
    | (r, w') => (r, {| s_world := w'; s_out := s_out s; s_cmds := s_cmds s |})
    end.

(** [print(line)] *)
Definition print (line : string) : SetupM unit :=
  fun s =>
    (Ok tt, {| s_world := s_world s; s_out := (s_out s ++ [line])%list;
               s_cmds := s_cmds s |}).

(** [input(prompt).strip()], the operator typing [answer]. *)
Definition input_strip (prompt answer : string) : SetupM string :=
  s_bind (print prompt) (fun _ => s_ret (strip answer)).

(** [subprocess.run(cmd, check=...)]: the command is run; [o] is what the
    call raises, if anything. *)
Definition subprocess_run (o : option exn) (cmd : list string) : SetupM unit :=
  fun s =>
    let s' := {| s_world := s_world s; s_out := s_out s;
                 s_cmds := (s_cmds s ++ [cmd])%list |} in
    match o with
    | Some e => (Raise e, s')
    | None => (Ok tt, s')
    end.

Definition nl : string := String (ascii_of_nat 10) EmptyString.

(** [str(path)] *)
Fixpoint path_str_from (p : path) : string :=
  match p with
  | [] => EmptyString
  | c :: p' => "/" ++ c ++ path_str_from p'
  end.

Definition path_str (p : path) : string :=
  match p with
  | [] => "/"
  | _ => path_str_from p
  end.

Variable cfg : Config float.

Definition ENV_PATH : path := (CONFIG_DIR cfg ++ ["jimbo-cam-config.env"])%list.
Definition SERVICE_PATH : path := ["etc"; "systemd"; "system"; "jimbo-cam.service"].

(** The arguments of the calls of [f.write] of lines 69-79, in order. *)
Definition env_file_lines (token fingerprint af_mode af_position : string)
  : list string :=
  let token_line := "PRUSA_TOKEN=" ++ token ++ nl in
  let fingerprint_line := "PRUSA_FINGERPRINT=" ++ fingerprint ++ nl in
  let mode_line := "PRUSA_AF_MODE=" ++ af_mode ++ nl in
  let position_line := "PRUSA_AF_POSITION=" ++ af_position ++ nl in
  let fixed :=
    ["PRUSA_INTERVAL_SEC=10" ++ nl;
     "PRUSA_WIDTH=1280" ++ nl;
     "PRUSA_HEIGHT=720" ++ nl;
     "PRUSA_JPEG_QUALITY=85" ++ nl;
     "PRUSA_HTTP_TIMEOUT=10" ++ nl] in
  app [token_line]
    (app (if nonempty fingerprint then [fingerprint_line] else [])
       (app fixed
          (app [mode_line]
             (if nonempty af_position then [position_line] else [])))).

(** The systemd unit of lines 83-100. *)
Definition service_unit (env : setup_env) : string :=
  String.concat nl
    ["[Unit]";
     "Description=Prusa Connect Picamera Uploader by James Robinson";
     "After=network-online.target";
     "Wants=network-online.target";
     "";
     "[Service]";
     "Type=simple";
     "User=" ++ sx_user env;
     "WorkingDirectory=" ++ sx_script_parent env;
     "EnvironmentFile=" ++ path_str ENV_PATH;
     "ExecStart=/usr/bin/env python3 " ++ sx_script_absolute env;
     "Restart=on-failure";
     "RestartSec=10";
     "SyslogIdentifier=jimbo-cam";
     "";
     "[Install]";
     "WantedBy=multi-user.target";
     ""].

Notation "'let*' x ':=' c 'in' k" := (s_bind c (fun x => k))
  (at level 10, x name, c at level 100, k at level 200).
Notation "c ;; k" := (s_bind c (fun _ => k))
  (at level 100, k at level 200, right associativity).

(** Lines 48-65: the autofocus dialogue; the result is the mode and the
    position that are written to the environment file. *)
Definition ask_autofocus (env : setup_env) : SetupM (string * string) :=
  print (nl ++ "Autofocus Configuration:") ;;
  print "  [1] Continuous (default)" ;;
  print "  [2] Auto (single autofocus cycle)" ;;
  print "  [3] Manual (requires lens position)" ;;
  let* answer := input_strip "Select autofocus mode [1/2/3]: " (sx_af_choice env) in
  let af_choice := if nonempty answer then answer else "1" in
  if String.eqb af_choice "2" then s_ret ("auto", "")
  else if String.eqb af_choice "3" then
    let* af_position :=
      input_strip "Enter manual lens position (e.g. 1.2): " (sx_af_position env) in
    if negb (nonempty af_position) then
      print "Error: Manual mode requires a lens position" ;;
      s_raise (SystemExit "1")
    else s_ret ("man", af_position)
  else s_ret ("cont", "").

(** Lines 38-122.  The file opened with [open(path, "w")] receives the
    concatenation of its [f.write] arguments when the [with] block ends. *)
Definition run_setup (env : setup_env) : SetupM unit :=
  print "=== Jimbo-Cam Setup ===" ;;
  (if negb (sx_euid env =? 0)%Z then
     print "Error: Setup must be run with sudo (root privileges)." ;;
     print ("Try:  sudo python3 " ++ sx_script_name env ++ " --setup") ;;
     s_raise (SystemExit "1")
   else s_ret tt) ;;
  let* token := input_strip "Prusa Connect Camera Token: " (sx_token env) in
  let* fingerprint :=
    input_strip "Enter Fingerprint (leave blank to auto-generate): "
      (sx_fingerprint env) in
  let* af := ask_autofocus env in
  let af_mode := fst af in
  let af_position := snd af in
  lift (Path_mkdir (sx_mkdir env) (CONFIG_DIR cfg)) ;;
  lift (Path_write_text (sx_write_env env) ENV_PATH
          (String.concat "" (env_file_lines token fingerprint af_mode af_position))) ;;
  print ("[+] Saved config to " ++ path_str ENV_PATH) ;;
  lift (Path_write_text (sx_write_unit env) SERVICE_PATH (service_unit env)) ;;
  print ("[+] Installed systemd unit at " ++ path_str SERVICE_PATH) ;;
  subprocess_run (sx_run_reload env) ["systemctl"; "daemon-reload"] ;;
  print "[+] Systemd daemon reloaded" ;;
  let* choice :=
    input_strip "Do you want to enable and start jimbo-cam.service now? [y/N]: "
      (sx_enable env) in
  let choice := lower choice in
  if String.eqb choice "y" then
    subprocess_run (sx_run_enable env)
      ["systemctl"; "enable"; "--now"; "jimbo-cam.service"] ;;
    print "[+] jimbo-cam.service enabled and started" ;;
    print "You can check logs with: journalctl -u jimbo-cam.service -f"
  else
    print "You can enable and start manually with:" ;;
    print ("  sudo systemctl enable --now jimbo-cam.service" ++ nl) ;;
    print "You can check logs with: journalctl -u jimbo-cam.service -f".

End Setup.

Arguments SetupState float : clear implicits.

(** A setup on the concrete installation: root, manual focus at 1.2, the
    service enabled. *)
Definition demo_setup : setup_env :=
  {| sx_euid := 0;
     sx_script_name := "jimbo-cam.py";
     sx_script_parent := "/home/pi/jimbo-cam";
     sx_script_absolute := "/home/pi/jimbo-cam/jimbo-cam.py";
     sx_user := "root";
     sx_token := " secret ";
     sx_fingerprint := "";
     sx_af_choice := "3";
     sx_af_position := "1.2";
     sx_enable := "Y";
     sx_mkdir := None; sx_write_env := None; sx_write_unit := None;
     sx_run_reload := None; sx_run_enable := None |}.

Definition setup_fs : gmap (list string) node :=
  <[ ["etc"; "systemd"; "system"] := Dir ]>
    (<[ ["etc"; "systemd"] := Dir ]> (<[ ["etc"] := Dir ]> demo_fs)).

Definition setup_state : SetupState (Z * nat) :=
  {| s_world := {| cams := []; fs := setup_fs; running := true; log := []; trace := [] |};
     s_out := []; s_cmds := [] |}.

(** ** More of the concrete installation *)

(** A reader of plain integers for the examples. *)
Definition demo_int (s : string) : option Z :=
  match decimal_of_string s with
  | Some (m, O) => Some m
  | _ => None
  end.


Definition configure_fails (e : exn) : capture_env :=
  {| cap_configure := Some e; cap_start := None; cap_capture := inr demo_jpeg;
     cap_stop := None; cap_read := None; cap_unlink := None |}.

(** The environment asks for the manual mode at position 1.2. *)
Definition manual_config : Config (Z * nat) :=
  {| HOME := ["home"; "pi"];
     PRUSA_URL := "https://webcam.connect.prusa3d.com/c/snapshot";
     PRUSA_TOKEN := "secret";
     PRUSA_FINGERPRINT := "";
     INTERVAL_SEC := 10;
     WIDTH := 1280;
     HEIGHT := 720;
     JPEG_QUALITY := 85;
     TIMEOUT := (10%Z, 0%nat);
     PRUSA_AF_MODE := "man";
     PRUSA_AF_POSITION := "1.2" |}.

Definition tokenless_config : Config (Z * nat) :=
  {| HOME := ["home"; "pi"];
     PRUSA_URL := "https://webcam.connect.prusa3d.com/c/snapshot";
     PRUSA_TOKEN := "";
     PRUSA_FINGERPRINT := "";
     INTERVAL_SEC := 10;
     WIDTH := 1280;
     HEIGHT := 720;
     JPEG_QUALITY := 85;
     TIMEOUT := (10%Z, 0%nat);
     PRUSA_AF_MODE := "cont";
     PRUSA_AF_POSITION := "" |}.

(** The file system with the configuration directory and an identity
    file of the given text, of characters below 128 (one byte each). *)
Definition stored_fs (text : string) : gmap (list string) node :=
  <[ ["home"; "pi"; ".config"; "jimbo-cam"; "fingerprint.txt"]
     := File (list_byte_of_string text) ]>
    (<[ ["home"; "pi"; ".config"; "jimbo-cam"] := Dir ]>
       (<[ ["home"; "pi"; ".config"] := Dir ]> demo_fs)).

Definition stored_world (text : string) : World (Z * nat) :=
  {| cams := []; fs := stored_fs text; running := true; log := []; trace := [] |}.

(** The same with an identity file of the given bytes. *)
Definition raw_fs (d : list Byte.byte) : gmap (list string) node :=
  <[ ["home"; "pi"; ".config"; "jimbo-cam"; "fingerprint.txt"] := File d ]>
    (<[ ["home"; "pi"; ".config"; "jimbo-cam"] := Dir ]>
       (<[ ["home"; "pi"; ".config"] := Dir ]> demo_fs)).

Definition raw_world (d : list Byte.byte) : World (Z * nat) :=
  {| cams := []; fs := raw_fs d; running := true; log := []; trace := [] |}.

(** A no-break space and a newline in UTF-8: white space only. *)
Definition nbsp_file : list Byte.byte := [Byte.xc2; Byte.xa0; Byte.x0a].

(** Bytes that are not UTF-8. *)
Definition latin1_file : list Byte.byte := [Byte.xff; Byte.x0a].

(** The configuration directory is a regular file. *)
Definition conflict_world : World (Z * nat) :=
  {| cams := [];
     fs := <[ ["home"; "pi"; ".config"; "jimbo-cam"] := File [] ]>
             (<[ ["home"; "pi"; ".config"] := Dir ]> demo_fs);
     running := true; log := []; trace := [] |}.

Definition read_only_storage : storage_env :=
  {| st_mkdir := None; st_read := None;
     st_write := Some (OSError "Read-only file system"); st_random := 0x1234567 |}.

Definition read_only_startup : startup_env :=
  {| su_first_camera := None; su_storage := read_only_storage;
     su_second_camera := None |}.

Definition demo_environ : gmap string string :=
  <[ "PRUSA_FINGERPRINT" := " printer-cam-1 " ]>
    (<[ "PRUSA_TOKEN" := "   " ]> (<[ "PRUSA_INTERVAL_SEC" := "30" ]> ∅)).

Definition blank_environ : gmap string string :=
  <[ "PRUSA_FINGERPRINT" := "  " ]> (<[ "PRUSA_TOKEN" := "secret" ]> ∅).

Definition user_setup : setup_env :=
  {| sx_euid := 1000;
     sx_script_name := "jimbo-cam.py";
     sx_script_parent := "/home/pi/jimbo-cam";
     sx_script_absolute := "/home/pi/jimbo-cam/jimbo-cam.py";
     sx_user := "pi";
     sx_token := "secret"; sx_fingerprint := ""; sx_af_choice := "1";
     sx_af_position := ""; sx_enable := "n";
     sx_mkdir := None; sx_write_env := None; sx_write_unit := None;
     sx_run_reload := None; sx_run_enable := None |}.

Definition positionless_setup : setup_env :=
  {| sx_euid := 0;
     sx_script_name := "jimbo-cam.py";
     sx_script_parent := "/home/pi/jimbo-cam";
     sx_script_absolute := "/home/pi/jimbo-cam/jimbo-cam.py";
     sx_user := "root";
     sx_token := "secret"; sx_fingerprint := ""; sx_af_choice := " 3 ";
     sx_af_position := "  "; sx_enable := "n";
     sx_mkdir := None; sx_write_env := None; sx_write_unit := None;
     sx_run_reload := None; sx_run_enable := None |}.


(** * Properties *)

Ltac unfold_prims :=
  cbv [capture_jpeg upload_snapshot requests_put raise_for_status attempt
       log_http_error deliver _stop uuid4_hex
       picam_configure picam_start picam_capture_file picam_stop
       picam_set_controls Picamera2_new update_camera
       Path_read_bytes Path_read_text Path_unlink Path_write_bytes
       Path_write_text Path_exists sleep logger emit fault lift_result
       modify gets bind ret raise try_except
       fs_write fs_read fs_unlink is_dir parent removelast] in *.

Ltac run := unfold_prims; repeat (case_match; simplify_eq/=); simplify_eq/=.

Section CaptureProperties.

Context {float : Type}.
Variable cfg : Config float.

(** What a normal return of [capture_jpeg] tells about the call. *)
Lemma capture_jpeg_ok_inv env picam (w w' : World float) data :
  capture_jpeg cfg env picam w = (Ok data, w') ->
  cap_capture env = inr data
  /\ fs w' = delete tmp_path (fs w)
  /\ trace w' = (trace w ++
       [EvCamConfigure picam; EvCamStart picam; EvSleep 200;
        EvCamCapture picam tmp_path; EvWrite tmp_path data;
        EvCamStop picam; EvRead tmp_path; EvUnlink tmp_path])%list
  /\ cams w' = alter (with_started false) picam (alter (with_started true) picam
        (alter (with_option "quality" (JPEG_QUALITY cfg)) picam
          (alter (with_config (WIDTH cfg, HEIGHT cfg, "RGB888")) picam (cams w))))
  /\ running w' = running w.
Proof.
  intros H. destruct env as [o1 o2 o3 o4 o5 o6]. run.
  all: rewrite lookup_insert_eq in *; simplify_eq.
  all: rewrite delete_insert_eq; unfold tmp_path.
  all: repeat rewrite <- app_assoc; simpl.
  all: repeat split; reflexivity.
Qed.

Lemma camera_started_alter (w : World float) i b c l :
  cams w = alter (with_started b) i l -> l !! i = Some c ->
  camera_started w i = b.
Proof.
  intros H Hl. unfold camera_started. rewrite H, list_lookup_alter_eq, Hl.
  reflexivity.
Qed.

Lemma capture_jpeg_running env picam (w : World float) :
  running (snd (capture_jpeg cfg env picam w)) = running w.
Proof. destruct env as [o1 o2 o3 o4 o5 o6]. run; reflexivity. Qed.

Lemma capture_jpeg_length env picam (w : World float) :
  length (cams (snd (capture_jpeg cfg env picam w))) = length (cams w).
Proof.
  destruct env as [o1 o2 o3 o4 o5 o6]. run; rewrite ?length_alter; reflexivity.
Qed.

Lemma capture_jpeg_raises env picam (w w' : World float) e :
  capture_env_ok env = true ->
  capture_jpeg cfg env picam w = (Raise e, w') ->
  is_Exception e = true.
Proof.
  destruct env as [o1 o2 o3 o4 o5 o6]. unfold capture_env_ok. cbn.
  rewrite !andb_true_iff. intros [[[[[H1 H2] H3] H4] H5] H6] H.
  run; reflexivity || assumption.
Qed.

End CaptureProperties.

#[local] Arguments capture_jpeg : simpl never.
#[local] Arguments upload_snapshot : simpl never.
#[local] Arguments attempt : simpl never.
#[local] Arguments wait : simpl never.
#[local] Arguments log_http_error : simpl never.
#[local] Arguments cycle : simpl never.

Section LoopProperties.

Context {float : Type}.
Variable cfg : Config float.

Lemma upload_snapshot_result o jpeg token fingerprint (w : World float) :
  fst (upload_snapshot cfg o jpeg token fingerprint w) =
  match o with
  | inl e => Raise e
  | inr r => if is_error_status (status_code r) then Raise (HTTPError (Some r)) else Ok tt
  end.
Proof.
  unfold is_error_status. destruct o as [e|r]; run; try reflexivity.
  all: exfalso; lia.
Qed.

Lemma upload_snapshot_running o jpeg token fingerprint (w : World float) :
  running (snd (upload_snapshot cfg o jpeg token fingerprint w)) = running w.
Proof. destruct o; run; reflexivity. Qed.

Lemma upload_snapshot_raises o jpeg token fingerprint (w w' : World float) e :
  match o with inl e => is_Exception e | inr _ => true end = true ->
  upload_snapshot cfg o jpeg token fingerprint w = (Raise e, w') ->
  is_Exception e = true.
Proof. intros Ho H. destruct o; run; reflexivity || assumption. Qed.

Lemma deliver_ok b (w : World float) : fst (deliver b w) = Ok tt.
Proof. destruct b; reflexivity. Qed.

Lemma attempt_raises picam fingerprint env (w w' : World float) e :
  cycle_env_ok env = true ->
  attempt cfg picam fingerprint env w = (Raise e, w') ->
  is_Exception e = true.
Proof.
  unfold cycle_env_ok. rewrite andb_true_iff. intros [Hc Hu] H.
  unfold attempt, bind in H.
  destruct (deliver _ w) as [r0 w0] eqn:Hd.
  pose proof (deliver_ok (signal_is DuringCapture (ce_signal env)) w) as Hd0.
  rewrite Hd in Hd0. cbn in Hd0. subst r0.
  destruct (capture_jpeg cfg (ce_capture env) picam w0) as [[data|e1] w1] eqn:Hcap.
  2:{ simplify_eq. eapply capture_jpeg_raises; eauto. }
  destruct (deliver _ w1) as [r2 w2] eqn:Hd2.
  pose proof (deliver_ok (signal_is DuringUpload (ce_signal env)) w1) as Hd3.
  rewrite Hd2 in Hd3. cbn in Hd3. subst r2.
  eapply upload_snapshot_raises; eauto.
Qed.

Lemma attempt_running picam fingerprint env (w : World float) :
  no_signal env = true ->
  running (snd (attempt cfg picam fingerprint env w)) = running w.
Proof.
  unfold no_signal. destruct (ce_signal env) eqn:Hs; [discriminate|]. intros _.
  unfold attempt, bind. rewrite Hs. cbn [signal_is deliver ret].
  pose proof (capture_jpeg_running cfg (ce_capture env) picam w) as Hr.
  destruct (capture_jpeg cfg (ce_capture env) picam w) as [[data|e1] w1]; cbn [snd] in *.
  2: assumption.
  rewrite upload_snapshot_running. assumption.
Qed.

Lemma wait_step sig n i (w : World float) :
  wait sig (S n) i w =
  if running w
  then wait sig n (S i)
         (snd (deliver (signal_is (DuringWait i) sig) (add_event (EvSleep 1000) w)))
  else (Ok tt, w).
Proof.
  change (wait sig (S n) i w) with
    (bind (gets running) (fun r => if negb r then ret tt else
       bind (sleep 1000) (fun _ => bind (deliver (signal_is (DuringWait i) sig))
         (fun _ => wait sig n (S i)))) w).
  unfold bind, gets, sleep, emit, modify, ret.
  destruct (running w); [|reflexivity].
  destruct (signal_is (DuringWait i) sig); reflexivity.
Qed.

Lemma wait_ok sig n i (w : World float) :
  fst (wait sig n i w) = Ok tt.
Proof.
  revert i w. induction n as [|n IH]; intros i w; [reflexivity|].
  rewrite wait_step. destruct (running w); [apply IH|reflexivity].
Qed.

Lemma wait_running n i (w : World float) :
  running (snd (wait None n i w)) = running w.
Proof.
  revert i w. induction n as [|n IH]; intros i w; [reflexivity|].
  rewrite wait_step. destruct (running w) eqn:Hr; [|exact Hr].
  rewrite IH. exact Hr.
Qed.

Lemma log_http_error_ok e (w : World float) :
  fst (log_http_error e w) = Ok tt
  /\ running (snd (log_http_error e w)) = running w.
Proof. destruct e as [| | | | | |[r|]| | | | |]; run; split; reflexivity. Qed.

Lemma after_try_eq sig b (w : World float) :
  bind (logger INFO (NextSnapshot b))
    (fun _ => bind (wait sig (Z.to_nat b) 0) (fun _ => ret b)) w
  = after_try sig b w.
Proof.
  unfold after_try, bind, logger, modify, ret.
  pose proof (wait_ok sig (Z.to_nat b) 0 (add_log (INFO, NextSnapshot b) w)) as Hw.
  destruct (wait sig (Z.to_nat b) 0 (add_log (INFO, NextSnapshot b) w)) as [[[]|?] ?];
    [reflexivity|discriminate].
Qed.

Lemma cycle_unfold picam fingerprint env backoff (w : World float) :
  cycle cfg picam fingerprint env backoff w =
  match attempt cfg picam fingerprint env w with
  | (Ok _, w1) => after_try (ce_signal env) (INTERVAL_SEC cfg) w1
  | (Raise e, w1) =>
      if is_HTTPError e then
        after_try (ce_signal env) (Z.min (Z.max (INTERVAL_SEC cfg * 3) 15) 120)
          (snd (log_http_error e w1))
      else if is_Exception e then
        after_try (ce_signal env) (Z.min (Z.max (INTERVAL_SEC cfg * 3) 15) 120)
          (add_log (ERROR, UnexpectedError e) w1)
      else (Raise e, w1)
  end.
Proof.
  unfold cycle. unfold bind at 1. unfold try_except.
  unfold bind at 1.
  destruct (attempt cfg picam fingerprint env w) as [[[]|e] w1].
  - unfold ret at 1. apply after_try_eq.
  - destruct (is_HTTPError e).
    + unfold bind at 1.
      destruct (log_http_error_ok e w1) as [Hl _].
      destruct (log_http_error e w1) as [[[]|?] w2]; cbn in Hl; [|discriminate].
      unfold ret at 1. apply after_try_eq.
    + destruct (is_Exception e).
      * unfold bind at 1. unfold logger, modify, ret at 1. apply after_try_eq.
      * reflexivity.
Qed.

Lemma after_try_result sig b (w : World float) : fst (after_try sig b w) = Ok b.
Proof. reflexivity. Qed.

Lemma after_try_running b (w : World float) :
  running (snd (after_try None b w)) = running w.
Proof. unfold after_try. cbn [snd]. rewrite wait_running. reflexivity. Qed.

Lemma cycle_result picam fingerprint env backoff (w : World float) :
  fst (cycle cfg picam fingerprint env backoff w) =
  match fst (attempt cfg picam fingerprint env w) with
  | Ok _ => Ok (INTERVAL_SEC cfg)
  | Raise e =>
      if is_Exception e then Ok (Z.min (Z.max (INTERVAL_SEC cfg * 3) 15) 120)
      else Raise e
  end.
Proof.
  rewrite cycle_unfold.
  destruct (attempt cfg picam fingerprint env w) as [[[]|e] w1]; cbn [fst]; [reflexivity|].
  destruct e; reflexivity.
Qed.

Lemma cycle_running picam fingerprint env backoff (w : World float) :
  no_signal env = true ->
  running (snd (cycle cfg picam fingerprint env backoff w)) = running w.
Proof.
  intros Hs. pose proof (attempt_running picam fingerprint env w Hs) as Ha.
  unfold no_signal in Hs. destruct (ce_signal env) eqn:Hsig; [discriminate|].
  rewrite cycle_unfold, Hsig.
  destruct (attempt cfg picam fingerprint env w) as [[[]|e] w1]; cbn [snd] in Ha.
  - rewrite after_try_running. exact Ha.
  - destruct (is_HTTPError e).
    + rewrite after_try_running. destruct (log_http_error_ok e w1) as [_ ->]. exact Ha.
    + destruct (is_Exception e); [rewrite after_try_running|]; exact Ha.
Qed.


Lemma waits_app l1 l2 : waits (l1 ++ l2) = (waits l1 ++ waits l2)%list.
Proof. apply omap_app. Qed.

Ltac log_simpl := cbn [log snd add_log add_event set_cams set_fs set_running];
  rewrite ?waits_app; cbn [waits omap snd]; rewrite ?app_nil_r.

Lemma capture_jpeg_waits env picam (w : World float) :
  waits (log (snd (capture_jpeg cfg env picam w))) = waits (log w).
Proof. destruct env as [o1 o2 o3 o4 o5 o6]. run; log_simpl; reflexivity. Qed.

Lemma upload_snapshot_waits o jpeg token fingerprint (w : World float) :
  waits (log (snd (upload_snapshot cfg o jpeg token fingerprint w))) = waits (log w).
Proof. destruct o; run; log_simpl; reflexivity. Qed.

Lemma deliver_waits b (w : World float) :
  waits (log (snd (deliver b w))) = waits (log w).
Proof. destruct b; run; log_simpl; reflexivity. Qed.

Lemma log_http_error_waits e (w : World float) :
  waits (log (snd (log_http_error e w))) = waits (log w).
Proof. destruct e as [| | | | | |[r|]| | | | |]; run; log_simpl; reflexivity. Qed.

Lemma attempt_waits picam fingerprint env (w : World float) :
  waits (log (snd (attempt cfg picam fingerprint env w))) = waits (log w).
Proof.
  unfold attempt, bind.
  pose proof (deliver_waits (signal_is DuringCapture (ce_signal env)) w) as H0.
  pose proof (deliver_ok (signal_is DuringCapture (ce_signal env)) w) as K0.
  destruct (deliver _ w) as [r0 w0]. cbn [fst snd] in *. subst r0.
  pose proof (capture_jpeg_waits (ce_capture env) picam w0) as H1.
  destruct (capture_jpeg cfg (ce_capture env) picam w0) as [[data|e1] w1];
    cbn [snd] in *; [|congruence].
  pose proof (deliver_waits (signal_is DuringUpload (ce_signal env)) w1) as H2.
  pose proof (deliver_ok (signal_is DuringUpload (ce_signal env)) w1) as K2.
  destruct (deliver _ w1) as [r2 w2]. cbn [fst snd] in *. subst r2.
  rewrite upload_snapshot_waits. congruence.
Qed.

Lemma wait_waits sig n i (w : World float) :
  waits (log (snd (wait sig n i w))) = waits (log w).
Proof.
  revert i w. induction n as [|n IH]; intros i w; [reflexivity|].
  rewrite wait_step. destruct (running w); [|reflexivity].
  rewrite IH, deliver_waits. reflexivity.
Qed.

Lemma after_try_waits sig b (w : World float) :
  waits (log (snd (after_try sig b w))) = (waits (log w) ++ [b])%list.
Proof. unfold after_try. cbn [snd]. rewrite wait_waits. log_simpl. reflexivity. Qed.

(** A cycle that returns has announced exactly one wait, of the interval
    it returns; a cycle that raises has announced none. *)
Lemma cycle_waits picam fingerprint env backoff (w : World float) :
  waits (log (snd (cycle cfg picam fingerprint env backoff w)))
  = (waits (log w) ++
     match fst (cycle cfg picam fingerprint env backoff w) with
     | Ok b => [b]
     | Raise _ => []
     end)%list.
Proof.
  rewrite cycle_unfold.
  pose proof (attempt_waits picam fingerprint env w) as Ha.
  destruct (attempt cfg picam fingerprint env w) as [[[]|e] w1]; cbn [snd] in Ha.
  - rewrite after_try_result, after_try_waits. congruence.
  - destruct (is_HTTPError e).
    + rewrite after_try_result, after_try_waits, log_http_error_waits. congruence.
    + destruct (is_Exception e).
      * rewrite after_try_result, after_try_waits. log_simpl. congruence.
      * cbn [fst snd]. rewrite app_nil_r. exact Ha.
Qed.

Lemma main_loop_unfold picam fingerprint envs backoff (w : World float) :
  main_loop cfg picam fingerprint envs backoff w =
  if running w then
    match envs with
    | [] => (Ok (LoopRunning, backoff), w)
    | env :: envs' =>
        match cycle cfg picam fingerprint env backoff w with
        | (Ok b, w') => main_loop cfg picam fingerprint envs' b w'
        | (Raise e, w') => (Raise e, w')
        end
    end
  else (Ok (LoopExited, backoff), w).
Proof. destruct envs; cbn [main_loop]; unfold bind, gets, ret; destruct (running w); reflexivity. Qed.

Lemma cycle_survives picam fingerprint env backoff (w : World float) :
  cycle_env_ok env = true ->
  fst (cycle cfg picam fingerprint env backoff w) = Ok (INTERVAL_SEC cfg)
  \/ fst (cycle cfg picam fingerprint env backoff w)
     = Ok (Z.min (Z.max (INTERVAL_SEC cfg * 3) 15) 120).
Proof.
  intros Hok. rewrite cycle_result.
  destruct (attempt cfg picam fingerprint env w) as [[[]|e] w1] eqn:Ha; cbn [fst].
  - left; reflexivity.
  - rewrite (attempt_raises _ _ _ _ _ _ Hok Ha). right; reflexivity.
Qed.

Lemma cycle_values picam fingerprint env backoff (w : World float) b :
  fst (cycle cfg picam fingerprint env backoff w) = Ok b ->
  b = INTERVAL_SEC cfg \/ b = Z.min (Z.max (INTERVAL_SEC cfg * 3) 15) 120.
Proof.
  rewrite cycle_result.
  destruct (fst (attempt cfg picam fingerprint env w)) as [[]|e].
  - intros H; simplify_eq; left; reflexivity.
  - destruct (is_Exception e); intros H; simplify_eq. right; reflexivity.
Qed.

(** The loop over cycles whose failures are all exceptions of class
    [Exception]: it returns, it has left the loop only with [running]
    false, and without a signal it has run every cycle. *)
Lemma main_loop_survives picam fingerprint envs backoff (w : World float) :
  Forall (fun env => cycle_env_ok env = true) envs ->
  exists st b,
    fst (main_loop cfg picam fingerprint envs backoff w) = Ok (st, b)
    /\ (st = LoopExited ->
        running (snd (main_loop cfg picam fingerprint envs backoff w)) = false)
    /\ (running w = true -> Forall (fun env => no_signal env = true) envs ->
        st = LoopRunning
        /\ running (snd (main_loop cfg picam fingerprint envs backoff w)) = true
        /\ length (waits (log (snd (main_loop cfg picam fingerprint envs backoff w))))
           = (length (waits (log w)) + length envs)%nat).
Proof.
  intros Hok. revert backoff w.
  induction Hok as [|env envs Henv Hok IH]; intros backoff w.
  - rewrite main_loop_unfold. destruct (running w) eqn:Hr.
    + exists LoopRunning, backoff. cbn. repeat split; try discriminate; auto.
    + exists LoopExited, backoff. cbn. repeat split; auto; discriminate.
  - rewrite main_loop_unfold. destruct (running w) eqn:Hr.
    + pose proof (cycle_survives picam fingerprint env backoff w Henv) as Hc.
      pose proof (cycle_running picam fingerprint env backoff w) as Hrun.
      pose proof (cycle_waits picam fingerprint env backoff w) as Hw.
      destruct (cycle cfg picam fingerprint env backoff w) as [[b|e] w1];
        cbn [fst snd] in *; [|destruct Hc; discriminate].
      destruct (IH b w1) as (st & b' & H1 & H2 & H3).
      exists st, b'. split; [exact H1|]. split; [exact H2|].
      intros _ Hsig. inversion Hsig as [|? ? Hs1 Hs2]; subst.
      destruct H3 as (H3 & H4 & H5); [rewrite Hrun; auto|exact Hs2|].
      split; [exact H3|]. split; [exact H4|].
      rewrite H5, Hw. rewrite length_app. cbn. lia.
    + exists LoopExited, backoff. cbn. repeat split; auto; discriminate.
Qed.

(** With [INTERVAL_SEC] at most 120 every value of [backoff] is between
    [INTERVAL_SEC] and 120. *)
Lemma main_loop_range picam fingerprint envs backoff (w : World float) :
  (INTERVAL_SEC cfg <= maxInterval)%Z ->
  in_range (INTERVAL_SEC cfg) maxInterval backoff ->
  (forall st b, fst (main_loop cfg picam fingerprint envs backoff w) = Ok (st, b) ->
     in_range (INTERVAL_SEC cfg) maxInterval b)
  /\ exists bs,
       waits (log (snd (main_loop cfg picam fingerprint envs backoff w)))
       = (waits (log w) ++ bs)%list
       /\ Forall (in_range (INTERVAL_SEC cfg) maxInterval) bs.
Proof.
  intros Hmax. revert backoff w.
  induction envs as [|env envs IH]; intros backoff w Hb.
  - rewrite main_loop_unfold. destruct (running w); cbn; split.
    1,3: intros st b H; simplify_eq; exact Hb.
    all: exists []; rewrite app_nil_r; split; [reflexivity|constructor].
  - rewrite main_loop_unfold. destruct (running w); cbn.
    2:{ split; [intros st b H; simplify_eq; exact Hb|].
        exists []; rewrite app_nil_r; split; [reflexivity|constructor]. }
    pose proof (cycle_values picam fingerprint env backoff w) as Hv.
    pose proof (cycle_waits picam fingerprint env backoff w) as Hw.
    destruct (cycle cfg picam fingerprint env backoff w) as [[b1|e] w1];
      cbn [fst snd] in *.
    + assert (in_range (INTERVAL_SEC cfg) maxInterval b1) as Hb1.
      { unfold in_range, maxInterval in *. destruct (Hv b1 eq_refl); lia. }
      destruct (IH b1 w1 Hb1) as [H1 (bs & H2 & H3)].
      split; [exact H1|].
      exists (b1 :: bs). split; [|constructor; assumption].
      rewrite H2, Hw, <- app_assoc. reflexivity.
    + split; [discriminate|].
      exists []. rewrite Hw. split; [reflexivity|constructor].
Qed.

End LoopProperties.

#[local] Arguments uuid_hex : simpl never.
#[local] Arguments list_byte_of_string : simpl never.
#[local] Arguments string_of_list_byte : simpl never.

(** * Text and its encoding *)

Section TextProperties.

(** The two readings of white space agree on a [string]. *)
Lemma uisspace_ascii c : uisspace (N_of_ascii c) = isspace c.
Proof. destruct c as [[] [] [] [] [] [] [] []]; reflexivity. Qed.

Lemma ulstrip_of_string s : ulstrip (unicode_of_string s) = unicode_of_string (lstrip s).
Proof.
  induction s as [|c s IH]; [reflexivity|]. cbn [unicode_of_string ulstrip lstrip].
  rewrite uisspace_ascii. destruct (isspace c); [exact IH|reflexivity].
Qed.

Lemma urstrip_of_string s : urstrip (unicode_of_string s) = unicode_of_string (rstrip s).
Proof.
  induction s as [|c s IH]; [reflexivity|]. cbn [unicode_of_string urstrip rstrip].
  rewrite IH, uisspace_ascii.
  destruct (rstrip s); [destruct (isspace c)|]; reflexivity.
Qed.

Lemma ustrip_of_string s : ustrip (unicode_of_string s) = unicode_of_string (strip s).
Proof. unfold ustrip, strip. rewrite ulstrip_of_string. apply urstrip_of_string. Qed.

Lemma unonempty_of_string s : unonempty (unicode_of_string s) = nonempty s.
Proof. destruct s; reflexivity. Qed.

Lemma unicode_of_string_inj s1 s2 :
  unicode_of_string s1 = unicode_of_string s2 -> s1 = s2.
Proof.
  revert s2. induction s1 as [|c1 s1 IH]; intros [|c2 s2] H; try discriminate;
    [reflexivity|].
  cbn in H. injection H as Hc Hs. f_equal; [|exact (IH _ Hs)].
  rewrite <- (ascii_N_embedding c1), <- (ascii_N_embedding c2), Hc. reflexivity.
Qed.

Lemma byte_to_N_ascii c : Byte.to_N (byte_of_ascii c) = N_of_ascii c.
Proof. destruct c as [[] [] [] [] [] [] [] []]; reflexivity. Qed.

Lemma byte_of_N_ascii c : byte_of_N (N_of_ascii c) = byte_of_ascii c.
Proof. destruct c as [[] [] [] [] [] [] [] []]; reflexivity. Qed.

(** Every [string] can be encoded. *)
Lemma utf8_encode_char_ascii c : exists d, utf8_encode_char (N_of_ascii c) = Some d.
Proof. destruct c as [[] [] [] [] [] [] [] []]; eexists; reflexivity. Qed.

Lemma utf8_encode_string s : exists d, utf8_encode (unicode_of_string s) = Some d.
Proof.
  induction s as [|c s [d IH]]; [eexists; reflexivity|].
  cbn [unicode_of_string utf8_encode].
  destruct (utf8_encode_char_ascii c) as [a ->]. rewrite IH. eauto.
Qed.

Lemma list_byte_of_string_cons c s :
  list_byte_of_string (String c s) = byte_of_ascii c :: list_byte_of_string s.
Proof. reflexivity. Qed.

(** The characters below 128 are their own encoding. *)
Lemma utf8_encode_plain s :
  all_plain s = true ->
  utf8_encode (unicode_of_string s) = Some (list_byte_of_string s).
Proof.
  induction s as [|c s IH]; [reflexivity|]. cbn [all_plain].
  rewrite !andb_true_iff. intros [[Hc _] Hs].
  cbn [unicode_of_string utf8_encode]. rewrite (IH Hs).
  unfold utf8_encode_char. rewrite Hc, byte_of_N_ascii. reflexivity.
Qed.

Lemma utf8_decode_plain s :
  all_plain s = true ->
  utf8_decode (list_byte_of_string s) = Some (unicode_of_string s).
Proof.
  induction s as [|c s IH]; [reflexivity|]. cbn [all_plain].
  rewrite !andb_true_iff. intros [[Hc _] Hs].
  rewrite list_byte_of_string_cons. cbn [utf8_decode unicode_of_string].
  rewrite byte_to_N_ascii, Hc, (IH Hs). reflexivity.
Qed.

Lemma universal_newlines_plain s :
  all_plain s = true ->
  universal_newlines (unicode_of_string s) = unicode_of_string s.
Proof.
  induction s as [|c s IH]; [reflexivity|]. cbn [all_plain].
  rewrite !andb_true_iff, negb_true_iff. intros [[_ Hc] Hs].
  cbn [unicode_of_string universal_newlines]. rewrite Hc, (IH Hs). reflexivity.
Qed.

Lemma decode_text_plain s :
  all_plain s = true ->
  decode_text (list_byte_of_string s) = Some (unicode_of_string s).
Proof.
  intros H. unfold decode_text. rewrite (utf8_decode_plain s H). cbn [option_map].
  rewrite (universal_newlines_plain s H). reflexivity.
Qed.

End TextProperties.

Section FingerprintProperties.

Context {float : Type}.
Variable cfg : Config float.

Lemma hexdigit_nonspace d : isspace (hexdigit d) = false.
Proof.
  destruct d as [|p]; [reflexivity|].
  do 4 (destruct p as [p|p|]; try reflexivity).
Qed.

Lemma hexdigit_plain d :
  ((N_of_ascii (hexdigit d) <? 128)%N && negb (N_of_ascii (hexdigit d) =? 13)%N) = true.
Proof.
  destruct d as [|p]; [reflexivity|].
  do 4 (destruct p as [p|p|]; try reflexivity).
Qed.

Lemma hex_pad_nonspace k n acc :
  all_nonspace acc = true -> all_nonspace (hex_pad k n acc) = true.
Proof.
  revert n acc. induction k as [|k IH]; intros n acc H; [exact H|].
  cbn [hex_pad]. apply IH. cbn [all_nonspace]. rewrite hexdigit_nonspace, H.
  reflexivity.
Qed.

Lemma hex_pad_plain k n acc :
  all_plain acc = true -> all_plain (hex_pad k n acc) = true.
Proof.
  revert n acc. induction k as [|k IH]; intros n acc H; [exact H|].
  cbn [hex_pad]. apply IH. cbn [all_plain]. rewrite hexdigit_plain, H.
  reflexivity.
Qed.

Lemma hex_pad_nonempty k n acc :
  nonempty acc = true -> nonempty (hex_pad k n acc) = true.
Proof.
  revert n acc. induction k as [|k IH]; intros n acc H; [exact H|].
  cbn [hex_pad]. apply IH. reflexivity.
Qed.

Lemma lstrip_nonspace s : all_nonspace s = true -> lstrip s = s.
Proof.
  destruct s as [|c s]; [reflexivity|]. cbn. 
  destruct (isspace c); [discriminate|reflexivity].
Qed.

Lemma rstrip_nonspace s : all_nonspace s = true -> rstrip s = s.
Proof.
  induction s as [|c s IH]; [reflexivity|]. cbn [all_nonspace rstrip].
  rewrite andb_true_iff, negb_true_iff. intros [Hc Hs].
  rewrite (IH Hs). destruct s; [rewrite Hc|]; reflexivity.
Qed.

Lemma strip_uuid_hex n : strip (uuid_hex n) = uuid_hex n.
Proof.
  assert (all_nonspace (uuid_hex n) = true) as H
    by (apply hex_pad_nonspace; reflexivity).
  unfold strip. rewrite (lstrip_nonspace _ H). apply rstrip_nonspace, H.
Qed.

Lemma nonempty_uuid_hex n : nonempty (uuid_hex n) = true.
Proof.
  unfold uuid_hex. change 32%nat with (S 31). generalize 31%nat. intros k. change (nonempty
    (hex_pad k (n / 16)%N (String (hexdigit (n mod 16)%N) EmptyString)) = true).
  apply hex_pad_nonempty. reflexivity.
Qed.

Lemma all_plain_uuid_hex n : all_plain (uuid_hex n) = true.
Proof. apply hex_pad_plain. reflexivity. Qed.

(** The identity [uuid.uuid4().hex] as a text and in a file. *)
Lemma ustrip_uuid_hex n :
  ustrip (unicode_of_string (uuid_hex n)) = unicode_of_string (uuid_hex n).
Proof. rewrite ustrip_of_string, strip_uuid_hex. reflexivity. Qed.

Lemma unonempty_uuid_hex n : unonempty (unicode_of_string (uuid_hex n)) = true.
Proof. rewrite unonempty_of_string. apply nonempty_uuid_hex. Qed.

Lemma utf8_encode_uuid_hex n :
  utf8_encode (unicode_of_string (uuid_hex n)) = Some (list_byte_of_string (uuid_hex n)).
Proof. apply utf8_encode_plain, all_plain_uuid_hex. Qed.

Lemma decode_text_uuid_hex n :
  decode_text (list_byte_of_string (uuid_hex n)) = Some (unicode_of_string (uuid_hex n)).
Proof. apply decode_text_plain, all_plain_uuid_hex. Qed.

Lemma mkdir_from_keeps t pre rest b t' p v :
  mkdir_from t pre rest = (b, t') -> t !! p = Some v -> t' !! p = Some v.
Proof.
  revert t pre. induction rest as [|c rest IH]; intros t pre H Hp; cbn in H.
  - simplify_eq. exact Hp.
  - destruct (t !! (pre ++ [c])%list) as [[|d]|] eqn:Hq.
    + eapply IH; eauto.
    + simplify_eq. exact Hp.
    + eapply IH; [exact H|].
      rewrite lookup_insert_ne; [exact Hp|]. intros Heq. rewrite <- Heq in Hp. congruence.
Qed.

Lemma mkdir_from_present t pre rest t' :
  mkdir_from t pre rest = (true, t') -> dirs_present t' pre rest = true.
Proof.
  revert t pre. induction rest as [|c rest IH]; intros t pre H; [reflexivity|].
  cbn in H. cbn [dirs_present].
  destruct (t !! (pre ++ [c])%list) as [[|d]|] eqn:Hq.
  - rewrite (mkdir_from_keeps _ _ _ _ _ _ _ H Hq). eapply IH; eauto.
  - discriminate.
  - rewrite (mkdir_from_keeps _ _ _ _ _ _ Dir H); [eapply IH; eauto|].
    apply lookup_insert_eq.
Qed.

Lemma mkdir_from_idle t pre rest :
  dirs_present t pre rest = true -> mkdir_from t pre rest = (true, t).
Proof.
  revert pre. induction rest as [|c rest IH]; intros pre H; [reflexivity|].
  cbn in *. destruct (t !! (pre ++ [c])%list) as [[|d]|]; try discriminate.
  apply IH, H.
Qed.

Lemma dirs_present_insert t pre rest p v :
  (length pre + length rest < length p)%nat ->
  dirs_present t pre rest = true ->
  dirs_present (<[p := v]> t) pre rest = true.
Proof.
  revert pre. induction rest as [|c rest IH]; intros pre Hlen H; [reflexivity|].
  cbn in *. rewrite lookup_insert_ne.
  - destruct (t !! (pre ++ [c])%list) as [[|d]|]; try discriminate.
    apply IH; [rewrite length_app; cbn; lia|exact H].
  - intros ->. rewrite length_app in Hlen. cbn in Hlen. lia.
Qed.

Lemma parent_FINGERPRINT_FILE : parent (FINGERPRINT_FILE cfg) = CONFIG_DIR cfg.
Proof. unfold parent, FINGERPRINT_FILE. apply removelast_last. Qed.

Lemma fs_exists_FINGERPRINT_FILE t :
  fs_exists t (FINGERPRINT_FILE cfg) =
  match t !! FINGERPRINT_FILE cfg with Some _ => true | None => false end.
Proof.
  unfold fs_exists, FINGERPRINT_FILE.
  destruct (CONFIG_DIR cfg ++ ["fingerprint.txt"])%list eqn:H; [|reflexivity].
  destruct (CONFIG_DIR cfg); discriminate.
Qed.

Lemma is_dir_CONFIG_DIR t :
  is_dir t (CONFIG_DIR cfg) =
  match t !! CONFIG_DIR cfg with Some Dir => true | _ => false end.
Proof.
  unfold is_dir, CONFIG_DIR.
  destruct (HOME cfg ++ [".config"; "jimbo-cam"])%list eqn:H; [|reflexivity].
  destruct (HOME cfg); discriminate.
Qed.

Lemma Path_mkdir_run o p (w : World float) :
  Path_mkdir o p w =
  match o with
  | Some e => (Raise e, add_event (EvMkdir p) w)
  | None =>
      match mkdir_from (fs w) [] p with
      | (true, t) => (Ok tt, set_fs t (add_event (EvMkdir p) w))
      | (false, t) => (Raise (OSError "FileExistsError"), set_fs t (add_event (EvMkdir p) w))
      end
  end.
Proof. destruct o; reflexivity. Qed.

Lemma Path_read_text_run o p (w : World float) :
  Path_read_text o p w =
  match o with
  | Some e => (Raise e, add_event (EvRead p) w)
  | None =>
      match fs w !! p with
      | Some (File d) =>
          match decode_text d with
          | Some t => (Ok t, add_event (EvRead p) w)
          | None => (Raise UnicodeDecodeError, add_event (EvRead p) w)
          end
      | Some Dir => (Raise (OSError "IsADirectoryError"), add_event (EvRead p) w)
      | None => (Raise (OSError "FileNotFoundError"), add_event (EvRead p) w)
      end
  end.
Proof.
  destruct o; [reflexivity|].
  unfold Path_read_text, Path_read_bytes, bind, emit, modify, fault, gets,
    fs_read, lift_result, raise, ret. cbn [fs add_event].
  destruct (fs w !! p) as [[|d]|]; [reflexivity| |reflexivity].
  lazy beta iota. destruct (decode_text d); reflexivity.
Qed.

(** [write_text] of a text that can be encoded. *)
Lemma Path_write_text_run o p s d (w : World float) :
  utf8_encode s = Some d ->
  Path_write_text o p s w =
  match o with
  | Some e => (Raise e, add_event (EvWrite p d) w)
  | None =>
      match fs_write (fs w) p d with
      | Ok t => (Ok tt, set_fs t (add_event (EvWrite p d) w))
      | Raise e => (Raise e, add_event (EvWrite p d) w)
      end
  end.
Proof.
  intros Hd. unfold Path_write_text. rewrite Hd.
  destruct o; [reflexivity|].
  unfold Path_write_bytes, bind, emit, modify, fault, ret, gets,
    lift_result. cbn [fs add_event].
  destruct (fs_write (fs w) p d); reflexivity.
Qed.

(** Lines 153-156 of [get_or_create_fingerprint]. *)
Lemma generate_ok_inv o r (w w1 : World float) fp :
  bind (uuid4_hex r) (fun fp =>
    bind (Path_write_text o (FINGERPRINT_FILE cfg) fp) (fun _ =>
      bind (logger INFO (GeneratedFingerprint fp)) (fun _ => ret fp))) w = (Ok fp, w1) ->
  fp = unicode_of_string (uuid_hex (uuid4_int r))
  /\ fs w1 = <[FINGERPRINT_FILE cfg := File (list_byte_of_string (uuid_hex (uuid4_int r)))]>
              (fs w).
Proof.
  unfold bind at 1. unfold uuid4_hex at 1. unfold bind at 1.
  unfold emit at 1, modify at 1, ret at 1. unfold bind at 1.
  rewrite (Path_write_text_run _ _ _ _ _ (utf8_encode_uuid_hex _)).
  generalize (uuid_hex (uuid4_int r)). intros hex.
  destruct o as [e|]; [discriminate|].
  cbn [fs add_event].
  destruct (fs_write (fs w) (FINGERPRINT_FILE cfg) _) as [t|e] eqn:Hw; [|discriminate].
  unfold bind, logger, modify, ret. intros H. injection H as <- <-.
  split; [reflexivity|]. cbn [fs add_log set_fs].
  unfold fs_write in Hw. destruct (is_dir _ _); [|discriminate].
  destruct (fs w !! FINGERPRINT_FILE cfg) as [[|d]|]; simplify_eq; reflexivity.
Qed.

Lemma FINGERPRINT_FILE_length :
  (length (@nil string) + length (CONFIG_DIR cfg) < length (FINGERPRINT_FILE cfg))%nat.
Proof. unfold FINGERPRINT_FILE. rewrite length_app. cbn. lia. Qed.

(** What a normal return of [get_or_create_fingerprint] leaves behind:
    the directories, and a file whose stripped text is the identity. *)
Lemma get_or_create_fingerprint_ok_inv env (w w1 : World float) fp :
  get_or_create_fingerprint cfg env w = (Ok fp, w1) ->
  dirs_present (fs w1) [] (CONFIG_DIR cfg) = true
  /\ exists d t, fs w1 !! FINGERPRINT_FILE cfg = Some (File d)
       /\ decode_text d = Some t
       /\ ustrip t = fp
       /\ unonempty fp = true.
Proof.
  unfold get_or_create_fingerprint. rewrite parent_FINGERPRINT_FILE.
  set (gen := bind (uuid4_hex _) _).
  assert (forall w0, dirs_present (fs w0) [] (CONFIG_DIR cfg) = true ->
            gen w0 = (Ok fp, w1) ->
            dirs_present (fs w1) [] (CONFIG_DIR cfg) = true
            /\ exists d t, fs w1 !! FINGERPRINT_FILE cfg = Some (File d)
                 /\ decode_text d = Some t
                 /\ ustrip t = fp /\ unonempty fp = true) as Hgen.
  { intros w0 Hd Hg. apply generate_ok_inv in Hg as [-> ->]. split.
    - apply dirs_present_insert; [apply FINGERPRINT_FILE_length|exact Hd].
    - eexists _, _. split; [apply lookup_insert_eq|].
      split; [apply decode_text_uuid_hex|].
      split; [apply ustrip_uuid_hex|apply unonempty_uuid_hex]. }
  clearbody gen.
  unfold bind at 1. rewrite Path_mkdir_run.
  destruct (st_mkdir env); [discriminate|].
  destruct (mkdir_from (fs w) [] (CONFIG_DIR cfg)) as [[|] t] eqn:Hmk; [|discriminate].
  apply mkdir_from_present in Hmk.
  unfold bind at 1. unfold Path_exists at 1, bind at 1, emit at 1, modify at 1, gets at 1.
  cbn [fs set_fs add_event]. rewrite fs_exists_FINGERPRINT_FILE.
  unfold bind at 1.
  destruct (t !! FINGERPRINT_FILE cfg) as [nd|] eqn:Hf.
  - unfold bind at 1. rewrite Path_read_text_run. cbn [fs set_fs add_event].
    rewrite Hf. destruct (st_read env); [discriminate|].
    destruct nd as [|d]; [discriminate|].
    destruct (decode_text d) as [t0|] eqn:Hdec; [|discriminate].
    destruct (unonempty (ustrip t0)) eqn:Hne.
    + unfold bind, logger, modify, ret. intros H. simplify_eq.
      cbn [fs add_log add_event set_fs]. split; [exact Hmk|].
      exists d, t0. auto.
    + unfold ret at 1. apply Hgen. exact Hmk.
  - unfold ret at 1. apply Hgen. exact Hmk.
Qed.

(** A second call on a storage without faults reads the file and
    neither creates a directory, nor draws random bytes, nor writes. *)
Lemma get_or_create_fingerprint_again r (w : World float) d t :
  dirs_present (fs w) [] (CONFIG_DIR cfg) = true ->
  fs w !! FINGERPRINT_FILE cfg = Some (File d) ->
  decode_text d = Some t ->
  unonempty (ustrip t) = true ->
  get_or_create_fingerprint cfg (quiet_storage r) w =
  (Ok (ustrip t),
   add_log (INFO, LoadedFingerprint (ustrip t))
     (add_event (EvRead (FINGERPRINT_FILE cfg))
        (add_event (EvExists (FINGERPRINT_FILE cfg))
           (add_event (EvMkdir (CONFIG_DIR cfg)) w)))).
Proof.
  intros Hd Hf Hdec Hne.
  unfold get_or_create_fingerprint. rewrite parent_FINGERPRINT_FILE.
  set (gen := bind (uuid4_hex _) _). clearbody gen.
  unfold bind at 1. rewrite Path_mkdir_run. cbn [quiet_storage st_mkdir st_read].
  rewrite (mkdir_from_idle _ _ _ Hd).
  unfold bind at 1. unfold Path_exists at 1, bind at 1, emit at 1, modify at 1, gets at 1.
  cbn [fs set_fs add_event]. rewrite fs_exists_FINGERPRINT_FILE, Hf.
  unfold bind at 1. unfold bind at 1. rewrite Path_read_text_run.
  cbn [fs set_fs add_event]. rewrite Hf, Hdec, Hne.
  unfold bind, logger, modify, ret.
  destruct w; reflexivity.
Qed.

End FingerprintProperties.

(** * The claims *)

Section Claims.

Context {float : Type}.
Variable cfg : Config float.

(** C1 (as amended).  [capture_jpeg] stops the camera only after
    [picam.capture_file] has returned.  For a camera object [picam]:
    on a normal return the camera is stopped; when the capture and
    [picam.stop] went through and the read-back of the bytes or the
    removal of the temporary file fails, the camera is stopped as well;
    when [picam.capture_file] raises, the exception leaves [capture_jpeg]
    with the camera still started. *)
Theorem capture_jpeg_stops_after_capture env picam (w : World float) c :
  cams w !! picam = Some c ->
  (forall data, fst (capture_jpeg cfg env picam w) = Ok data ->
     camera_started (snd (capture_jpeg cfg env picam w)) picam = false)
  /\ (forall d t,
        cap_configure env = None -> cap_start env = None ->
        cap_capture env = inr d -> fs_write (fs w) tmp_path d = Ok t ->
        cap_stop env = None ->
        camera_started (snd (capture_jpeg cfg env picam w)) picam = false)
  /\ (forall e,
        cap_configure env = None -> cap_start env = None ->
        cap_capture env = inl e ->
        fst (capture_jpeg cfg env picam w) = Raise e
        /\ camera_started (snd (capture_jpeg cfg env picam w)) picam = true).
Proof.
  intros Hc. split; [|split].
  - intros data H.
    destruct (capture_jpeg cfg env picam w) as [r w'] eqn:Hrun. cbn [fst snd] in *.
    subst r. apply capture_jpeg_ok_inv in Hrun as (_ & _ & _ & Hcams & _).
    unfold camera_started. rewrite Hcams, list_lookup_alter_eq.
    destruct (alter (with_started true) picam _ !! picam); reflexivity.
  - intros d t H1 H2 H3 H4 H5. destruct env as [o1 o2 o3 o4 o5 o6].
    cbn in H1, H2, H3, H5. subst. unfold tmp_path, camera_started in *.
    run; rewrite !list_lookup_alter_eq, Hc in *; simplify_eq/=; reflexivity.
  - intros e H1 H2 H3. destruct env as [o1 o2 o3 o4 o5 o6].
    cbn in H1, H2, H3. subst. unfold camera_started.
    run; rewrite !list_lookup_alter_eq, Hc in *; simplify_eq/=; split; reflexivity.
Qed.

(** C10.  A call of [capture_jpeg] that returns has written the image the
    camera produced to [/tmp/prusa_snapshot.jpg], has read it back and
    has removed the file: the returned bytes are the bytes written, no
    file is left at that path and the rest of the file system is as
    before. *)
Theorem capture_jpeg_leaves_no_file env picam (w w' : World float) data :
  capture_jpeg cfg env picam w = (Ok data, w') ->
  cap_capture env = inr data
  /\ trace w' = (trace w ++
       [EvCamConfigure picam; EvCamStart picam; EvSleep 200;
        EvCamCapture picam tmp_path; EvWrite tmp_path data;
        EvCamStop picam; EvRead tmp_path; EvUnlink tmp_path])%list
  /\ fs w' !! tmp_path = None
  /\ fs w' = delete tmp_path (fs w).
Proof.
  intros H. apply capture_jpeg_ok_inv in H as (H1 & H2 & H3 & _ & _).
  repeat split; try assumption. rewrite H2. apply lookup_delete_eq.
Qed.

(** C2 (as amended).  [upload_snapshot] reports a failure by raising: the
    exception of [requests.put] when the exchange fails,
    [requests.HTTPError] carrying the response when the status is between
    400 and 599; otherwise it returns [None].  The exceptions are caught
    by the loop of [main]: a cycle whose failures derive from [Exception]
    returns. *)
Theorem upload_snapshot_raises_on_failure o jpeg token fingerprint (w : World float) :
  fst (upload_snapshot cfg o jpeg token fingerprint w) =
    match o with
    | inl e => Raise e
    | inr r =>
        if is_error_status (status_code r) then Raise (HTTPError (Some r)) else Ok tt
    end
  /\ forall picam env backoff,
       cycle_env_ok env = true ->
       exists b, fst (cycle cfg picam fingerprint env backoff w) = Ok b.
Proof.
  split; [apply upload_snapshot_result|].
  intros picam env backoff Hok.
  destruct (cycle_survives cfg picam fingerprint env backoff w Hok) as [H|H];
    rewrite H; eauto.
Qed.

(** C3.  Over any list of cycles whose capture and upload failures are
    exceptions deriving from [Exception], the loop of [main] does not
    raise; it has left the loop only if [running] is false; and when no
    termination signal arrives and [running] is true at the start, it has
    run every cycle, failed or not, and is about to start the next one. *)
Theorem loop_survives_failed_cycles picam fingerprint envs backoff (w : World float) :
  Forall (fun env => cycle_env_ok env = true) envs ->
  exists st b,
    fst (main_loop cfg picam fingerprint envs backoff w) = Ok (st, b)
    /\ (st = LoopExited ->
        running (snd (main_loop cfg picam fingerprint envs backoff w)) = false)
    /\ (running w = true -> Forall (fun env => no_signal env = true) envs ->
        st = LoopRunning
        /\ running (snd (main_loop cfg picam fingerprint envs backoff w)) = true
        /\ length (waits (log (snd (main_loop cfg picam fingerprint envs backoff w))))
           = (length (waits (log w)) + length envs)%nat).
Proof. apply main_loop_survives. Qed.

Lemma escalation_is_clamp x : Z.min (Z.max x 15) 120 = clamp x 15 120.
Proof.
  unfold clamp. destruct (Z.ltb_spec x 15); [lia|].
  destruct (Z.ltb_spec 120 x); lia.
Qed.

(** C4 (as amended).  A cycle whose [try] block raises an exception
    deriving from [Exception] (a capture error, a transport error, or the
    [requests.HTTPError] of a response with a status between 400 and 599)
    leaves [backoff] at [clamp(INTERVAL_SEC * 3, 15, 120)], whatever
    [backoff] was before, so that consecutive failures keep the same
    value; for [INTERVAL_SEC] 10, 50 and 1 the value is 30, 120 and 15.
    A response with any other status, a success status or not, raises
    nothing in [upload_snapshot], and a cycle whose [try] block returns
    leaves [backoff] at [INTERVAL_SEC]. *)
Theorem failed_cycle_escalates picam fingerprint env backoff (w : World float) e :
  fst (attempt cfg picam fingerprint env w) = Raise e ->
  is_Exception e = true ->
  fst (cycle cfg picam fingerprint env backoff w)
    = Ok (clamp (INTERVAL_SEC cfg * 3) 15 120)
  /\ (forall env' w' e',
        fst (attempt cfg picam fingerprint env' w') = Raise e' ->
        is_Exception e' = true ->
        fst (cycle cfg picam fingerprint env'
               (clamp (INTERVAL_SEC cfg * 3) 15 120) w')
        = Ok (clamp (INTERVAL_SEC cfg * 3) 15 120))
  /\ (INTERVAL_SEC cfg = 10%Z ->
        fst (cycle cfg picam fingerprint env backoff w) = Ok 30%Z)
  /\ (INTERVAL_SEC cfg = 50%Z ->
        fst (cycle cfg picam fingerprint env backoff w) = Ok 120%Z)
  /\ (INTERVAL_SEC cfg = 1%Z ->
        fst (cycle cfg picam fingerprint env backoff w) = Ok 15%Z)
  /\ (forall r jpeg w',
        is_error_status (status_code r) = false ->
        fst (upload_snapshot cfg (inr r) jpeg (PRUSA_TOKEN cfg) fingerprint w') = Ok tt)
  /\ (forall env' b' w',
        fst (attempt cfg picam fingerprint env' w') = Ok tt ->
        fst (cycle cfg picam fingerprint env' b' w') = Ok (INTERVAL_SEC cfg)).
Proof.
  intros Ha He.
  assert (forall env' b' w' e',
            fst (attempt cfg picam fingerprint env' w') = Raise e' ->
            is_Exception e' = true ->
            fst (cycle cfg picam fingerprint env' b' w')
            = Ok (clamp (INTERVAL_SEC cfg * 3) 15 120)) as Hall.
  { intros env' b' w' e' Ha' He'.
    rewrite cycle_result, Ha', He', escalation_is_clamp. reflexivity. }
  split; [eapply Hall; eauto|]. split; [intros; eapply Hall; eauto|].
  split; [intros Hi; rewrite (Hall _ _ _ _ Ha He), Hi; reflexivity|].
  split; [intros Hi; rewrite (Hall _ _ _ _ Ha He), Hi; reflexivity|].
  split; [intros Hi; rewrite (Hall _ _ _ _ Ha He), Hi; reflexivity|].
  split.
  - intros r jpeg w' Hr. rewrite upload_snapshot_result, Hr. reflexivity.
  - intros env' b' w' Ha'. rewrite cycle_result, Ha'. reflexivity.
Qed.

(** C5.  A cycle whose capture and upload both return leaves [backoff] at
    [INTERVAL_SEC], whatever [backoff] was before, and waits for that
    interval. *)
Theorem successful_cycle_resets_backoff picam fingerprint env backoff (w : World float) :
  fst (attempt cfg picam fingerprint env w) = Ok tt ->
  fst (cycle cfg picam fingerprint env backoff w) = Ok (INTERVAL_SEC cfg)
  /\ waits (log (snd (cycle cfg picam fingerprint env backoff w)))
     = (waits (log w) ++ [INTERVAL_SEC cfg])%list.
Proof.
  intros Ha.
  assert (fst (cycle cfg picam fingerprint env backoff w) = Ok (INTERVAL_SEC cfg)) as H
    by (rewrite cycle_result, Ha; reflexivity).
  split; [exact H|]. rewrite cycle_waits, H. reflexivity.
Qed.

(** C6 (as amended).  When [INTERVAL_SEC] is at most 120, over every list
    of cycles the value of [backoff] is between [INTERVAL_SEC] and 120:
    at the start, after every reset and after every escalation, and so is
    every interval the loop waits for. *)
Theorem backoff_within_bounds picam fingerprint envs (w : World float) :
  (INTERVAL_SEC cfg <= maxInterval)%Z ->
  in_range (INTERVAL_SEC cfg) maxInterval (INTERVAL_SEC cfg)
  /\ (forall st b,
        fst (main_loop cfg picam fingerprint envs (INTERVAL_SEC cfg) w) = Ok (st, b) ->
        in_range (INTERVAL_SEC cfg) maxInterval b)
  /\ exists bs,
       waits (log (snd (main_loop cfg picam fingerprint envs (INTERVAL_SEC cfg) w)))
       = (waits (log w) ++ bs)%list
       /\ Forall (in_range (INTERVAL_SEC cfg) maxInterval) bs.
Proof.
  intros Hmax.
  assert (in_range (INTERVAL_SEC cfg) maxInterval (INTERVAL_SEC cfg)) as H0
    by (unfold in_range; lia).
  split; [exact H0|]. apply main_loop_range; assumption.
Qed.

(** C8.  With a non-empty [PRUSA_FINGERPRINT] the identity used by [main]
    is that string and nothing else happens: the world, with its file
    system and its record of file accesses, is unchanged. *)
Theorem explicit_fingerprint_verbatim env (w : World float) :
  nonempty (PRUSA_FINGERPRINT cfg) = true ->
  fingerprint_of_main cfg env w = (Ok (unicode_of_string (PRUSA_FINGERPRINT cfg)), w).
Proof. intros H. unfold fingerprint_of_main. rewrite H. reflexivity. Qed.

(** C9.  After a call of [get_or_create_fingerprint] that returned an
    identity, a second call on the same storage returns the same
    identity; it only looks at the directory and reads the file: no
    random bytes are drawn, nothing is written and the file system is
    unchanged. *)
Theorem fingerprint_stable env r (w w1 : World float) fp :
  get_or_create_fingerprint cfg env w = (Ok fp, w1) ->
  fst (get_or_create_fingerprint cfg (quiet_storage r) w1) = Ok fp
  /\ fs (snd (get_or_create_fingerprint cfg (quiet_storage r) w1)) = fs w1
  /\ trace (snd (get_or_create_fingerprint cfg (quiet_storage r) w1))
     = (trace w1 ++ [EvMkdir (CONFIG_DIR cfg); EvExists (FINGERPRINT_FILE cfg);
                     EvRead (FINGERPRINT_FILE cfg)])%list.
Proof.
  intros H. apply get_or_create_fingerprint_ok_inv in H as (Hd & d & t & Hf & Hdec & Hs & Hne).
  subst fp. rewrite (get_or_create_fingerprint_again cfg r w1 d t Hd Hf Hdec Hne).
  cbn [fst snd fs trace add_log add_event]. repeat split.
  repeat rewrite <- app_assoc. reflexivity.
Qed.

End Claims.

Section Startup.

Context {float : Type}.
Variable float_of_string : string -> option float.
Variable cfg : Config float.

(** A manual lens position that [float] rejects ends the program with
    exit status 1 after the first [Picamera2()] and before [main]: no
    camera is configured or started and nothing is captured. *)
Lemma invalid_lens_position_is_fatal pos env envs (w : World float) :
  float_of_string pos = None ->
  su_first_camera env = None ->
  fst (program float_of_string cfg (Some ["man"; pos]) env envs w)
    = Raise (SystemExit "1")
  /\ trace (snd (program float_of_string cfg (Some ["man"; pos]) env envs w))
     = (trace w ++ [EvCamNew (length (cams w))])%list.
Proof.
  intros Hpos Hcam. unfold program, try_except, bind, Picamera2_new.
  rewrite Hcam. cbn [fault ret gets emit modify bind].
  unfold bind, configure_autofocus. cbn [lower lower_char nth_error mem existsb].
  destruct pos as [|a p]; cbn; [split; reflexivity|].
  rewrite Hpos. cbn. split; reflexivity.
Qed.

End Startup.

(** C7.  The program is started with [--af man 1.2]; [float] reads 1.2.
    [configure_autofocus] sets the manual mode and the lens position on
    the camera object made at line 282 (object 0), but [main] makes a
    second object at line 246 (object 1), sets it to continuous
    autofocus and captures with it: the camera that takes the pictures
    never gets the lens position, and the object that has it is never
    started. *)
Theorem manual_lens_position_not_applied :
  decimal_of_string "1.2" = Some (12%Z, 1%nat)
  /\ fst manual_focus_run = Ok LoopRunning
  /\ (controls <$> cams (snd manual_focus_run) !! 0%nat)
     = Some (<["LensPosition" := LensPositionCtl (12%Z, 1%nat)]>
               (<["AfMode" := AfModeCtl AfManual]> ∅))
  /\ (controls <$> cams (snd manual_focus_run) !! 1%nat)
     = Some (<["AfMode" := AfModeCtl AfContinuous]> ∅)
  /\ camera_events (trace (snd manual_focus_run))
     = [EvCamNew 0;
        EvCamSetControls 0
          [("AfMode", AfModeCtl AfManual);
           ("LensPosition", LensPositionCtl (12%Z, 1%nat))];
        EvCamNew 1;
        EvCamSetControls 1 [("AfMode", AfModeCtl AfContinuous)];
        EvCamConfigure 1; EvCamStart 1; EvCamCapture 1 tmp_path; EvCamStop 1].
Proof. vm_compute. repeat split; reflexivity. Qed.

(** ** Counterexamples *)

(** C1 as stated fails: when [picam.capture_file] raises, [capture_jpeg]
    returns with the exception and the camera is still started. *)
Lemma capture_failure_leaves_camera_started :
  fst (capture_jpeg (demo_config 10 "")
         (capture_fails (RuntimeError "Camera frontend has timed out")) 0 demo_world)
    = Raise (RuntimeError "Camera frontend has timed out")
  /\ camera_started
       (snd (capture_jpeg (demo_config 10 "")
               (capture_fails (RuntimeError "Camera frontend has timed out")) 0
               demo_world)) 0 = true.
Proof. vm_compute. split; reflexivity. Qed.

(** C2 as stated fails: on a 401 response [upload_snapshot] raises
    [requests.HTTPError] to its caller. *)
Lemma upload_401_raises :
  fst (upload_snapshot (demo_config 10 "") (inr response_401) demo_jpeg
         "secret" "0123456789abcdef" demo_world)
  = Raise (HTTPError (Some response_401)).
Proof. vm_compute. reflexivity. Qed.

(** C4 as stated fails for a response that is no success and no error
    for [raise_for_status]: on a 304 answer [upload_snapshot] returns,
    and the cycle leaves [backoff] at [INTERVAL_SEC], 10, where the
    escalated value is 30. *)
Lemma not_modified_response_resets_backoff :
  fst (upload_snapshot (demo_config 10 "") (inr response_304) demo_jpeg
         "secret" "0123456789abcdef" demo_world) = Ok tt
  /\ fst (cycle (demo_config 10 "") 0 "0123456789abcdef" not_modified_cycle 30
            demo_world)
     = Ok 10%Z
  /\ clamp (INTERVAL_SEC (demo_config 10 "") * 3) 15 120 = 30%Z.
Proof. vm_compute. repeat split; reflexivity. Qed.

(** C6 as stated fails: with [INTERVAL_SEC] 200 the loop starts with
    [backoff] 200, above 120, and after one failed cycle [backoff] is
    120, below [INTERVAL_SEC]. *)
Lemma backoff_leaves_bounds :
  fst (main_loop (demo_config 200 "") 0 "0123456789abcdef" [] 200 demo_world)
    = Ok (LoopRunning, 200%Z)
  /\ ~ in_range (INTERVAL_SEC (demo_config 200 "")) maxInterval 200
  /\ fst (main_loop (demo_config 200 "") 0 "0123456789abcdef"
            [camera_busy_cycle] 200 demo_world)
     = Ok (LoopRunning, 120%Z)
  /\ ~ in_range (INTERVAL_SEC (demo_config 200 "")) maxInterval 120.
Proof.
  split; [vm_compute; reflexivity|]. split; [unfold in_range, maxInterval; cbn; lia|].
  split; [vm_compute; reflexivity|]. unfold in_range, maxInterval; cbn; lia.
Qed.

(** ** The theorems at concrete inputs *)

Lemma capture_jpeg_stops_after_capture_witness :
  cams demo_world !! 0%nat = Some fresh_camera
  /\ camera_started
       (snd (capture_jpeg (demo_config 10 "")
               (read_back_fails demo_jpeg (OSError "Input/output error")) 0 demo_world))
       0 = false.
Proof.
  split; [reflexivity|].
  eapply (proj1 (proj2 (capture_jpeg_stops_after_capture (demo_config 10 "")
            (read_back_fails demo_jpeg (OSError "Input/output error")) 0 demo_world
            fresh_camera eq_refl)) demo_jpeg);
    reflexivity.
Defined.

Lemma capture_jpeg_leaves_no_file_witness :
  capture_jpeg (demo_config 10 "") (capture_yields demo_jpeg) 0 demo_world
    = (Ok demo_jpeg,
       snd (capture_jpeg (demo_config 10 "") (capture_yields demo_jpeg) 0 demo_world))
  /\ fs (snd (capture_jpeg (demo_config 10 "") (capture_yields demo_jpeg) 0 demo_world))
       !! tmp_path = None.
Proof.
  assert (capture_jpeg (demo_config 10 "") (capture_yields demo_jpeg) 0 demo_world
          = (Ok demo_jpeg,
             snd (capture_jpeg (demo_config 10 "") (capture_yields demo_jpeg) 0
                    demo_world))) as H by (vm_compute; reflexivity).
  split; [exact H|].
  exact (proj1 (proj2 (proj2 (capture_jpeg_leaves_no_file _ _ _ _ _ _ H)))).
Defined.

Lemma upload_snapshot_raises_on_failure_witness :
  cycle_env_ok rejected_cycle = true
  /\ exists b,
       fst (cycle (demo_config 10 "") 0 "0123456789abcdef" rejected_cycle 10 demo_world)
       = Ok b.
Proof.
  split; [reflexivity|].
  exact (proj2 (upload_snapshot_raises_on_failure (demo_config 10 "")
           (inr response_401) demo_jpeg "secret" "0123456789abcdef" demo_world)
           0%nat rejected_cycle 10%Z eq_refl).
Defined.

Lemma loop_survives_failed_cycles_witness :
  Forall (fun env => cycle_env_ok env = true) demo_cycles
  /\ exists st b,
       fst (main_loop (demo_config 1 "") 0 "0123456789abcdef" demo_cycles 1 demo_world)
       = Ok (st, b).
Proof.
  assert (Forall (fun env => cycle_env_ok env = true) demo_cycles) as H
    by (repeat constructor).
  split; [exact H|].
  destruct (loop_survives_failed_cycles (demo_config 1 "") 0 "0123456789abcdef"
              demo_cycles 1 demo_world H) as (st & b & Hr & _).
  exists st, b. exact Hr.
Defined.

Lemma failed_cycle_escalates_witness :
  fst (attempt (demo_config 10 "") 0 "0123456789abcdef" rejected_cycle demo_world)
    = Raise (HTTPError (Some response_401))
  /\ is_Exception (HTTPError (Some response_401)) = true
  /\ fst (cycle (demo_config 10 "") 0 "0123456789abcdef" rejected_cycle 10 demo_world)
     = Ok 30%Z.
Proof.
  assert (fst (attempt (demo_config 10 "") 0 "0123456789abcdef" rejected_cycle
                 demo_world) = Raise (HTTPError (Some response_401))) as H
    by (vm_compute; reflexivity).
  split; [exact H|]. split; [reflexivity|].
  exact (proj1 (proj2 (proj2 (failed_cycle_escalates (demo_config 10 "") 0
           "0123456789abcdef" rejected_cycle 10 demo_world _ H eq_refl))) eq_refl).
Defined.

Lemma successful_cycle_resets_backoff_witness :
  fst (attempt (demo_config 10 "") 0 "0123456789abcdef" good_cycle demo_world) = Ok tt
  /\ fst (cycle (demo_config 10 "") 0 "0123456789abcdef" good_cycle 30 demo_world)
     = Ok 10%Z.
Proof.
  assert (fst (attempt (demo_config 10 "") 0 "0123456789abcdef" good_cycle demo_world)
          = Ok tt) as H by (vm_compute; reflexivity).
  split; [exact H|].
  exact (proj1 (successful_cycle_resets_backoff (demo_config 10 "") 0
           "0123456789abcdef" good_cycle 30 demo_world H)).
Defined.

Lemma backoff_within_bounds_witness :
  (INTERVAL_SEC (demo_config 10 "") <= maxInterval)%Z
  /\ forall st b,
       fst (main_loop (demo_config 10 "") 0 "0123456789abcdef" demo_cycles 10 demo_world)
       = Ok (st, b) ->
       in_range 10 maxInterval b.
Proof.
  assert (INTERVAL_SEC (demo_config 10 "") <= maxInterval)%Z as H
    by (unfold maxInterval; cbn; lia).
  split; [exact H|].
  exact (proj1 (proj2 (backoff_within_bounds (demo_config 10 "") 0 "0123456789abcdef"
           demo_cycles demo_world H))).
Defined.

Lemma explicit_fingerprint_verbatim_witness :
  nonempty (PRUSA_FINGERPRINT (demo_config 10 "printer-cam-1")) = true
  /\ fingerprint_of_main (demo_config 10 "printer-cam-1") demo_storage boot_world
     = (Ok (unicode_of_string "printer-cam-1"), boot_world).
Proof.
  split; [reflexivity|].
  exact (explicit_fingerprint_verbatim (demo_config 10 "printer-cam-1") demo_storage
           boot_world eq_refl).
Defined.

Lemma fingerprint_stable_witness :
  get_or_create_fingerprint (demo_config 10 "") demo_storage boot_world
    = (Ok (unicode_of_string (uuid_hex (uuid4_int 0x1234567))),
       snd (get_or_create_fingerprint (demo_config 10 "") demo_storage boot_world))
  /\ fst (get_or_create_fingerprint (demo_config 10 "") (quiet_storage 0x7654321)
            (snd (get_or_create_fingerprint (demo_config 10 "") demo_storage boot_world)))
     = Ok (unicode_of_string (uuid_hex (uuid4_int 0x1234567))).
Proof.
  assert (get_or_create_fingerprint (demo_config 10 "") demo_storage boot_world
          = (Ok (unicode_of_string (uuid_hex (uuid4_int 0x1234567))),
             snd (get_or_create_fingerprint (demo_config 10 "") demo_storage
                    boot_world))) as H by (vm_compute; reflexivity).
  split; [exact H|].
  exact (proj1 (fingerprint_stable (demo_config 10 "") demo_storage 0x7654321
           boot_world _ _ H)).
Defined.

(** The identity generated on the concrete installation. *)
Example generated_fingerprint :
  uuid_hex (uuid4_int 0x1234567) = "00000000000040008000000001234567".
Proof. vm_compute. reflexivity. Qed.

(** The three outcomes of an upload of section 8 of the specification. *)
Example upload_outcomes :
  fst (upload_snapshot (demo_config 10 "") (inr response_200) demo_jpeg
         "secret" "0123456789abcdef" demo_world) = Ok tt
  /\ fst (upload_snapshot (demo_config 10 "") (inr response_401) demo_jpeg
            "secret" "0123456789abcdef" demo_world)
     = Raise (HTTPError (Some response_401))
  /\ fst (upload_snapshot (demo_config 10 "") (inl (ReadTimeout "timed out")) demo_jpeg
            "secret" "0123456789abcdef" demo_world)
     = Raise (ReadTimeout "timed out").
Proof. vm_compute. repeat split; reflexivity. Qed.

(** A failed capture, a rejected upload and an unreachable server all
    leave the same interval. *)
Example failures_escalate_alike :
  fst (cycle (demo_config 10 "") 0 "0123456789abcdef" camera_busy_cycle 10 demo_world)
    = Ok 30%Z
  /\ fst (cycle (demo_config 10 "") 0 "0123456789abcdef" rejected_cycle 10 demo_world)
     = Ok 30%Z
  /\ fst (cycle (demo_config 10 "") 0 "0123456789abcdef" offline_cycle 10 demo_world)
     = Ok 30%Z.
Proof. vm_compute. repeat split; reflexivity. Qed.

(** A termination signal during the wait ends the loop at the next test:
    three sleeps are made of the ten announced and the cycles that follow
    are not run. *)
Example signal_ends_loop :
  fst (main_loop (demo_config 10 "") 0 "0123456789abcdef"
         (interrupted_cycle :: demo_cycles) 10 demo_world)
    = Ok (LoopExited, 10%Z)
  /\ List.filter (fun e => match e with EvSleep 1000 => true | _ => false end)
       (trace (snd (main_loop (demo_config 10 "") 0 "0123456789abcdef"
                      (interrupted_cycle :: demo_cycles) 10 demo_world)))
     = [EvSleep 1000; EvSleep 1000; EvSleep 1000]
  /\ waits (log (snd (main_loop (demo_config 10 "") 0 "0123456789abcdef"
                        (interrupted_cycle :: demo_cycles) 10 demo_world)))
     = [10%Z].
Proof. vm_compute. repeat split; reflexivity. Qed.

(** * Further properties of the loop *)

Section LoopFrames.

Context {float : Type}.
Variable cfg : Config float.
Variable picam : nat.
Variable fingerprint : unicode.

(** A relation between the world before and after that every step of a
    cycle respects is respected by the whole loop. *)
Variable R : World float -> World float -> Prop.
Hypothesis R_refl : forall w, R w w.
Hypothesis R_trans : forall a b c, R a b -> R b c -> R a c.
Hypothesis R_log : forall r w, R w (add_log r w).
Hypothesis R_sleep : forall w, R w (add_event (EvSleep 1000) w).
Hypothesis R_stop : forall w, R w (set_running false w).
Hypothesis R_capture : forall env w, R w (snd (capture_jpeg cfg env picam w)).
Hypothesis R_upload : forall o jpeg w,
  R w (snd (upload_snapshot cfg o jpeg (PRUSA_TOKEN cfg) fingerprint w)).

Lemma deliver_R b w : R w (snd (deliver b w)).
Proof.
  destruct b; [|apply R_refl]. unfold deliver, _stop, bind, logger, modify. cbn.
  eapply R_trans; [apply R_log|apply R_stop].
Qed.

Lemma wait_R sig n i w : R w (snd (wait sig n i w)).
Proof.
  revert i w. induction n as [|n IH]; intros i w; [apply R_refl|].
  rewrite wait_step. destruct (running w); [|apply R_refl].
  eapply R_trans; [apply R_sleep|]. eapply R_trans; [apply deliver_R|apply IH].
Qed.

Lemma log_http_error_R e w : R w (snd (log_http_error e w)).
Proof.
  destruct e as [| | | | | |[r|]| | | | |];
    unfold log_http_error, try_except, raise, logger, modify; cbn; apply R_log.
Qed.

Lemma attempt_R env w : R w (snd (attempt cfg picam fingerprint env w)).
Proof.
  unfold attempt, bind.
  pose proof (deliver_R (signal_is DuringCapture (ce_signal env)) w) as H0.
  pose proof (deliver_ok (signal_is DuringCapture (ce_signal env)) w) as K0.
  destruct (deliver _ w) as [r0 w0]. cbn [fst snd] in *. subst r0.
  pose proof (R_capture (ce_capture env) w0) as H1.
  destruct (capture_jpeg cfg (ce_capture env) picam w0) as [[data|e1] w1];
    cbn [snd] in *; [|eapply R_trans; eauto].
  pose proof (deliver_R (signal_is DuringUpload (ce_signal env)) w1) as H2.
  pose proof (deliver_ok (signal_is DuringUpload (ce_signal env)) w1) as K2.
  destruct (deliver _ w1) as [r2 w2]. cbn [fst snd] in *. subst r2.
  eapply R_trans; [exact H0|]. eapply R_trans; [exact H1|].
  eapply R_trans; [exact H2|]. apply R_upload.
Qed.

Lemma after_try_R sig b w : R w (snd (after_try sig b w)).
Proof. unfold after_try. cbn [snd]. eapply R_trans; [apply R_log|apply wait_R]. Qed.

Lemma cycle_R env backoff w : R w (snd (cycle cfg picam fingerprint env backoff w)).
Proof.
  rewrite cycle_unfold. pose proof (attempt_R env w) as Ha.
  destruct (attempt cfg picam fingerprint env w) as [[[]|e] w1]; cbn [snd] in Ha.
  - eapply R_trans; [exact Ha|apply after_try_R].
  - destruct (is_HTTPError e).
    + eapply R_trans; [exact Ha|]. eapply R_trans; [apply log_http_error_R|].
      apply after_try_R.
    + destruct (is_Exception e); [|exact Ha].
      eapply R_trans; [exact Ha|]. eapply R_trans; [apply R_log|apply after_try_R].
Qed.

Lemma main_loop_R envs backoff w :
  R w (snd (main_loop cfg picam fingerprint envs backoff w)).
Proof.
  revert backoff w. induction envs as [|env envs IH]; intros backoff w;
    rewrite main_loop_unfold; destruct (running w); try apply R_refl.
  pose proof (cycle_R env backoff w) as Hc.
  destruct (cycle cfg picam fingerprint env backoff w) as [[b|e] w1]; cbn [snd] in Hc.
  - eapply R_trans; [exact Hc|apply IH].
  - exact Hc.
Qed.

End LoopFrames.

Section LoopTraces.

Context {float : Type}.
Variable cfg : Config float.

Lemma puts_app (l1 l2 : list (@event float)) :
  puts (l1 ++ l2) = (puts l1 ++ puts l2)%list.
Proof. apply omap_app. Qed.

Lemma naps_app (l1 l2 : list (@event float)) :
  naps (l1 ++ l2) = (naps l1 + naps l2)%nat.
Proof. unfold naps. rewrite List.filter_app, length_app. reflexivity. Qed.

Ltac trace_simpl :=
  cbn [trace snd add_log add_event set_cams set_fs set_running];
  rewrite ?puts_app, ?naps_app; cbn [puts omap naps List.filter length];
  rewrite ?app_nil_r, ?Nat.add_0_r.

Lemma capture_jpeg_puts env picam (w : World float) :
  puts (trace (snd (capture_jpeg cfg env picam w))) = puts (trace w).
Proof. destruct env as [o1 o2 o3 o4 o5 o6]. run; trace_simpl; reflexivity. Qed.

Lemma capture_jpeg_naps env picam (w : World float) :
  naps (trace (snd (capture_jpeg cfg env picam w))) = naps (trace w).
Proof. destruct env as [o1 o2 o3 o4 o5 o6]. run; trace_simpl; reflexivity. Qed.

Lemma capture_jpeg_data env picam (w : World float) data :
  fst (capture_jpeg cfg env picam w) = Ok data -> cap_capture env = inr data.
Proof.
  destruct (capture_jpeg cfg env picam w) as [r w'] eqn:H. cbn. intros ->.
  apply capture_jpeg_ok_inv in H. tauto.
Qed.

Lemma upload_snapshot_puts o jpeg fingerprint (w : World float) :
  puts (trace (snd (upload_snapshot cfg o jpeg (PRUSA_TOKEN cfg) fingerprint w)))
  = (puts (trace w) ++ [request_for cfg fingerprint jpeg])%list.
Proof. destruct o; run; trace_simpl; reflexivity. Qed.

Lemma upload_snapshot_naps o jpeg token fingerprint (w : World float) :
  naps (trace (snd (upload_snapshot cfg o jpeg token fingerprint w))) = naps (trace w).
Proof. destruct o; run; trace_simpl; reflexivity. Qed.

Lemma upload_snapshot_frame o jpeg token fingerprint (w : World float) :
  fs (snd (upload_snapshot cfg o jpeg token fingerprint w)) = fs w
  /\ cams (snd (upload_snapshot cfg o jpeg token fingerprint w)) = cams w.
Proof. destruct o; run; split; reflexivity. Qed.

Lemma deliver_trace b (w : World float) : trace (snd (deliver b w)) = trace w.
Proof. destruct b; reflexivity. Qed.

Lemma log_http_error_trace e (w : World float) :
  trace (snd (log_http_error e w)) = trace w.
Proof. destruct e as [| | | | | |[r|]| | | | |]; reflexivity. Qed.

Lemma wait_puts sig n i (w : World float) :
  puts (trace (snd (wait sig n i w))) = puts (trace w).
Proof.
  revert i w. induction n as [|n IH]; intros i w; [reflexivity|].
  rewrite wait_step. destruct (running w); [|reflexivity].
  rewrite IH, deliver_trace. trace_simpl. reflexivity.
Qed.

(** The requests of one run of the [try] block: none when the capture
    raised, else the one request for the image of this cycle. *)
Lemma attempt_puts picam fingerprint env (w : World float) :
  exists l,
    puts (trace (snd (attempt cfg picam fingerprint env w))) = (puts (trace w) ++ l)%list
    /\ ((l = [] /\ exists e, fst (attempt cfg picam fingerprint env w) = Raise e)
        \/ exists d, cap_capture (ce_capture env) = inr d
                     /\ l = [request_for cfg fingerprint d]).
Proof.
  unfold attempt, bind.
  pose proof (deliver_trace (signal_is DuringCapture (ce_signal env)) w) as H0.
  pose proof (deliver_ok (signal_is DuringCapture (ce_signal env)) w) as K0.
  destruct (deliver _ w) as [r0 w0]. cbn [fst snd] in *. subst r0.
  pose proof (capture_jpeg_puts (ce_capture env) picam w0) as H1.
  pose proof (capture_jpeg_data (ce_capture env) picam w0) as D1.
  destruct (capture_jpeg cfg (ce_capture env) picam w0) as [[data|e1] w1];
    cbn [fst snd] in *.
  - pose proof (deliver_trace (signal_is DuringUpload (ce_signal env)) w1) as H2.
    pose proof (deliver_ok (signal_is DuringUpload (ce_signal env)) w1) as K2.
    destruct (deliver _ w1) as [r2 w2]. cbn [fst snd] in *. subst r2.
    exists [request_for cfg fingerprint data]. split.
    + rewrite upload_snapshot_puts, H2, H1, H0. reflexivity.
    + right. exists data. split; [apply D1; reflexivity|reflexivity].
  - exists []. rewrite app_nil_r. split; [congruence|]. left. eauto.
Qed.

Lemma after_try_puts sig b (w : World float) :
  puts (trace (snd (after_try sig b w))) = puts (trace w).
Proof. unfold after_try. cbn [snd]. rewrite wait_puts. reflexivity. Qed.

Lemma cycle_puts_attempt picam fingerprint env backoff (w : World float) :
  puts (trace (snd (cycle cfg picam fingerprint env backoff w)))
  = puts (trace (snd (attempt cfg picam fingerprint env w))).
Proof.
  rewrite cycle_unfold.
  destruct (attempt cfg picam fingerprint env w) as [[[]|e] w1]; cbn [snd].
  - apply after_try_puts.
  - destruct (is_HTTPError e).
    + rewrite after_try_puts, log_http_error_trace. reflexivity.
    + destruct (is_Exception e); [|reflexivity]. rewrite after_try_puts. reflexivity.
Qed.

End LoopTraces.

Section LoopExtras.

Context {float : Type}.
Variable cfg : Config float.

(** The requests of one cycle. *)
Lemma cycle_puts picam fingerprint env backoff (w : World float) :
  exists l,
    puts (trace (snd (cycle cfg picam fingerprint env backoff w)))
    = (puts (trace w) ++ l)%list
    /\ (l = [] \/ exists d, cap_capture (ce_capture env) = inr d
                            /\ l = [request_for cfg fingerprint d]).
Proof.
  destruct (attempt_puts cfg picam fingerprint env w) as (l & Hl & Hc).
  exists l. rewrite cycle_puts_attempt. split; [exact Hl|].
  destruct Hc as [[-> _]|Hd]; [left; reflexivity|right; exact Hd].
Qed.

(** X1.  A cycle sends at most one request; when it sends one, the body
    is the image the camera produced in this cycle and the URL, headers
    and timeout are the configured ones; a cycle whose capture and upload
    both return has sent it. *)
Theorem cycle_uploads_captured_image picam fingerprint env backoff (w : World float) :
  exists l,
    puts (trace (snd (cycle cfg picam fingerprint env backoff w)))
    = (puts (trace w) ++ l)%list
    /\ (l = [] \/ exists d, cap_capture (ce_capture env) = inr d
                            /\ l = [request_for cfg fingerprint d])
    /\ (fst (attempt cfg picam fingerprint env w) = Ok tt -> l <> []).
Proof.
  destruct (attempt_puts cfg picam fingerprint env w) as (l & Hl & Hc).
  exists l. rewrite cycle_puts_attempt. split; [exact Hl|]. split.
  - destruct Hc as [[-> _]|Hd]; [left; reflexivity|right; exact Hd].
  - intros Hok. destruct Hc as [[_ [e He]]|(d & _ & ->)]; [congruence|discriminate].
Qed.

Lemma main_loop_puts picam fingerprint envs backoff (w : World float) :
  exists l,
    puts (trace (snd (main_loop cfg picam fingerprint envs backoff w)))
    = (puts (trace w) ++ l)%list
    /\ Forall (fun q => exists jpeg, q = request_for cfg fingerprint jpeg) l
    /\ (length l <= length envs)%nat.
Proof.
  revert backoff w. induction envs as [|env envs IH]; intros backoff w;
    rewrite main_loop_unfold; destruct (running w).
  2,4: exists []; rewrite app_nil_r; cbn; repeat split; [constructor|lia].
  - exists []. rewrite app_nil_r. cbn. repeat split; [constructor|lia].
  - destruct (cycle_puts picam fingerprint env backoff w)
      as (l1 & H1 & H2).
    destruct (cycle cfg picam fingerprint env backoff w) as [[b|e] w1]; cbn [snd] in *.
    + destruct (IH b w1) as (l2 & H3 & H4 & H5).
      exists (l1 ++ l2)%list. rewrite H3, H1, app_assoc. split; [reflexivity|].
      split.
      * apply Forall_app. split; [|exact H4].
        destruct H2 as [->|(d & _ & ->)]; repeat constructor. eauto.
      * rewrite length_app. destruct H2 as [->|(d & _ & ->)]; cbn; lia.
    + exists l1. split; [exact H1|]. split.
      * destruct H2 as [->|(d & _ & ->)]; repeat constructor. eauto.
      * destruct H2 as [->|(d & _ & ->)]; cbn; lia.
Qed.


(** X2.  Every request the loop sends goes to [PRUSA_URL] with the
    headers [accept], [content-type], [token] and [fingerprint] of the
    configured token and of the identity [main] resolved, and with the
    configured timeout; there is at most one request for each cycle. *)
Theorem loop_requests_carry_identity picam fingerprint envs backoff (w : World float) :
  exists l,
    puts (trace (snd (main_loop cfg picam fingerprint envs backoff w)))
    = (puts (trace w) ++ l)%list
    /\ Forall (fun q => exists jpeg, q = request_for cfg fingerprint jpeg) l
    /\ (length l <= length envs)%nat.
Proof. apply main_loop_puts. Qed.

Lemma capture_jpeg_fs_frame env picam (w : World float) p :
  p <> tmp_path ->
  fs (snd (capture_jpeg cfg env picam w)) !! p = fs w !! p.
Proof.
  unfold tmp_path. intros Hp. destruct env as [o1 o2 o3 o4 o5 o6].
  run; rewrite ?lookup_delete_ne, ?lookup_insert_ne by congruence; reflexivity.
Qed.

(** X3.  The loop changes no file but the temporary image: every other
    path of the file system, the identity file among them, is after any
    number of cycles what it was before. *)
Theorem loop_touches_only_temporary_file picam fingerprint envs backoff
    (w : World float) p :
  p <> tmp_path ->
  fs (snd (main_loop cfg picam fingerprint envs backoff w)) !! p = fs w !! p.
Proof.
  intros Hp.
  apply (main_loop_R cfg picam fingerprint
           (fun a b => fs b !! p = fs a !! p)); try (intros; reflexivity).
  - intros a b c Hab Hbc. congruence.
  - intros env w0. apply capture_jpeg_fs_frame, Hp.
  - intros o jpeg w0. destruct (upload_snapshot_frame cfg o jpeg (PRUSA_TOKEN cfg)
      fingerprint w0) as [-> _]. reflexivity.
Qed.

Lemma alter_controls (f : Picamera2 float -> Picamera2 float) (i j : nat)
    (l : list (Picamera2 float)) :
  (forall c, controls (f c) = controls c) ->
  controls <$> (alter f i l !! j) = controls <$> (l !! j).
Proof.
  intros Hf. destruct (decide (i = j)) as [->|Hne].
  - rewrite list_lookup_alter_eq. destruct (l !! j); cbn; [rewrite Hf|]; reflexivity.
  - rewrite list_lookup_alter_ne by exact Hne. reflexivity.
Qed.

Lemma capture_jpeg_cams_frame env picam (w : World float) :
  (forall j, controls <$> (cams (snd (capture_jpeg cfg env picam w)) !! j)
             = controls <$> (cams w !! j))
  /\ (forall j, j <> picam ->
        cams (snd (capture_jpeg cfg env picam w)) !! j = cams w !! j).
Proof.
  destruct env as [o1 o2 o3 o4 o5 o6].
  run; split; intros j; try intros Hj;
    rewrite ?alter_controls by reflexivity;
    rewrite ?list_lookup_alter_ne by congruence; reflexivity.
Qed.

Lemma main_loop_cams_frame picam fingerprint envs backoff (w : World float) :
  (forall j, controls <$> (cams (snd (main_loop cfg picam fingerprint envs backoff w)) !! j)
             = controls <$> (cams w !! j))
  /\ (forall j, j <> picam ->
        cams (snd (main_loop cfg picam fingerprint envs backoff w)) !! j = cams w !! j).
Proof.
  apply (main_loop_R cfg picam fingerprint
           (fun a b =>
              (forall j, controls <$> (cams b !! j) = controls <$> (cams a !! j))
              /\ (forall j, j <> picam -> cams b !! j = cams a !! j)));
    try (intros; split; intros; reflexivity).
  - intros a b c [H1 H2] [H3 H4]. split; intros j.
    + rewrite H3, H1. reflexivity.
    + intros Hj. rewrite H4, H2 by exact Hj. reflexivity.
  - intros env w0. apply capture_jpeg_cams_frame.
  - intros o jpeg w0. destruct (upload_snapshot_frame cfg o jpeg (PRUSA_TOKEN cfg)
      fingerprint w0) as [_ ->]. split; intros; reflexivity.
Qed.

(** X4.  The loop never changes the controls of a camera object (the
    autofocus mode and the lens position stay as they were set before the
    loop), and it leaves every camera object but its own untouched. *)
Theorem loop_keeps_camera_controls picam fingerprint envs backoff (w : World float) :
  (forall j, controls <$> (cams (snd (main_loop cfg picam fingerprint envs backoff w)) !! j)
             = controls <$> (cams w !! j))
  /\ (forall j, j <> picam ->
        cams (snd (main_loop cfg picam fingerprint envs backoff w)) !! j = cams w !! j).
Proof. apply main_loop_cams_frame. Qed.

End LoopExtras.

Section WaitExtras.

Context {float : Type}.
Variable cfg : Config float.

Lemma naps_snoc (tr : list (@event float)) :
  naps (tr ++ [EvSleep 1000]) = S (naps tr).
Proof.
  rewrite naps_app. change (naps [@EvSleep float 1000]) with 1%nat. lia.
Qed.

Lemma wait_not_running sig n i (w : World float) :
  running w = false -> wait sig n i w = (Ok tt, w).
Proof. intros H. destruct n; [reflexivity|]. rewrite wait_step, H. reflexivity. Qed.

Lemma wait_naps_quiet n i (w : World float) :
  running w = true ->
  naps (trace (snd (wait None n i w))) = (naps (trace w) + n)%nat.
Proof.
  revert i w. induction n as [|n IH]; intros i w Hr;
    [rewrite Nat.add_0_r; reflexivity|].
  rewrite wait_step, Hr. cbn [signal_is deliver ret snd].
  rewrite IH by exact Hr. cbn [trace add_event]. rewrite naps_snoc. lia.
Qed.

Lemma wait_naps_signal n i k (w : World float) :
  running w = true -> (i <= k < i + n)%nat ->
  naps (trace (snd (wait (Some (DuringWait k)) n i w)))
    = (naps (trace w) + (k - i + 1))%nat
  /\ running (snd (wait (Some (DuringWait k)) n i w)) = false.
Proof.
  revert i w. induction n as [|n IH]; intros i w Hr Hk; [lia|].
  rewrite wait_step, Hr. cbn [signal_is].
  destruct (Nat.eqb_spec k i) as [->|Hne].
  - cbn [deliver]. unfold _stop, bind, logger, modify. cbn [snd].
    rewrite wait_not_running by reflexivity.
    cbn [snd trace running set_running add_log add_event].
    rewrite naps_snoc. split; [lia|reflexivity].
  - cbn [deliver ret snd].
    destruct (IH (S i) (add_event (EvSleep 1000) w)) as [H1 H2]; [exact Hr|lia|].
    rewrite H1, H2. cbn [trace add_event]. rewrite naps_snoc. split; [lia|reflexivity].
Qed.

(** X5.  A termination signal that arrives during the [k]-th second of a
    wait of [n] seconds ([k] counted from 0, [k < n]) ends the wait at the
    next test: [k + 1] one-second sleeps are made instead of [n], and
    [running] is false afterwards. *)
Theorem wait_stops_within_a_second n k (w : World float) :
  running w = true -> (k < n)%nat ->
  naps (trace (snd (wait (Some (DuringWait k)) n 0 w))) = (naps (trace w) + S k)%nat
  /\ running (snd (wait (Some (DuringWait k)) n 0 w)) = false.
Proof.
  intros Hr Hk. destruct (wait_naps_signal n 0 k w Hr) as [H1 H2]; [lia|].
  split; [rewrite H1; lia|exact H2].
Qed.

Lemma attempt_naps picam fingerprint env (w : World float) :
  naps (trace (snd (attempt cfg picam fingerprint env w))) = naps (trace w).
Proof.
  apply (attempt_R cfg picam fingerprint
           (fun a b => naps (trace b) = naps (trace a))); try (intros; reflexivity).
  - intros a b c Hab Hbc. congruence.
  - intros e w0. apply capture_jpeg_naps.
  - intros o jpeg w0. apply upload_snapshot_naps.
Qed.

Lemma log_http_error_running e (w : World float) :
  running (snd (log_http_error e w)) = running w.
Proof. apply log_http_error_ok. Qed.

(** The world in which the wait of a cycle starts. *)
Lemma cycle_before_wait picam fingerprint env backoff (w : World float) b :
  fst (cycle cfg picam fingerprint env backoff w) = Ok b ->
  exists w1,
    snd (cycle cfg picam fingerprint env backoff w)
    = snd (wait (ce_signal env) (Z.to_nat b) 0 (add_log (INFO, NextSnapshot b) w1))
    /\ naps (trace w1) = naps (trace w)
    /\ running w1 = running (snd (attempt cfg picam fingerprint env w)).
Proof.
  rewrite cycle_unfold. pose proof (attempt_naps picam fingerprint env w) as Hn.
  destruct (attempt cfg picam fingerprint env w) as [[[]|e] w1]; cbn [snd] in *.
  - intros H. rewrite after_try_result in H. simplify_eq. exists w1. auto.
  - destruct (is_HTTPError e).
    + intros H. rewrite after_try_result in H. simplify_eq.
      exists (snd (log_http_error e w1)).
      rewrite log_http_error_trace, log_http_error_running. auto.
    + destruct (is_Exception e); [|discriminate].
      intros H. rewrite after_try_result in H. simplify_eq.
      exists (add_log (ERROR, UnexpectedError e) w1). auto.
Qed.

(** X6.  A cycle during which no termination signal arrives sleeps for
    exactly the interval it has set: [backoff] one-second sleeps, none
    when [backoff] is zero or negative. *)
Theorem cycle_sleeps_backoff_seconds picam fingerprint env backoff (w : World float) b :
  no_signal env = true -> running w = true ->
  fst (cycle cfg picam fingerprint env backoff w) = Ok b ->
  naps (trace (snd (cycle cfg picam fingerprint env backoff w)))
  = (naps (trace w) + Z.to_nat b)%nat.
Proof.
  intros Hs Hr Hb.
  destruct (cycle_before_wait picam fingerprint env backoff w b Hb) as (w1 & -> & Hn & Hr1).
  rewrite (attempt_running cfg picam fingerprint env w Hs), Hr in Hr1.
  unfold no_signal in Hs. destruct (ce_signal env); [discriminate|].
  rewrite wait_naps_quiet by exact Hr1. cbn [trace add_log]. rewrite Hn. reflexivity.
Qed.



End WaitExtras.

Section CaptureExtras.

Context {float : Type}.
Variable cfg : Config float.

(** X8.  When [picam.configure] or [picam.start] raises, [capture_jpeg]
    ends with that exception before any capture: nothing is written or
    removed in the file system and the camera is started or not as it
    was. *)
Theorem capture_jpeg_fails_before_capture env picam (w : World float) e :
  cap_configure env = Some e \/ (cap_configure env = None /\ cap_start env = Some e) ->
  fst (capture_jpeg cfg env picam w) = Raise e
  /\ fs (snd (capture_jpeg cfg env picam w)) = fs w
  /\ camera_started (snd (capture_jpeg cfg env picam w)) picam = camera_started w picam
  /\ camera_events (trace (snd (capture_jpeg cfg env picam w)))
     = (camera_events (trace w) ++
        EvCamConfigure picam ::
        match cap_configure env with Some _ => [] | None => [EvCamStart picam] end)%list.
Proof.
  unfold camera_events.
  destruct env as [o1 o2 o3 o4 o5 o6]. cbn [cap_configure cap_start].
  intros [->|[-> ->]]; run; rewrite ?List.filter_app; cbn [List.filter];
    rewrite <- ?app_assoc; repeat split; try reflexivity.
  unfold camera_started. cbn [cams set_cams add_event add_log].
  rewrite !list_lookup_alter_eq. destruct (cams w !! picam); reflexivity.
Qed.

(** X9.  When the read-back of the image fails after the capture, the
    temporary file is not removed: it stays on disk with the bytes the
    camera wrote. *)
Theorem read_back_failure_leaves_file env picam (w : World float) d t e :
  cap_configure env = None -> cap_start env = None ->
  cap_capture env = inr d -> fs_write (fs w) tmp_path d = Ok t ->
  cap_stop env = None -> cap_read env = Some e ->
  fst (capture_jpeg cfg env picam w) = Raise e
  /\ fs (snd (capture_jpeg cfg env picam w)) = <[tmp_path := File d]> (fs w).
Proof.
  destruct env as [o1 o2 o3 o4 o5 o6]. cbn. unfold tmp_path.
  intros -> -> -> Hw -> ->. run; split; reflexivity.
Qed.

(** X10.  After a call of [capture_jpeg] that returns, the camera object
    holds the still configuration of the configured width and height in
    RGB888 and the configured JPEG quality, it is stopped, and its
    controls are as before the call. *)
Theorem capture_jpeg_configures_camera env picam (w w' : World float) data c :
  cams w !! picam = Some c ->
  capture_jpeg cfg env picam w = (Ok data, w') ->
  cams w' !! picam
  = Some {| started := false;
            still_config := Some (WIDTH cfg, HEIGHT cfg, "RGB888");
            options := <["quality" := JPEG_QUALITY cfg]> (options c);
            controls := controls c |}.
Proof.
  intros Hc H. apply capture_jpeg_ok_inv in H as (_ & _ & _ & -> & _).
  rewrite !list_lookup_alter_eq, Hc. reflexivity.
Qed.

End CaptureExtras.

Section FingerprintExtras.

Context {float : Type}.
Variable cfg : Config float.

Lemma generate_identity_run o r (w : World float) :
  generate_identity cfg o r w =
  let hex := uuid_hex (uuid4_int r) in
  let w1 := add_event (EvWrite (FINGERPRINT_FILE cfg) (list_byte_of_string hex))
              (add_event EvUrandom w) in
  match o with
  | Some e => (Raise e, w1)
  | None =>
      match fs_write (fs w) (FINGERPRINT_FILE cfg) (list_byte_of_string hex) with
      | Ok t =>
          (Ok (unicode_of_string hex),
           add_log (INFO, GeneratedFingerprint (unicode_of_string hex)) (set_fs t w1))
      | Raise e => (Raise e, w1)
      end
  end.
Proof.
  unfold generate_identity. unfold bind at 1. unfold uuid4_hex at 1. unfold bind at 1.
  unfold emit at 1, modify at 1, ret at 1. unfold bind at 1.
  rewrite (Path_write_text_run _ _ _ _ _ (utf8_encode_uuid_hex _)). cbn zeta.
  destruct o as [e|]; [reflexivity|]. cbn [fs add_event].
  destruct (fs_write (fs w) (FINGERPRINT_FILE cfg) _) as [t|e]; reflexivity.
Qed.

(** [get_or_create_fingerprint] step by step. *)
Lemma get_or_create_fingerprint_run env (w : World float) :
  get_or_create_fingerprint cfg env w =
  let w0 := add_event (EvMkdir (CONFIG_DIR cfg)) w in
  match st_mkdir env with
  | Some e => (Raise e, w0)
  | None =>
      match mkdir_from (fs w) [] (CONFIG_DIR cfg) with
      | (false, t) => (Raise (OSError "FileExistsError"), set_fs t w0)
      | (true, t) =>
          let w1 := add_event (EvExists (FINGERPRINT_FILE cfg)) (set_fs t w0) in
          match t !! FINGERPRINT_FILE cfg with
          | None => generate_identity cfg (st_write env) (st_random env) w1
          | Some nd =>
              let w2 := add_event (EvRead (FINGERPRINT_FILE cfg)) w1 in
              match st_read env with
              | Some e => (Raise e, w2)
              | None =>
                  match nd with
                  | Dir => (Raise (OSError "IsADirectoryError"), w2)
                  | File d =>
                      match decode_text d with
                      | None => (Raise UnicodeDecodeError, w2)
                      | Some t0 =>
                          if unonempty (ustrip t0)
                          then (Ok (ustrip t0),
                                add_log (INFO, LoadedFingerprint (ustrip t0)) w2)
                          else generate_identity cfg (st_write env) (st_random env) w2
                      end
                  end
              end
          end
      end
  end.
Proof.
  unfold get_or_create_fingerprint. rewrite parent_FINGERPRINT_FILE.
  change (bind (uuid4_hex _) _) with (generate_identity cfg (st_write env) (st_random env)).
  generalize (generate_identity cfg (st_write env) (st_random env)). intros gen.
  cbn zeta. unfold bind at 1. rewrite Path_mkdir_run.
  destruct (st_mkdir env); [reflexivity|].
  destruct (mkdir_from (fs w) [] (CONFIG_DIR cfg)) as [[|] t]; [|reflexivity].
  unfold bind at 1. unfold Path_exists at 1, bind at 1, emit at 1, modify at 1, gets at 1.
  cbn [fs set_fs add_event]. rewrite fs_exists_FINGERPRINT_FILE.
  unfold bind at 1.
  destruct (t !! FINGERPRINT_FILE cfg) as [nd|] eqn:Hf; [|reflexivity].
  unfold bind at 1. rewrite Path_read_text_run. cbn [fs set_fs add_event].
  rewrite Hf. destruct (st_read env); [reflexivity|].
  destruct nd as [|d]; [reflexivity|].
  destruct (decode_text d) as [t0|]; [|reflexivity].
  destruct (unonempty (ustrip t0)); reflexivity.
Qed.


Lemma mkdir_from_longer t pre rest b t' (p : path) :
  (length pre + length rest < length p)%nat ->
  mkdir_from t pre rest = (b, t') -> t' !! p = t !! p.
Proof.
  revert t pre. induction rest as [|c rest IH]; intros t pre Hlen H; cbn in H.
  - simplify_eq. reflexivity.
  - destruct (t !! (pre ++ [c])%list) as [[|d]|] eqn:Hq.
    + eapply IH; [|exact H]. rewrite length_app. cbn in *. lia.
    + simplify_eq. reflexivity.
    + erewrite IH; [|
        |exact H]; [|rewrite length_app; cbn in *; lia].
      apply lookup_insert_ne. intros Heq. subst p.
      rewrite length_app in Hlen. cbn in Hlen. lia.
Qed.

Lemma mkdir_from_file t pre rest d :
  rest <> [] -> t !! (pre ++ rest)%list = Some (File d) ->
  fst (mkdir_from t pre rest) = false.
Proof.
  revert t pre. induction rest as [|c rest IH]; intros t pre Hne Hf; [congruence|].
  cbn [mkdir_from]. destruct rest as [|c' rest].
  - rewrite Hf. reflexivity.
  - assert (((pre ++ [c]) ++ c' :: rest)%list = (pre ++ c :: c' :: rest)%list) as Heq
      by (rewrite <- app_assoc; reflexivity).
    destruct (t !! (pre ++ [c])%list) as [[|d']|] eqn:Hq.
    + apply IH; [discriminate|]. rewrite Heq. exact Hf.
    + reflexivity.
    + apply IH; [discriminate|]. rewrite Heq.
      rewrite lookup_insert_ne; [exact Hf|].
      intros Hbad. apply (f_equal length) in Hbad.
      rewrite !length_app in Hbad. cbn in Hbad. lia.
Qed.

Lemma dirs_present_last t pre rest :
  rest <> [] -> dirs_present t pre rest = true ->
  t !! (pre ++ rest)%list = Some Dir.
Proof.
  revert pre. induction rest as [|c rest IH]; intros pre Hne H; [congruence|].
  cbn in H. destruct (t !! (pre ++ [c])%list) as [[|d]|] eqn:Hq; try discriminate.
  destruct rest as [|c' rest]; [exact Hq|].
  rewrite <- (IH (pre ++ [c])%list); [|discriminate|exact H].
  rewrite <- app_assoc. reflexivity.
Qed.

Lemma CONFIG_DIR_is_dir t :
  dirs_present t [] (CONFIG_DIR cfg) = true -> is_dir t (CONFIG_DIR cfg) = true.
Proof.
  intros H. rewrite is_dir_CONFIG_DIR.
  pose proof (dirs_present_last t [] (CONFIG_DIR cfg)) as Hl. cbn [app] in Hl.
  assert (CONFIG_DIR cfg <> []) as Hne
    by (unfold CONFIG_DIR; destruct (HOME cfg); discriminate).
  exact (@eq_ind_r _ (Some Dir)
           (fun o => match o with Some Dir => true | _ => false end = true)
           eq_refl _ (Hl Hne H)).
Qed.

Lemma generate_identity_keeps o r (w : World float) p v :
  p <> FINGERPRINT_FILE cfg -> fs w !! p = Some v ->
  fs (snd (generate_identity cfg o r w)) !! p = Some v.
Proof.
  intros Hp Hv. rewrite generate_identity_run. cbn zeta.
  destruct o; [exact Hv|]. unfold fs_write.
  destruct (is_dir (fs w) (parent (FINGERPRINT_FILE cfg))); [|exact Hv].
  destruct (fs w !! FINGERPRINT_FILE cfg) as [[|d]|]; cbn [snd fs set_fs add_log];
    rewrite ?lookup_insert_ne by congruence; exact Hv.
Qed.

(** X15.  [get_or_create_fingerprint] never removes or changes an
    existing file or directory other than the identity file, whether it
    returns or raises. *)
Theorem get_or_create_fingerprint_keeps_other_files env (w : World float) p v :
  p <> FINGERPRINT_FILE cfg -> fs w !! p = Some v ->
  fs (snd (get_or_create_fingerprint cfg env w)) !! p = Some v.
Proof.
  intros Hp Hv. rewrite get_or_create_fingerprint_run. cbn zeta.
  destruct (st_mkdir env); [exact Hv|].
  destruct (mkdir_from (fs w) [] (CONFIG_DIR cfg)) as [b t] eqn:Hmk.
  pose proof (mkdir_from_keeps _ _ _ _ _ _ _ Hmk Hv) as Ht.
  destruct b; [|exact Ht].
  destruct (t !! FINGERPRINT_FILE cfg) as [nd|].
  - destruct (st_read env); [exact Ht|]. destruct nd as [|d]; [exact Ht|].
    destruct (decode_text d) as [t0|]; [|exact Ht].
    destruct (unonempty _); [exact Ht|].
    apply generate_identity_keeps; [exact Hp|exact Ht].
  - apply generate_identity_keeps; [exact Hp|exact Ht].
Qed.

(** X16.  An identity file whose text is empty or holds only white space
    (the white space of Unicode, the no-break space for one) counts as
    absent: on a storage without faults a new identity is drawn and the
    file is overwritten with it; the text of the file is then the
    identity returned. *)
Theorem blank_identity_file_is_replaced r (w : World float) d t :
  dirs_present (fs w) [] (CONFIG_DIR cfg) = true ->
  fs w !! FINGERPRINT_FILE cfg = Some (File d) ->
  decode_text d = Some t ->
  unonempty (ustrip t) = false ->
  fst (get_or_create_fingerprint cfg (quiet_storage r) w)
    = Ok (unicode_of_string (uuid_hex (uuid4_int r)))
  /\ fs (snd (get_or_create_fingerprint cfg (quiet_storage r) w))
     = <[FINGERPRINT_FILE cfg := File (list_byte_of_string (uuid_hex (uuid4_int r)))]>
         (fs w)
  /\ decode_text (list_byte_of_string (uuid_hex (uuid4_int r)))
     = Some (unicode_of_string (uuid_hex (uuid4_int r))).
Proof.
  intros Hd Hf Hdec Hb. rewrite get_or_create_fingerprint_run. cbn zeta.
  cbn [quiet_storage st_mkdir st_read st_write st_random].
  rewrite (mkdir_from_idle _ _ _ Hd), Hf, Hdec, Hb, generate_identity_run. cbn zeta.
  unfold fs_write. cbn [fs set_fs add_event].
  rewrite parent_FINGERPRINT_FILE, (CONFIG_DIR_is_dir _ Hd), Hf.
  repeat split. apply decode_text_uuid_hex.
Qed.

(** X17.  An identity file is read as UTF-8 text.  When the text holds
    more than white space the identity is loaded: it is the text without
    the white space around it (a final newline, for one), the file keeps
    its bytes, nothing is written and no random bytes are drawn.  When
    the bytes are not valid UTF-8 the call raises [UnicodeDecodeError]
    after the read: no identity is returned and nothing is written. *)
Theorem existing_identity_is_loaded_stripped r (w : World float) d :
  dirs_present (fs w) [] (CONFIG_DIR cfg) = true ->
  fs w !! FINGERPRINT_FILE cfg = Some (File d) ->
  (forall t, decode_text d = Some t -> unonempty (ustrip t) = true ->
     fst (get_or_create_fingerprint cfg (quiet_storage r) w) = Ok (ustrip t)
     /\ fs (snd (get_or_create_fingerprint cfg (quiet_storage r) w)) = fs w
     /\ trace (snd (get_or_create_fingerprint cfg (quiet_storage r) w))
        = (trace w ++ [EvMkdir (CONFIG_DIR cfg); EvExists (FINGERPRINT_FILE cfg);
                       EvRead (FINGERPRINT_FILE cfg)])%list)
  /\ (decode_text d = None ->
      fst (get_or_create_fingerprint cfg (quiet_storage r) w) = Raise UnicodeDecodeError
      /\ fs (snd (get_or_create_fingerprint cfg (quiet_storage r) w)) = fs w
      /\ trace (snd (get_or_create_fingerprint cfg (quiet_storage r) w))
         = (trace w ++ [EvMkdir (CONFIG_DIR cfg); EvExists (FINGERPRINT_FILE cfg);
                        EvRead (FINGERPRINT_FILE cfg)])%list).
Proof.
  intros Hd Hf. rewrite get_or_create_fingerprint_run. cbn zeta.
  cbn [quiet_storage st_mkdir st_read st_write st_random].
  rewrite (mkdir_from_idle _ _ _ Hd), Hf. split.
  - intros t Hdec Hne. rewrite Hdec, Hne.
    cbn [fst snd fs trace add_log add_event set_fs].
    repeat split. repeat rewrite <- app_assoc. reflexivity.
  - intros Hdec. rewrite Hdec.
    cbn [fst snd fs trace add_log add_event set_fs].
    repeat split. repeat rewrite <- app_assoc. reflexivity.
Qed.

(** X18.  Without an identity file, on a storage without faults where
    the directories can be made, [get_or_create_fingerprint] makes the
    directories, draws an identity once and writes it to the identity
    file; the text of the file is the identity returned. *)
Theorem fresh_storage_creates_identity r (w : World float) t :
  mkdir_from (fs w) [] (CONFIG_DIR cfg) = (true, t) ->
  fs w !! FINGERPRINT_FILE cfg = None ->
  fst (get_or_create_fingerprint cfg (quiet_storage r) w) = Ok (unicode_of_string (uuid_hex (uuid4_int r)))
  /\ fs (snd (get_or_create_fingerprint cfg (quiet_storage r) w))
     = <[FINGERPRINT_FILE cfg := File (list_byte_of_string (uuid_hex (uuid4_int r)))]> t
  /\ decode_text (list_byte_of_string (uuid_hex (uuid4_int r)))
     = Some (unicode_of_string (uuid_hex (uuid4_int r)))
  /\ trace (snd (get_or_create_fingerprint cfg (quiet_storage r) w))
     = (trace w ++ [EvMkdir (CONFIG_DIR cfg); EvExists (FINGERPRINT_FILE cfg);
                    EvUrandom;
                    EvWrite (FINGERPRINT_FILE cfg)
                      (list_byte_of_string (uuid_hex (uuid4_int r)))])%list.
Proof.
  intros Hmk Hf. rewrite get_or_create_fingerprint_run. cbn zeta.
  cbn [quiet_storage st_mkdir st_read st_write st_random]. rewrite Hmk.
  assert (t !! FINGERPRINT_FILE cfg = None) as Ht.
  { rewrite (mkdir_from_longer _ _ _ _ _ _ (FINGERPRINT_FILE_length cfg) Hmk). exact Hf. }
  rewrite Ht, generate_identity_run. cbn zeta. unfold fs_write.
  cbn [fs set_fs add_event].
  rewrite parent_FINGERPRINT_FILE, (CONFIG_DIR_is_dir _ (mkdir_from_present _ _ _ _ Hmk)), Ht.
  cbn [fst snd fs trace add_log add_event set_fs].
  repeat split; [apply decode_text_uuid_hex|].
  repeat rewrite <- app_assoc. reflexivity.
Qed.

(** X19.  When the configuration directory exists as a regular file,
    [get_or_create_fingerprint] raises [OSError] at [mkdir]: no identity
    is returned, nothing is read, drawn or written, and the identity file
    path is as before. *)
Theorem configuration_directory_conflict env (w : World float) d :
  st_mkdir env = None ->
  fs w !! CONFIG_DIR cfg = Some (File d) ->
  fst (get_or_create_fingerprint cfg env w) = Raise (OSError "FileExistsError")
  /\ fs (snd (get_or_create_fingerprint cfg env w)) !! FINGERPRINT_FILE cfg
     = fs w !! FINGERPRINT_FILE cfg
  /\ trace (snd (get_or_create_fingerprint cfg env w))
     = (trace w ++ [EvMkdir (CONFIG_DIR cfg)])%list.
Proof.
  intros Hm Hf. rewrite get_or_create_fingerprint_run, Hm. cbn zeta.
  assert (CONFIG_DIR cfg <> []) as Hne
    by (unfold CONFIG_DIR; destruct (HOME cfg); discriminate).
  pose proof (mkdir_from_file (fs w) [] (CONFIG_DIR cfg) d Hne) as Hfail.
  cbn [app] in Hfail. specialize (Hfail Hf).
  destruct (mkdir_from (fs w) [] (CONFIG_DIR cfg)) as [b t] eqn:Hmk.
  cbn in Hfail. subst b. cbn [fst snd fs trace set_fs add_event].
  repeat split.
  apply (mkdir_from_longer _ _ _ _ _ _ (FINGERPRINT_FILE_length cfg) Hmk).
Qed.


Lemma get_or_create_fingerprint_frame env (w : World float) :
  cams (snd (get_or_create_fingerprint cfg env w)) = cams w
  /\ puts (trace (snd (get_or_create_fingerprint cfg env w))) = puts (trace w)
  /\ naps (trace (snd (get_or_create_fingerprint cfg env w))) = naps (trace w)
  /\ camera_events (trace (snd (get_or_create_fingerprint cfg env w)))
     = camera_events (trace w).
Proof.
  rewrite get_or_create_fingerprint_run. cbn zeta.
  assert (forall w0,
            cams (snd (generate_identity cfg (st_write env) (st_random env) w0)) = cams w0
            /\ puts (trace (snd (generate_identity cfg (st_write env) (st_random env) w0)))
               = puts (trace w0)
            /\ naps (trace (snd (generate_identity cfg (st_write env) (st_random env) w0)))
               = naps (trace w0)
            /\ camera_events
                 (trace (snd (generate_identity cfg (st_write env) (st_random env) w0)))
               = camera_events (trace w0)) as Hgen.
  { intros w0. rewrite generate_identity_run. cbn zeta. unfold camera_events.
    destruct (st_write env);
      [|destruct (fs_write _ _ _)];
      cbn [snd cams trace add_event add_log set_fs];
      rewrite !puts_app, !naps_app, !List.filter_app; cbn; rewrite ?app_nil_r;
      repeat split; lia. }
  unfold camera_events in *.
  destruct (st_mkdir env);
    [cbn [snd cams trace add_event]; rewrite puts_app, naps_app, List.filter_app; cbn;
     rewrite ?app_nil_r; repeat split; lia|].
  destruct (mkdir_from (fs w) [] (CONFIG_DIR cfg)) as [[|] t];
    [|cbn [snd cams trace add_event set_fs]; rewrite puts_app, naps_app, List.filter_app;
      cbn; rewrite ?app_nil_r; repeat split; lia].
  destruct (t !! FINGERPRINT_FILE cfg) as [nd|].
  - destruct (st_read env);
      [|destruct nd as [|d]; [|destruct (decode_text d) as [t0|];
                                [destruct (unonempty _)|]]].
    4:{ destruct (Hgen (add_event (EvRead (FINGERPRINT_FILE cfg))
            (add_event (EvExists (FINGERPRINT_FILE cfg))
               (set_fs t (add_event (EvMkdir (CONFIG_DIR cfg)) w)))))
          as (G1 & G2 & G3 & G4).
        rewrite G1, G2, G3, G4. cbn [cams trace add_event set_fs].
        rewrite !puts_app, !naps_app, !List.filter_app; cbn; rewrite ?app_nil_r;
          repeat split; lia. }
    all: cbn [snd cams trace add_event add_log set_fs];
      rewrite !puts_app, !naps_app, !List.filter_app; cbn; rewrite ?app_nil_r;
      repeat split; lia.
  - destruct (Hgen (add_event (EvExists (FINGERPRINT_FILE cfg))
               (set_fs t (add_event (EvMkdir (CONFIG_DIR cfg)) w))))
      as (G1 & G2 & G3 & G4).
    rewrite G1, G2, G3, G4. cbn [cams trace add_event set_fs].
    rewrite !puts_app, !naps_app, !List.filter_app; cbn; rewrite ?app_nil_r;
      repeat split; lia.
Qed.

End FingerprintExtras.

Section AutofocusExtras.

Context {float : Type}.
Variable float_of_string : string -> option float.
Variable cfg : Config float.

Lemma mem_cases s (l : list string) : mem s l = true -> In s l.
Proof.
  unfold mem. rewrite existsb_exists. intros (x & Hx & He).
  apply String.eqb_eq in He. subst. exact Hx.
Qed.

(** [configure_autofocus] in terms of the selected mode and position. *)
Lemma configure_autofocus_unfold picam cli_af :
  configure_autofocus float_of_string cfg picam cli_af =
  let mode := fst (af_selection cfg cli_af) in
  let pos := snd (af_selection cfg cli_af) in
  bind (logger INFO (ConfiguringAutofocus mode pos)) (fun _ =>
    if mem mode ["cont"; "continuous"] then
      picam_set_controls picam [("AfMode", AfModeCtl AfContinuous)]
    else if mem mode ["auto"; "af"] then
      picam_set_controls picam [("AfMode", AfModeCtl AfAuto)]
    else if mem mode ["man"; "manual"] then
      match pos with
      | Some (String a p) =>
          match float_of_string (String a p) with
          | Some lens_pos =>
              picam_set_controls picam
                [("AfMode", AfModeCtl AfManual); ("LensPosition", LensPositionCtl lens_pos)]
          | None => raise (ValueError ("Invalid manual lens position: " ++ String a p))
          end
      | _ => raise (ValueError "Manual mode requires a lens position, e.g. --af man 1.2")
      end
    else raise (ValueError ("Unknown autofocus mode: " ++ mode))).
Proof. destruct cli_af as [[|m rest]|]; reflexivity. Qed.

(** X11.  A mode that is none of cont, continuous, auto, af, man and
    manual makes [configure_autofocus] raise [ValueError] with the
    message of line 222, which ends with the mode as it was compared (in
    lower case when it came from the command line); no camera object is
    changed and no call leaves the process. *)
Theorem configure_autofocus_rejects_unknown_mode picam cli_af (w : World float) :
  mem (fst (af_selection cfg cli_af)) af_words = false ->
  fst (configure_autofocus float_of_string cfg picam cli_af w)
    = Raise (ValueError ("Unknown autofocus mode: " ++ fst (af_selection cfg cli_af)))
  /\ cams (snd (configure_autofocus float_of_string cfg picam cli_af w)) = cams w
  /\ trace (snd (configure_autofocus float_of_string cfg picam cli_af w)) = trace w.
Proof.
  rewrite configure_autofocus_unfold. cbn zeta.
  generalize (fst (af_selection cfg cli_af)) (snd (af_selection cfg cli_af)).
  intros mode pos. unfold mem, af_words. cbn [existsb].
  rewrite !orb_false_iff. intros (H1 & H2 & H3 & H4 & H5 & H6 & _).
  rewrite H1, H2, H3, H4, H5, H6. cbn. repeat split; reflexivity.
Qed.

(** X12.  In manual mode a missing or empty position makes
    [configure_autofocus] raise [ValueError] and leaves the camera
    objects unchanged.  With words after [--af] the position of the
    environment is not consulted: [--af man] alone is an error even when
    [PRUSA_AF_POSITION] is set. *)
Theorem manual_mode_requires_position picam cli_af (w : World float) :
  mem (fst (af_selection cfg cli_af)) ["man"; "manual"] = true ->
  snd (af_selection cfg cli_af) = None \/ snd (af_selection cfg cli_af) = Some "" ->
  fst (configure_autofocus float_of_string cfg picam cli_af w)
    = Raise (ValueError "Manual mode requires a lens position, e.g. --af man 1.2")
  /\ cams (snd (configure_autofocus float_of_string cfg picam cli_af w)) = cams w.
Proof.
  rewrite configure_autofocus_unfold. cbn zeta.
  generalize (fst (af_selection cfg cli_af)) (snd (af_selection cfg cli_af)).
  intros mode pos Hm Hp. apply mem_cases in Hm.
  destruct Hm as [<-|[<-|[]]]; destruct Hp as [->| ->]; cbn; split; reflexivity.
Qed.

(** X13.  In manual mode with a position that [float] reads,
    [configure_autofocus] returns and sets on the camera object it was
    given the manual autofocus mode and exactly the value read as lens
    position; the other controls and the other camera objects are
    unchanged. *)
Theorem manual_mode_sets_lens_position picam cli_af (w : World float) s v c :
  mem (fst (af_selection cfg cli_af)) ["man"; "manual"] = true ->
  snd (af_selection cfg cli_af) = Some s ->
  nonempty s = true ->
  float_of_string s = Some v ->
  cams w !! picam = Some c ->
  fst (configure_autofocus float_of_string cfg picam cli_af w) = Ok tt
  /\ cams (snd (configure_autofocus float_of_string cfg picam cli_af w)) !! picam
     = Some {| started := started c; still_config := still_config c;
               options := options c;
               controls := <["LensPosition" := LensPositionCtl v]>
                             (<["AfMode" := AfModeCtl AfManual]> (controls c)) |}
  /\ forall j, j <> picam ->
       cams (snd (configure_autofocus float_of_string cfg picam cli_af w)) !! j
       = cams w !! j.
Proof.
  rewrite configure_autofocus_unfold. cbn zeta.
  generalize (fst (af_selection cfg cli_af)) (snd (af_selection cfg cli_af)).
  intros mode pos Hm -> Hs Hv Hc. apply mem_cases in Hm.
  destruct s as [|a p]; [discriminate|].
  destruct Hm as [<-|[<-|[]]]; cbn; rewrite Hv; cbn;
    (split; [reflexivity|]); (split; [rewrite list_lookup_alter_eq, Hc; reflexivity|]);
    intros j Hj; apply list_lookup_alter_ne; congruence.
Qed.

(** X14.  In the continuous and in the single-shot mode
    [configure_autofocus] returns whatever the position words are (they
    are never read by [float]) and sets only the autofocus mode: a lens
    position set before stays in the controls. *)
Theorem automatic_modes_ignore_position picam cli_af (w : World float) m :
  (mem (fst (af_selection cfg cli_af)) ["cont"; "continuous"] = true /\ m = AfContinuous)
  \/ (mem (fst (af_selection cfg cli_af)) ["auto"; "af"] = true /\ m = AfAuto) ->
  fst (configure_autofocus float_of_string cfg picam cli_af w) = Ok tt
  /\ cams (snd (configure_autofocus float_of_string cfg picam cli_af w))
     = alter (with_controls [("AfMode", AfModeCtl m)]) picam (cams w)
  /\ forall c : Picamera2 float,
       controls (with_controls [("AfMode", AfModeCtl m)] c) !! "LensPosition"
       = controls c !! "LensPosition".
Proof.
  rewrite configure_autofocus_unfold. cbn zeta.
  generalize (fst (af_selection cfg cli_af)) (snd (af_selection cfg cli_af)).
  intros mode pos [[Hm ->]|[Hm ->]]; apply mem_cases in Hm;
    destruct Hm as [<-|[<-|[]]]; cbn; repeat split; try reflexivity;
    intros c; apply lookup_insert_ne; discriminate.
Qed.

End AutofocusExtras.

#[local] Arguments main_loop : simpl never.
#[local] Arguments get_or_create_fingerprint : simpl never.
#[local] Arguments configure_autofocus : simpl never.

Section StartupExtras.

Context {float : Type}.
Variable float_of_string : string -> option float.
Variable cfg : Config float.

(** [main] once the token is present, the identity resolved and the
    second camera object made. *)
Lemma main_run env envs (w w1 : World float) fp :
  nonempty (PRUSA_TOKEN cfg) = true ->
  fingerprint_of_main cfg (su_storage env) w = (Ok fp, w1) ->
  su_second_camera env = None ->
  main cfg env envs w =
  match main_loop cfg (length (cams w1)) fp envs (INTERVAL_SEC cfg)
          (loop_start cfg fp w1) with
  | (Ok (LoopExited, _), w3) => (Ok LoopExited, add_log (INFO, Exiting) w3)
  | (Ok (LoopRunning, _), w3) => (Ok LoopRunning, w3)
  | (Raise e, w3) => (Raise e, w3)
  end.
Proof.
  intros Ht Hf Hc. unfold main. rewrite Ht. cbn [negb].
  unfold bind at 1. rewrite Hf.
  unfold bind at 1. unfold logger at 1, modify at 1.
  unfold bind at 1. unfold Picamera2_new. rewrite Hc.
  unfold fault, bind at 1, ret at 1, bind at 1, gets at 1, bind at 1, emit at 1,
    modify at 1, bind at 1, modify at 1, ret at 1.
  cbn [cams add_log add_event].
  unfold bind at 1, picam_set_controls at 1, bind at 1, emit at 1, modify at 1,
    update_camera at 1, modify at 1.
  unfold bind at 1, logger at 1, modify at 1.
  unfold bind at 1. fold (loop_start cfg fp w1).
  destruct (main_loop cfg (length (cams w1)) fp envs (INTERVAL_SEC cfg)
              (loop_start cfg fp w1)) as [[[[|] b]|e] w3]; reflexivity.
Qed.


Lemma fingerprint_of_main_frame env (w : World float) :
  cams (snd (fingerprint_of_main cfg env w)) = cams w
  /\ puts (trace (snd (fingerprint_of_main cfg env w))) = puts (trace w)
  /\ naps (trace (snd (fingerprint_of_main cfg env w))) = naps (trace w)
  /\ camera_events (trace (snd (fingerprint_of_main cfg env w)))
     = camera_events (trace w).
Proof.
  unfold fingerprint_of_main. destruct (nonempty (PRUSA_FINGERPRINT cfg)).
  - repeat split.
  - apply get_or_create_fingerprint_frame.
Qed.


Lemma loop_start_puts fp (w : World float) :
  puts (trace (loop_start cfg fp w)) = puts (trace w).
Proof.
  unfold loop_start. cbn [trace add_log set_cams add_event].
  rewrite !puts_app. cbn. rewrite !app_nil_r. reflexivity.
Qed.

(** X20.  [main] sends the identity it resolved: with the token present,
    the identity [fp] obtained from the override or from the storage and
    the camera object made, every request of the run goes to [PRUSA_URL]
    with the token and [fp] in its headers, and resolving the identity
    sends nothing. *)
Theorem main_sends_resolved_identity env envs (w w1 : World float) fp :
  nonempty (PRUSA_TOKEN cfg) = true ->
  fingerprint_of_main cfg (su_storage env) w = (Ok fp, w1) ->
  su_second_camera env = None ->
  exists l,
    puts (trace (snd (main cfg env envs w))) = (puts (trace w) ++ l)%list
    /\ Forall (fun q => exists jpeg, q = request_for cfg fp jpeg) l
    /\ (length l <= length envs)%nat.
Proof.
  intros Ht Hf Hc. rewrite (main_run env envs w w1 fp Ht Hf Hc).
  destruct (main_loop_puts cfg (length (cams w1)) fp envs (INTERVAL_SEC cfg)
              (loop_start cfg fp w1)) as (l & H1 & H2 & H3).
  exists l. split; [|split; assumption].
  rewrite loop_start_puts in H1.
  destruct (fingerprint_of_main_frame (su_storage env) w) as (_ & Hp & _).
  rewrite Hf in Hp. cbn [snd] in Hp. rewrite Hp in H1.
  destruct (main_loop cfg (length (cams w1)) fp envs (INTERVAL_SEC cfg)
              (loop_start cfg fp w1)) as [[[[|] b]|e] w3]; cbn [snd] in *;
    exact H1.
Qed.

(** X21.  The camera [main] captures with is a new object whose controls
    are the continuous autofocus mode and nothing else, at the start of
    the loop and after any number of cycles; the camera objects made
    before [main] (the one [configure_autofocus] has set up among them)
    are left as they were. *)
Theorem main_captures_with_continuous_autofocus env envs (w w1 : World float) fp :
  nonempty (PRUSA_TOKEN cfg) = true ->
  fingerprint_of_main cfg (su_storage env) w = (Ok fp, w1) ->
  su_second_camera env = None ->
  (controls <$> (cams (snd (main cfg env envs w)) !! length (cams w)))
    = Some (<["AfMode" := AfModeCtl AfContinuous]> ∅)
  /\ forall j, (j < length (cams w))%nat ->
       cams (snd (main cfg env envs w)) !! j = cams w !! j.
Proof.
  intros Ht Hf Hc. rewrite (main_run env envs w w1 fp Ht Hf Hc).
  destruct (fingerprint_of_main_frame (su_storage env) w) as (Hcams & _).
  rewrite Hf in Hcams. cbn [snd] in Hcams. rewrite <- Hcams.
  destruct (main_loop_cams_frame cfg (length (cams w1)) fp envs (INTERVAL_SEC cfg)
              (loop_start cfg fp w1)) as [H1 H2].
  assert (cams (loop_start cfg fp w1)
          = (cams w1 ++ [with_controls [("AfMode", AfModeCtl AfContinuous)]
                           fresh_camera])%list) as Hstart.
  { unfold loop_start. cbn [cams add_log set_cams add_event].
    rewrite alter_app_r_alt by lia. rewrite Nat.sub_diag. reflexivity. }
  assert (forall w3 : World float,
            (forall j, controls <$> (cams w3 !! j)
                       = controls <$> (cams (loop_start cfg fp w1) !! j)) ->
            (forall j, j <> length (cams w1) ->
                       cams w3 !! j = cams (loop_start cfg fp w1) !! j) ->
            (controls <$> (cams w3 !! length (cams w1)))
              = Some (<["AfMode" := AfModeCtl AfContinuous]> ∅)
            /\ forall j, (j < length (cams w1))%nat -> cams w3 !! j = cams w1 !! j) as Hw3.
  { intros w3 K1 K2. split.
    - rewrite K1, Hstart, lookup_app_r by lia. rewrite Nat.sub_diag. reflexivity.
    - intros j Hj. rewrite K2 by lia. rewrite Hstart. apply lookup_app_l. exact Hj. }
  destruct (main_loop cfg (length (cams w1)) fp envs (INTERVAL_SEC cfg)
              (loop_start cfg fp w1)) as [[[[|] b]|e] w3]; cbn [snd] in *;
    apply Hw3; assumption.
Qed.

(** [configure_autofocus] leaves the file system alone, makes at most
    one call, [picam.set_controls] on the object it was given, and
    raises nothing but [ValueError]. *)
Lemma configure_autofocus_frame picam cli_af (w : World float) :
  fs (snd (configure_autofocus float_of_string cfg picam cli_af w)) = fs w
  /\ trace (snd (configure_autofocus float_of_string cfg picam cli_af w))
     = (trace w ++ match af_controls float_of_string cfg cli_af with
                   | Some l => [EvCamSetControls picam l]
                   | None => []
                   end)%list
  /\ forall e, fst (configure_autofocus float_of_string cfg picam cli_af w) = Raise e ->
               exists m, e = ValueError m.
Proof.
  rewrite configure_autofocus_unfold. unfold af_controls. cbn zeta.
  generalize (fst (af_selection cfg cli_af)) (snd (af_selection cfg cli_af)).
  intros mode pos.
  unfold bind, logger, modify, picam_set_controls, bind, emit, modify, update_camera,
    raise.
  destruct (mem mode ["cont"; "continuous"]);
    [cbn; repeat split; intros; simplify_eq|].
  destruct (mem mode ["auto"; "af"]);
    [cbn; repeat split; intros; simplify_eq|].
  destruct (mem mode ["man"; "manual"]);
    [destruct pos as [[|a p]|]; [| destruct (float_of_string (String a p)) |]|];
    cbn; rewrite ?app_nil_r; repeat split; intros; simplify_eq; eauto.
Qed.


Lemma main_missing_token env envs (w : World float) :
  nonempty (PRUSA_TOKEN cfg) = false ->
  main cfg env envs w
  = (Raise (SystemExit "You must set PRUSA_TOKEN environment variable."),
     add_log (ERROR, MissingToken) w).
Proof. intros H. unfold main. rewrite H. reflexivity. Qed.



Lemma program_unfold af env envs (w : World float) :
  program float_of_string cfg af env envs w =
  match su_first_camera env with
  | Some e0 => startup_handler e0 w
  | None =>
      match configure_autofocus float_of_string cfg (length (cams w)) af
              (set_cams (fun l => (l ++ [fresh_camera])%list)
                 (add_event (EvCamNew (length (cams w))) w)) with
      | (Raise e1, w1) => startup_handler e1 w1
      | (Ok _, w1) =>
          match main cfg env envs w1 with
          | (Ok st, w2) => (Ok st, w2)
          | (Raise e2, w2) => startup_handler e2 w2
          end
      end
  end.
Proof.
  unfold program, try_except, startup_handler. unfold bind at 1.
  unfold Picamera2_new at 1.
  destruct (su_first_camera env) as [e0|].
  - cbn. destruct (is_Exception e0); reflexivity.
  - unfold fault, bind at 1, ret at 1, bind at 1, gets at 1, bind at 1, emit at 1,
      modify at 1, bind at 1, modify at 1, ret at 1.
    unfold bind at 1.
    destruct (configure_autofocus float_of_string cfg (length (cams w)) af _)
      as [[[]|e1] w1].
    + destruct (main cfg env envs w1) as [[st|e2] w2]; [reflexivity|].
      destruct (is_Exception e2); reflexivity.
    + destruct (is_Exception e1); reflexivity.
Qed.

Lemma startup_handler_frame e (w : World float) :
  (exists e', fst (startup_handler e w) = Raise e')
  /\ fs (snd (startup_handler e w)) = fs w
  /\ trace (snd (startup_handler e w)) = trace w.
Proof. unfold startup_handler. destruct (is_Exception e); cbn; eauto. Qed.

(** X23.  Without a token the program stops before anything is done for
    an upload: [main] raises [SystemExit] with the message about
    [PRUSA_TOKEN] at once, and the whole program ends with an exception,
    has not touched the file system and has sent no request.  The calls
    made to a camera are those that come before [main]: the first
    [Picamera2()] and, when [configure_autofocus] accepts the autofocus
    settings, its [picam.set_controls] on that object; no second object
    is made and no camera is configured, started or stopped. *)
Theorem missing_token_stops_before_storage af env envs (w : World float) :
  nonempty (PRUSA_TOKEN cfg) = false ->
  (forall w0, fst (main cfg env envs w0)
              = Raise (SystemExit "You must set PRUSA_TOKEN environment variable."))
  /\ (exists e, fst (program float_of_string cfg af env envs w) = Raise e)
  /\ fs (snd (program float_of_string cfg af env envs w)) = fs w
  /\ puts (trace (snd (program float_of_string cfg af env envs w))) = puts (trace w)
  /\ camera_events (trace (snd (program float_of_string cfg af env envs w)))
     = (camera_events (trace w) ++
        match su_first_camera env with
        | None =>
            EvCamNew (length (cams w)) ::
            match af_controls float_of_string cfg af with
            | Some l => [EvCamSetControls (length (cams w)) l]
            | None => []
            end
        | Some _ => []
        end)%list.
Proof.
  intros Ht. split; [intros w0; rewrite (main_missing_token env envs w0 Ht); reflexivity|].
  rewrite program_unfold.
  destruct (su_first_camera env) as [e0|].
  - destruct (startup_handler_frame e0 w) as (He & -> & ->).
    rewrite app_nil_r. repeat split. exact He.
  - destruct (configure_autofocus_frame (length (cams w)) af
                (set_cams (fun l => (l ++ [fresh_camera])%list)
                   (add_event (EvCamNew (length (cams w))) w))) as (Hfs & Htr & _).
    destruct (configure_autofocus float_of_string cfg (length (cams w)) af _)
      as [[[]|e1] w1]; cbn [fst snd fs trace set_cams add_event] in Hfs, Htr.
    + rewrite (main_missing_token env envs w1 Ht).
      destruct (startup_handler_frame
                  (SystemExit "You must set PRUSA_TOKEN environment variable.")
                  (add_log (ERROR, MissingToken) w1)) as (He & -> & ->).
      cbn [fs trace add_log]. rewrite Hfs, Htr. unfold camera_events.
      rewrite <- app_assoc, puts_app, List.filter_app.
      destruct (af_controls float_of_string cfg af); cbn; rewrite ?app_nil_r;
        repeat split; exact He.
    + destruct (startup_handler_frame e1 w1) as (He & -> & ->).
      rewrite Hfs, Htr. unfold camera_events.
      rewrite <- app_assoc, puts_app, List.filter_app.
      destruct (af_controls float_of_string cfg af); cbn; rewrite ?app_nil_r;
        repeat split; exact He.
Qed.

Lemma main_without_identity env envs (w w1 : World float) e :
  nonempty (PRUSA_TOKEN cfg) = true ->
  fingerprint_of_main cfg (su_storage env) w = (Raise e, w1) ->
  main cfg env envs w = (Raise e, w1).
Proof.
  intros Ht Hf. unfold main. rewrite Ht. cbn [negb]. unfold bind at 1.
  rewrite Hf. reflexivity.
Qed.

(** X24.  When the identity cannot be obtained from the storage, [main]
    ends with that exception before the loop: no camera object is made,
    no camera is called and no request is sent. *)
Theorem storage_failure_stops_before_camera env envs (w : World float) e :
  nonempty (PRUSA_TOKEN cfg) = true ->
  fst (fingerprint_of_main cfg (su_storage env) w) = Raise e ->
  fst (main cfg env envs w) = Raise e
  /\ cams (snd (main cfg env envs w)) = cams w
  /\ puts (trace (snd (main cfg env envs w))) = puts (trace w)
  /\ camera_events (trace (snd (main cfg env envs w))) = camera_events (trace w).
Proof.
  intros Ht Hf.
  destruct (fingerprint_of_main_frame (su_storage env) w) as (H1 & H2 & _ & H4).
  destruct (fingerprint_of_main cfg (su_storage env) w) as [r w1] eqn:Hrun.
  cbn [fst snd] in *. subst r.
  rewrite (main_without_identity env envs w w1 e Ht Hrun).
  repeat split; assumption.
Qed.

End StartupExtras.

Section LoadingExtras.

Context {float : Type}.
Variable int_of_string : string -> option Z.
Variable float_of_string : string -> option float.

Lemma lstrip_all_space s : all_space s = true -> lstrip s = EmptyString.
Proof.
  induction s as [|c s IH]; [reflexivity|]. cbn.
  rewrite andb_true_iff. intros [-> Hs]. exact (IH Hs).
Qed.

Lemma strip_all_space s : all_space s = true -> strip s = EmptyString.
Proof. intros H. unfold strip. rewrite (lstrip_all_space s H). reflexivity. Qed.

(** What a loaded configuration holds. *)
Lemma load_config_inv home environ (cfg : Config float) :
  load_config int_of_string float_of_string home environ = Ok cfg ->
  HOME cfg = home
  /\ PRUSA_TOKEN cfg = strip (getenv environ "PRUSA_TOKEN" "")
  /\ PRUSA_FINGERPRINT cfg = strip (getenv environ "PRUSA_FINGERPRINT" "")
  /\ PRUSA_AF_MODE cfg = lower (strip (getenv environ "PRUSA_AF_MODE" "cont"))
  /\ PRUSA_AF_POSITION cfg = strip (getenv environ "PRUSA_AF_POSITION" "")
  /\ int_of_string (getenv environ "PRUSA_INTERVAL_SEC" "10") = Some (INTERVAL_SEC cfg).
Proof.
  unfold load_config, py_int, py_float.
  destruct (int_of_string (getenv environ "PRUSA_INTERVAL_SEC" "10")); [|discriminate].
  destruct (int_of_string (getenv environ "PRUSA_WIDTH" "1280")); [|discriminate].
  destruct (int_of_string (getenv environ "PRUSA_HEIGHT" "720")); [|discriminate].
  destruct (int_of_string (getenv environ "PRUSA_JPEG_QUALITY" "85")); [|discriminate].
  destruct (float_of_string (getenv environ "PRUSA_HTTP_TIMEOUT" "10")); [|discriminate].
  intros H. injection H as <-. cbn. repeat split.
Qed.

(** X25.  A token that is not set, empty or made of white space only is
    a missing token: with the configuration loaded from such an
    environment [main] raises [SystemExit] with the message about
    [PRUSA_TOKEN] whatever else is configured. *)
Theorem blank_token_is_missing home environ (cfg : Config float) env envs
    (w : World float) :
  load_config int_of_string float_of_string home environ = Ok cfg ->
  all_space (getenv environ "PRUSA_TOKEN" "") = true ->
  main cfg env envs w
  = (Raise (SystemExit "You must set PRUSA_TOKEN environment variable."),
     add_log (ERROR, MissingToken) w).
Proof.
  intros Hl Hs. apply load_config_inv in Hl as (_ & Ht & _).
  apply main_missing_token. rewrite Ht, (strip_all_space _ Hs). reflexivity.
Qed.

(** X26.  The identity override is used without the white space around
    it, and an override that is not set, empty or made of white space
    only is no override: the identity then comes from the storage. *)
Theorem identity_override_is_stripped home environ (cfg : Config float) env
    (w : World float) :
  load_config int_of_string float_of_string home environ = Ok cfg ->
  (nonempty (strip (getenv environ "PRUSA_FINGERPRINT" "")) = true ->
   fingerprint_of_main cfg env w
   = (Ok (unicode_of_string (strip (getenv environ "PRUSA_FINGERPRINT" ""))), w))
  /\ (all_space (getenv environ "PRUSA_FINGERPRINT" "") = true ->
      fingerprint_of_main cfg env w = get_or_create_fingerprint cfg env w).
Proof.
  intros Hl. apply load_config_inv in Hl as (_ & _ & Hf & _).
  unfold fingerprint_of_main. rewrite Hf. split.
  - intros ->. reflexivity.
  - intros Hs. rewrite (strip_all_space _ Hs). reflexivity.
Qed.

End LoadingExtras.

Section SetupExtras.

Context {float : Type}.
Variable cfg : Config float.

Ltac unfold_setup :=
  cbv [run_setup ask_autofocus s_bind s_ret s_raise print input_strip
       subprocess_run lift Path_mkdir Path_write_text Path_write_bytes
       emit fault modify gets bind ret raise lift_result] in *.

(** X27.  Run by a user other than root, the setup prints the advice to
    use sudo and exits with status 1: no question is asked, nothing is
    written and no command is run. *)
Theorem setup_requires_root env (s : SetupState float) :
  sx_euid env <> 0%Z ->
  run_setup cfg env s
  = (Raise (SystemExit "1"),
     {| s_world := s_world s;
        s_out := app (s_out s)
                  ["=== Jimbo-Cam Setup ===";
                   "Error: Setup must be run with sudo (root privileges).";
                   "Try:  sudo python3 " ++ sx_script_name env ++ " --setup"];
        s_cmds := s_cmds s |}).
Proof.
  intros Hne. unfold_setup. cbn.
  destruct (Z.eqb_spec (sx_euid env) 0); [contradiction|]. cbn.
  repeat rewrite <- app_assoc. reflexivity.
Qed.


(** X28.  When the operator chooses the manual mode (answer 3) and gives
    no lens position, the setup exits with status 1 before it writes
    anything: the file system is unchanged and no command is run. *)
Theorem setup_manual_requires_position env (s : SetupState float) :
  sx_euid env = 0%Z ->
  strip (sx_af_choice env) = "3" ->
  nonempty (strip (sx_af_position env)) = false ->
  fst (run_setup cfg env s) = Raise (SystemExit "1")
  /\ s_world (snd (run_setup cfg env s)) = s_world s
  /\ s_cmds (snd (run_setup cfg env s)) = s_cmds s.
Proof.
  intros He Hc Hp. unfold_setup. rewrite He, Hc, Hp. cbn. repeat split.
Qed.

Lemma fs_write_ok t p d t' : fs_write t p d = Ok t' -> t' = <[p := File d]> t.
Proof.
  unfold fs_write. destruct (is_dir t (parent p)); [|discriminate].
  destruct (t !! p) as [[|d0]|]; intros H; simplify_eq; reflexivity.
Qed.


Lemma ask_autofocus_cases env (s : SetupState float) :
  s_world (snd (ask_autofocus env s)) = s_world s
  /\ s_cmds (snd (ask_autofocus env s)) = s_cmds s
  /\ match fst (ask_autofocus env s) with
     | Ok (m, p) =>
         (m = "cont" /\ p = "") \/ (m = "auto" /\ p = "")
         \/ (m = "man" /\ p = strip (sx_af_position env) /\ nonempty p = true)
     | Raise e => e = SystemExit "1"
     end.
Proof.
  unfold ask_autofocus, input_strip, s_bind, s_ret, s_raise, print.
  cbn [s_world s_out s_cmds fst snd].
  match goal with |- context [String.eqb ?c "2"] =>
    generalize c; intros choice end.
  destruct (String.eqb choice "2");
    [cbn; split; [reflexivity|split; [reflexivity|right; left; split; reflexivity]]|].
  destruct (String.eqb choice "3");
    [|cbn; split; [reflexivity|split; [reflexivity|left; split; reflexivity]]].
  destruct (nonempty (strip (sx_af_position env))) eqn:Hp; cbn;
    (split; [reflexivity|split; [reflexivity|]]); [|reflexivity].
  right; right. repeat split. exact Hp.
Qed.

#[local] Arguments ask_autofocus : simpl never.
#[local] Arguments Path_mkdir : simpl never.
#[local] Arguments Path_write_text : simpl never.
#[local] Arguments service_unit : simpl never.
#[local] Arguments env_file_lines : simpl never.
#[local] Arguments path_str : simpl never.
#[local] Arguments String.concat : simpl never.
#[local] Arguments String.append : simpl never.
#[local] Arguments mkdir_from : simpl never.
#[local] Arguments fs_write : simpl never.
#[local] Arguments strip : simpl never.
#[local] Arguments lower : simpl never.
#[local] Arguments String.eqb : simpl never.
#[local] Arguments unicode_of_string : simpl never.
#[local] Arguments utf8_encode : simpl never.

(** What a setup that returns has done; the two files hold the UTF-8
    encoding of their text. *)
Lemma run_setup_ok_inv env (s : SetupState float) :
  fst (run_setup cfg env s) = Ok tt ->
  exists m p t d1 d2,
    ((m = "cont" /\ p = "") \/ (m = "auto" /\ p = "")
     \/ (m = "man" /\ p = strip (sx_af_position env) /\ nonempty p = true))
    /\ sx_euid env = 0%Z
    /\ mkdir_from (fs (s_world s)) [] (CONFIG_DIR cfg) = (true, t)
    /\ utf8_encode
         (unicode_of_string
            (String.concat ""
               (env_file_lines (strip (sx_token env))
                  (strip (sx_fingerprint env)) m p))) = Some d1
    /\ utf8_encode (unicode_of_string (service_unit cfg env)) = Some d2
    /\ fs (s_world (snd (run_setup cfg env s)))
       = <[SERVICE_PATH := File d2]> (<[ENV_PATH cfg := File d1]> t)
    /\ s_cmds (snd (run_setup cfg env s))
       = app (s_cmds s)
           (["systemctl"; "daemon-reload"] ::
            if String.eqb (lower (strip (sx_enable env))) "y"
            then [["systemctl"; "enable"; "--now"; "jimbo-cam.service"]]
            else []).
Proof.
  destruct (run_setup cfg env s) as [r s1] eqn:Hrun. cbn [fst snd]. intros ->.
  unfold run_setup in Hrun.
  unfold s_bind at 1, print at 1 in Hrun. unfold s_bind at 1 in Hrun.
  destruct (Z.eqb_spec (sx_euid env) 0) as [He|He]; cbn [negb] in Hrun;
    [|cbn in Hrun; discriminate].
  unfold s_ret at 1 in Hrun.
  unfold s_bind at 1, input_strip at 1, s_bind at 1, print at 1, s_ret at 1 in Hrun.
  unfold s_bind at 1, input_strip at 1, s_bind at 1, print at 1, s_ret at 1 in Hrun.
  unfold s_bind at 1 in Hrun.
  match type of Hrun with context [ask_autofocus env ?st] =>
    destruct (ask_autofocus_cases env st) as (Hw & Hc & Hmp);
    destruct (ask_autofocus env st) as [[[m p]|e] s2] end;
    [|discriminate].
  cbn [fst snd s_world s_cmds s_out] in Hw, Hc, Hmp, Hrun.
  unfold s_bind at 1, lift at 1 in Hrun. rewrite Path_mkdir_run, Hw in Hrun.
  destruct (sx_mkdir env); [discriminate|].
  destruct (mkdir_from (fs (s_world s)) [] (CONFIG_DIR cfg)) as [[|] t] eqn:Hmk;
    [|discriminate].
  unfold s_bind at 1, lift at 1 in Hrun. cbn [s_world fst snd] in Hrun.
  match type of Hrun with context [Path_write_text _ _ (unicode_of_string ?x)] =>
    destruct (utf8_encode_string x) as [d1 Hd1];
    rewrite (Path_write_text_run _ _ _ _ _ Hd1) in Hrun end.
  destruct (sx_write_env env); [discriminate|].
  cbn [fs set_fs add_event] in Hrun.
  destruct (fs_write t (ENV_PATH cfg) _) as [t1|] eqn:Hw1; [|discriminate].
  apply fs_write_ok in Hw1. subst t1.
  unfold s_bind at 1, print at 1 in Hrun.
  unfold s_bind at 1, lift at 1 in Hrun. cbn [s_world] in Hrun.
  destruct (utf8_encode_string (service_unit cfg env)) as [d2 Hd2].
  rewrite (Path_write_text_run _ _ _ _ _ Hd2) in Hrun.
  destruct (sx_write_unit env); [discriminate|].
  cbn [fs set_fs add_event] in Hrun.
  destruct (fs_write _ SERVICE_PATH _) as [t2|] eqn:Hw2; [|discriminate].
  apply fs_write_ok in Hw2. subst t2.
  unfold s_bind at 1, print at 1 in Hrun.
  unfold s_bind at 1, subprocess_run at 1 in Hrun.
  destruct (sx_run_reload env); [discriminate|].
  unfold s_bind at 1, print at 1 in Hrun.
  unfold s_bind at 1, input_strip at 1, s_bind at 1, print at 1, s_ret at 1 in Hrun.
  cbn [s_world s_cmds s_out] in Hrun.
  exists m, p, t, d1, d2. split; [exact Hmp|]. split; [exact He|].
  split; [reflexivity|]. split; [exact Hd1|]. split; [exact Hd2|].
  destruct (String.eqb (lower (strip (sx_enable env))) "y").
  - unfold s_bind at 1, subprocess_run at 1 in Hrun.
    destruct (sx_run_enable env); [discriminate|].
    unfold s_bind, print in Hrun. cbn [s_world s_cmds s_out] in Hrun.
    injection Hrun as <-. cbn [s_world s_cmds fs set_fs add_event].
    rewrite Hc, <- app_assoc. split; reflexivity.
  - unfold s_bind, print in Hrun. cbn [s_world s_cmds s_out] in Hrun.
    injection Hrun as <-. cbn [s_world s_cmds fs set_fs add_event].
    rewrite Hc. split; reflexivity.
Qed.



(** X30.  A setup that returns has installed the unit file, in UTF-8,
    has run [systemctl daemon-reload], and has run [systemctl enable --now] for
    the service exactly when the answer to the last question, without
    the white space around it and in lower case, is y. *)
Theorem setup_enables_service_on_yes_only env (s : SetupState float) :
  fst (run_setup cfg env s) = Ok tt ->
  fs (s_world (snd (run_setup cfg env s))) !! SERVICE_PATH
    = (File <$> utf8_encode (unicode_of_string (service_unit cfg env)))
  /\ is_Some (fs (s_world (snd (run_setup cfg env s))) !! SERVICE_PATH)
  /\ s_cmds (snd (run_setup cfg env s))
     = app (s_cmds s)
         (["systemctl"; "daemon-reload"] ::
          if String.eqb (lower (strip (sx_enable env))) "y"
          then [["systemctl"; "enable"; "--now"; "jimbo-cam.service"]]
          else []).
Proof.
  intros H.
  destruct (run_setup_ok_inv env s H)
    as (m & p & t & d1 & d2 & _ & _ & _ & _ & Hd2 & Hfs & Hc).
  rewrite Hfs, lookup_insert_eq, Hd2. repeat split; [eauto|exact Hc].
Qed.

End SetupExtras.

(** ** The further theorems at concrete inputs *)

Lemma cycle_uploads_captured_image_witness :
  fst (attempt (demo_config 10 "") 0 "0123456789abcdef" good_cycle demo_world) = Ok tt
  /\ exists l,
       puts (trace (snd (cycle (demo_config 10 "") 0 "0123456789abcdef" good_cycle 10
                           demo_world)))
       = (puts (trace demo_world) ++ l)%list
       /\ l <> [].
Proof.
  assert (fst (attempt (demo_config 10 "") 0 "0123456789abcdef" good_cycle demo_world)
          = Ok tt) as H by (vm_compute; reflexivity).
  split; [exact H|].
  destruct (cycle_uploads_captured_image (demo_config 10 "") 0 "0123456789abcdef"
              good_cycle 10 demo_world) as (l & H1 & _ & H3).
  exists l. split; [exact H1|exact (H3 H)].
Defined.

Lemma loop_touches_only_temporary_file_witness :
  FINGERPRINT_FILE (demo_config 10 "") <> tmp_path
  /\ fs (snd (main_loop (demo_config 10 "") 0 "0123456789abcdef" demo_cycles 10
                demo_world)) !! FINGERPRINT_FILE (demo_config 10 "")
     = fs demo_world !! FINGERPRINT_FILE (demo_config 10 "").
Proof.
  assert (FINGERPRINT_FILE (demo_config 10 "") <> tmp_path) as H by discriminate.
  split; [exact H|].
  exact (loop_touches_only_temporary_file (demo_config 10 "") 0 "0123456789abcdef"
           demo_cycles 10 demo_world _ H).
Defined.

Lemma wait_stops_within_a_second_witness :
  running demo_world = true /\ (2 < 120)%nat
  /\ naps (trace (snd (wait (Some (DuringWait 2)) 120 0 demo_world)))
     = (naps (trace demo_world) + 3)%nat.
Proof.
  assert (2 < 120)%nat as H by lia.
  split; [reflexivity|]. split; [exact H|].
  exact (proj1 (wait_stops_within_a_second 120 2 demo_world eq_refl H)).
Defined.

Lemma cycle_sleeps_backoff_seconds_witness :
  no_signal rejected_cycle = true /\ running demo_world = true
  /\ fst (cycle (demo_config 10 "") 0 "0123456789abcdef" rejected_cycle 10 demo_world)
     = Ok 30%Z
  /\ naps (trace (snd (cycle (demo_config 10 "") 0 "0123456789abcdef" rejected_cycle 10
                         demo_world)))
     = (naps (trace demo_world) + Z.to_nat 30)%nat.
Proof.
  assert (fst (cycle (demo_config 10 "") 0 "0123456789abcdef" rejected_cycle 10
                 demo_world) = Ok 30%Z) as H by (vm_compute; reflexivity).
  split; [reflexivity|]. split; [reflexivity|]. split; [exact H|].
  exact (cycle_sleeps_backoff_seconds (demo_config 10 "") 0 "0123456789abcdef"
           rejected_cycle 10 demo_world 30 eq_refl eq_refl H).
Defined.


Lemma capture_jpeg_fails_before_capture_witness :
  (cap_configure (configure_fails (RuntimeError "Camera must be stopped"))
     = Some (RuntimeError "Camera must be stopped")
   \/ (cap_configure (configure_fails (RuntimeError "Camera must be stopped")) = None
       /\ cap_start (configure_fails (RuntimeError "Camera must be stopped"))
          = Some (RuntimeError "Camera must be stopped")))
  /\ fst (capture_jpeg (demo_config 10 "")
            (configure_fails (RuntimeError "Camera must be stopped")) 0 demo_world)
     = Raise (RuntimeError "Camera must be stopped").
Proof.
  assert (cap_configure (configure_fails (RuntimeError "Camera must be stopped"))
            = Some (RuntimeError "Camera must be stopped")
          \/ (cap_configure (configure_fails (RuntimeError "Camera must be stopped"))
                = None
              /\ cap_start (configure_fails (RuntimeError "Camera must be stopped"))
                 = Some (RuntimeError "Camera must be stopped"))) as H
    by (left; reflexivity).
  split; [exact H|].
  exact (proj1 (capture_jpeg_fails_before_capture (demo_config 10 "") _ 0 demo_world
                  _ H)).
Defined.

Lemma read_back_failure_leaves_file_witness :
  fs_write (fs demo_world) tmp_path demo_jpeg
    = Ok (<[tmp_path := File demo_jpeg]> (fs demo_world))
  /\ fs (snd (capture_jpeg (demo_config 10 "")
               (read_back_fails demo_jpeg (OSError "Input/output error")) 0 demo_world))
     = <[tmp_path := File demo_jpeg]> (fs demo_world).
Proof.
  assert (fs_write (fs demo_world) tmp_path demo_jpeg
          = Ok (<[tmp_path := File demo_jpeg]> (fs demo_world))) as H
    by (vm_compute; reflexivity).
  split; [exact H|].
  exact (proj2 (read_back_failure_leaves_file (demo_config 10 "")
           (read_back_fails demo_jpeg (OSError "Input/output error")) 0 demo_world
           demo_jpeg _ (OSError "Input/output error")
           eq_refl eq_refl eq_refl H eq_refl eq_refl)).
Defined.

Lemma capture_jpeg_configures_camera_witness :
  cams demo_world !! 0%nat = Some fresh_camera
  /\ capture_jpeg (demo_config 10 "") (capture_yields demo_jpeg) 0 demo_world
     = (Ok demo_jpeg,
        snd (capture_jpeg (demo_config 10 "") (capture_yields demo_jpeg) 0 demo_world))
  /\ still_config <$>
       (cams (snd (capture_jpeg (demo_config 10 "") (capture_yields demo_jpeg) 0
                     demo_world)) !! 0%nat)
     = Some (Some (1280%Z, 720%Z, "RGB888")).
Proof.
  assert (capture_jpeg (demo_config 10 "") (capture_yields demo_jpeg) 0 demo_world
          = (Ok demo_jpeg,
             snd (capture_jpeg (demo_config 10 "") (capture_yields demo_jpeg) 0
                    demo_world))) as H by (vm_compute; reflexivity).
  split; [reflexivity|]. split; [exact H|].
  rewrite (capture_jpeg_configures_camera (demo_config 10 "") _ 0 demo_world _
             demo_jpeg fresh_camera eq_refl H).
  reflexivity.
Defined.

Lemma configure_autofocus_rejects_unknown_mode_witness :
  mem (fst (af_selection (demo_config 10 "") (Some ["fast"]))) af_words = false
  /\ fst (configure_autofocus decimal_of_string (demo_config 10 "") 0 (Some ["fast"])
            demo_world)
     = Raise (ValueError "Unknown autofocus mode: fast").
Proof.
  split; [reflexivity|].
  exact (proj1 (configure_autofocus_rejects_unknown_mode decimal_of_string
                  (demo_config 10 "") 0 (Some ["fast"]) demo_world eq_refl)).
Defined.

Lemma manual_mode_requires_position_witness :
  PRUSA_AF_POSITION manual_config = "1.2"
  /\ mem (fst (af_selection manual_config (Some ["man"]))) ["man"; "manual"] = true
  /\ snd (af_selection manual_config (Some ["man"])) = None
  /\ fst (configure_autofocus decimal_of_string manual_config 0 (Some ["man"]) demo_world)
     = Raise (ValueError "Manual mode requires a lens position, e.g. --af man 1.2").
Proof.
  split; [reflexivity|]. split; [reflexivity|]. split; [reflexivity|].
  exact (proj1 (manual_mode_requires_position decimal_of_string manual_config 0
                  (Some ["man"]) demo_world eq_refl (or_introl eq_refl))).
Defined.

Lemma manual_mode_sets_lens_position_witness :
  mem (fst (af_selection manual_config None)) ["man"; "manual"] = true
  /\ snd (af_selection manual_config None) = Some "1.2"
  /\ decimal_of_string "1.2" = Some (12%Z, 1%nat)
  /\ cams demo_world !! 0%nat = Some fresh_camera
  /\ fst (configure_autofocus decimal_of_string manual_config 0 None demo_world) = Ok tt.
Proof.
  repeat (split; [reflexivity|]).
  exact (proj1 (manual_mode_sets_lens_position decimal_of_string manual_config 0 None
                  demo_world "1.2" (12%Z, 1%nat) fresh_camera
                  eq_refl eq_refl eq_refl eq_refl eq_refl)).
Defined.

Lemma automatic_modes_ignore_position_witness :
  mem (fst (af_selection manual_config (Some ["CONT"; "not-a-number"])))
    ["cont"; "continuous"] = true
  /\ fst (configure_autofocus decimal_of_string manual_config 0
            (Some ["CONT"; "not-a-number"]) demo_world) = Ok tt.
Proof.
  split; [reflexivity|].
  exact (proj1 (automatic_modes_ignore_position decimal_of_string manual_config 0
                  (Some ["CONT"; "not-a-number"]) demo_world AfContinuous
                  (or_introl (conj eq_refl eq_refl)))).
Defined.

Lemma get_or_create_fingerprint_keeps_other_files_witness :
  ["tmp"] <> FINGERPRINT_FILE (demo_config 10 "")
  /\ fs boot_world !! ["tmp"] = Some Dir
  /\ fs (snd (get_or_create_fingerprint (demo_config 10 "") demo_storage boot_world))
       !! ["tmp"] = Some Dir.
Proof.
  assert (["tmp"] <> FINGERPRINT_FILE (demo_config 10 "")) as H by discriminate.
  split; [exact H|]. split; [reflexivity|].
  exact (get_or_create_fingerprint_keeps_other_files (demo_config 10 "") demo_storage
           boot_world ["tmp"] Dir H eq_refl).
Defined.

Lemma blank_identity_file_is_replaced_witness :
  dirs_present (fs (raw_world nbsp_file)) [] (CONFIG_DIR (demo_config 10 "")) = true
  /\ fs (raw_world nbsp_file) !! FINGERPRINT_FILE (demo_config 10 "")
     = Some (File nbsp_file)
  /\ decode_text nbsp_file = Some [160%N; 10%N]
  /\ unonempty (ustrip [160%N; 10%N]) = false
  /\ fst (get_or_create_fingerprint (demo_config 10 "") (quiet_storage 0x1234567)
            (raw_world nbsp_file))
     = Ok (unicode_of_string (uuid_hex (uuid4_int 0x1234567))).
Proof.
  repeat (split; [reflexivity|]).
  exact (proj1 (blank_identity_file_is_replaced (demo_config 10 "") 0x1234567
                  (raw_world nbsp_file) nbsp_file [160%N; 10%N]
                  eq_refl eq_refl eq_refl eq_refl)).
Defined.

Lemma existing_identity_is_loaded_stripped_witness :
  (dirs_present (fs (stored_world (" cam-7" ++ nl))) []
     (CONFIG_DIR (demo_config 10 "")) = true
   /\ fs (stored_world (" cam-7" ++ nl)) !! FINGERPRINT_FILE (demo_config 10 "")
      = Some (File (list_byte_of_string (" cam-7" ++ nl)))
   /\ decode_text (list_byte_of_string (" cam-7" ++ nl))
      = Some (unicode_of_string (" cam-7" ++ nl))
   /\ ustrip (unicode_of_string (" cam-7" ++ nl)) = unicode_of_string "cam-7"
   /\ fst (get_or_create_fingerprint (demo_config 10 "") (quiet_storage 0x1234567)
             (stored_world (" cam-7" ++ nl)))
      = Ok (ustrip (unicode_of_string (" cam-7" ++ nl))))
  /\ (dirs_present (fs (raw_world latin1_file)) [] (CONFIG_DIR (demo_config 10 "")) = true
      /\ fs (raw_world latin1_file) !! FINGERPRINT_FILE (demo_config 10 "")
         = Some (File latin1_file)
      /\ decode_text latin1_file = None
      /\ fst (get_or_create_fingerprint (demo_config 10 "") (quiet_storage 0x1234567)
                (raw_world latin1_file))
         = Raise UnicodeDecodeError).
Proof.
  split.
  - repeat (split; [reflexivity|]).
    exact (proj1 (proj1 (existing_identity_is_loaded_stripped (demo_config 10 "")
                           0x1234567 (stored_world (" cam-7" ++ nl))
                           (list_byte_of_string (" cam-7" ++ nl)) eq_refl eq_refl)
                    (unicode_of_string (" cam-7" ++ nl)) eq_refl eq_refl)).
  - repeat (split; [reflexivity|]).
    exact (proj1 (proj2 (existing_identity_is_loaded_stripped (demo_config 10 "")
                           0x1234567 (raw_world latin1_file) latin1_file
                           eq_refl eq_refl) eq_refl)).
Defined.

(** Identity files as [get_or_create_fingerprint] reads them: the line
    ends are translated and the white space of Unicode is stripped (the
    second file is an x between two em spaces); a lone byte 0xa0 is not
    UTF-8. *)
Example identity_file_readings :
  fst (get_or_create_fingerprint (demo_config 10 "") (quiet_storage 0x1234567)
         (raw_world [Byte.x61; Byte.x62; Byte.x0d; Byte.x0a; Byte.x63; Byte.x64;
                     Byte.x0d]))
    = Ok [97; 98; 10; 99; 100]%N
  /\ fst (get_or_create_fingerprint (demo_config 10 "") (quiet_storage 0x1234567)
            (raw_world [Byte.xe2; Byte.x80; Byte.x83; Byte.x78; Byte.xe2; Byte.x80;
                        Byte.x83]))
     = Ok [120]%N
  /\ fst (get_or_create_fingerprint (demo_config 10 "") (quiet_storage 0x1234567)
            (raw_world [Byte.xa0]))
     = Raise UnicodeDecodeError.
Proof. vm_compute. repeat split; reflexivity. Qed.

Lemma fresh_storage_creates_identity_witness :
  mkdir_from (fs boot_world) [] (CONFIG_DIR (demo_config 10 ""))
    = (true, snd (mkdir_from (fs boot_world) [] (CONFIG_DIR (demo_config 10 ""))))
  /\ fs boot_world !! FINGERPRINT_FILE (demo_config 10 "") = None
  /\ fst (get_or_create_fingerprint (demo_config 10 "") (quiet_storage 0x1234567)
            boot_world)
     = Ok (unicode_of_string (uuid_hex (uuid4_int 0x1234567))).
Proof.
  assert (mkdir_from (fs boot_world) [] (CONFIG_DIR (demo_config 10 ""))
          = (true, snd (mkdir_from (fs boot_world) [] (CONFIG_DIR (demo_config 10 "")))))
    as H by (vm_compute; reflexivity).
  split; [exact H|]. split; [reflexivity|].
  exact (proj1 (fresh_storage_creates_identity (demo_config 10 "") 0x1234567
                  boot_world _ H eq_refl)).
Defined.

Lemma configuration_directory_conflict_witness :
  st_mkdir demo_storage = None
  /\ fs conflict_world !! CONFIG_DIR (demo_config 10 "") = Some (File [])
  /\ fst (get_or_create_fingerprint (demo_config 10 "") demo_storage conflict_world)
     = Raise (OSError "FileExistsError").
Proof.
  split; [reflexivity|]. split; [reflexivity|].
  exact (proj1 (configuration_directory_conflict (demo_config 10 "") demo_storage
                  conflict_world [] eq_refl eq_refl)).
Defined.

Lemma main_sends_resolved_identity_witness :
  nonempty (PRUSA_TOKEN (demo_config 10 "")) = true
  /\ fingerprint_of_main (demo_config 10 "") (su_storage demo_startup)
       (stored_world (" cam-7" ++ nl))
     = (Ok (unicode_of_string "cam-7"),
        snd (fingerprint_of_main (demo_config 10 "") (su_storage demo_startup)
               (stored_world (" cam-7" ++ nl))))
  /\ su_second_camera demo_startup = None
  /\ exists l,
       puts (trace (snd (main (demo_config 10 "") demo_startup demo_cycles
                           (stored_world (" cam-7" ++ nl)))))
       = (puts (trace (stored_world (" cam-7" ++ nl))) ++ l)%list
       /\ Forall (fun q => exists jpeg, q = request_for (demo_config 10 "") "cam-7" jpeg) l.
Proof.
  assert (fingerprint_of_main (demo_config 10 "") (su_storage demo_startup)
            (stored_world (" cam-7" ++ nl))
          = (Ok (unicode_of_string "cam-7"),
             snd (fingerprint_of_main (demo_config 10 "") (su_storage demo_startup)
                    (stored_world (" cam-7" ++ nl))))) as H
    by (vm_compute; reflexivity).
  split; [reflexivity|]. split; [exact H|]. split; [reflexivity|].
  destruct (main_sends_resolved_identity (demo_config 10 "") demo_startup demo_cycles
              (stored_world (" cam-7" ++ nl)) _ "cam-7" eq_refl H eq_refl)
    as (l & H1 & H2 & _).
  exists l. split; assumption.
Defined.

Lemma main_captures_with_continuous_autofocus_witness :
  nonempty (PRUSA_TOKEN manual_config) = true
  /\ fingerprint_of_main manual_config (su_storage demo_startup)
       (stored_world "cam-7")
     = (Ok (unicode_of_string "cam-7"),
        snd (fingerprint_of_main manual_config (su_storage demo_startup)
               (stored_world "cam-7")))
  /\ su_second_camera demo_startup = None
  /\ (controls <$>
        (cams (snd (main manual_config demo_startup demo_cycles (stored_world "cam-7")))
           !! length (cams (stored_world "cam-7"))))
     = Some (<["AfMode" := AfModeCtl AfContinuous]> ∅).
Proof.
  assert (fingerprint_of_main manual_config (su_storage demo_startup)
            (stored_world "cam-7")
          = (Ok (unicode_of_string "cam-7"),
             snd (fingerprint_of_main manual_config (su_storage demo_startup)
                    (stored_world "cam-7")))) as H
    by (vm_compute; reflexivity).
  split; [reflexivity|]. split; [exact H|]. split; [reflexivity|].
  exact (proj1 (main_captures_with_continuous_autofocus manual_config demo_startup
                  demo_cycles (stored_world "cam-7") _ "cam-7" eq_refl H eq_refl)).
Defined.


Lemma missing_token_stops_before_storage_witness :
  nonempty (PRUSA_TOKEN tokenless_config) = false
  /\ fs (snd (program decimal_of_string tokenless_config None demo_startup demo_cycles
                boot_world)) = fs boot_world.
Proof.
  split; [reflexivity|].
  exact (proj1 (proj2 (proj2 (missing_token_stops_before_storage decimal_of_string
           tokenless_config None demo_startup demo_cycles boot_world eq_refl)))).
Defined.

Lemma storage_failure_stops_before_camera_witness :
  nonempty (PRUSA_TOKEN (demo_config 10 "")) = true
  /\ fst (fingerprint_of_main (demo_config 10 "") (su_storage read_only_startup)
            boot_world) = Raise (OSError "Read-only file system")
  /\ fst (main (demo_config 10 "") read_only_startup demo_cycles boot_world)
     = Raise (OSError "Read-only file system").
Proof.
  assert (fst (fingerprint_of_main (demo_config 10 "") (su_storage read_only_startup)
                 boot_world) = Raise (OSError "Read-only file system")) as H
    by (vm_compute; reflexivity).
  split; [reflexivity|]. split; [exact H|].
  exact (proj1 (storage_failure_stops_before_camera (demo_config 10 "")
                  read_only_startup demo_cycles boot_world _ eq_refl H)).
Defined.

Lemma blank_token_is_missing_witness :
  (exists cfg, load_config demo_int decimal_of_string ["home"; "pi"] demo_environ = Ok cfg
     /\ INTERVAL_SEC cfg = 30%Z
     /\ fst (main cfg demo_startup demo_cycles boot_world)
        = Raise (SystemExit "You must set PRUSA_TOKEN environment variable."))
  /\ all_space (getenv demo_environ "PRUSA_TOKEN" "") = true.
Proof.
  split; [|reflexivity].
  destruct (load_config demo_int decimal_of_string ["home"; "pi"] demo_environ)
    as [cfg|e] eqn:Hl; [|exfalso; vm_compute in Hl; discriminate].
  exists cfg. split; [reflexivity|]. split.
  - vm_compute in Hl. injection Hl as <-. reflexivity.
  - rewrite (blank_token_is_missing demo_int decimal_of_string ["home"; "pi"]
               demo_environ cfg demo_startup demo_cycles boot_world Hl eq_refl).
    reflexivity.
Defined.

Lemma identity_override_is_stripped_witness :
  (exists cfg, load_config demo_int decimal_of_string ["home"; "pi"] demo_environ = Ok cfg
     /\ fingerprint_of_main cfg demo_storage boot_world = (Ok (unicode_of_string "printer-cam-1"), boot_world))
  /\ nonempty (strip (getenv demo_environ "PRUSA_FINGERPRINT" "")) = true.
Proof.
  split; [|reflexivity].
  destruct (load_config demo_int decimal_of_string ["home"; "pi"] demo_environ)
    as [cfg|e] eqn:Hl; [|exfalso; vm_compute in Hl; discriminate].
  exists cfg. split; [reflexivity|].
  exact (proj1 (identity_override_is_stripped demo_int decimal_of_string ["home"; "pi"]
                  demo_environ cfg demo_storage boot_world Hl) eq_refl).
Defined.

Lemma setup_requires_root_witness :
  sx_euid user_setup <> 0%Z
  /\ fst (run_setup (demo_config 10 "") user_setup setup_state) = Raise (SystemExit "1").
Proof.
  assert (sx_euid user_setup <> 0%Z) as H by discriminate.
  split; [exact H|].
  rewrite (setup_requires_root (demo_config 10 "") user_setup setup_state H).
  reflexivity.
Defined.

Lemma setup_manual_requires_position_witness :
  sx_euid positionless_setup = 0%Z
  /\ strip (sx_af_choice positionless_setup) = "3"
  /\ nonempty (strip (sx_af_position positionless_setup)) = false
  /\ fst (run_setup (demo_config 10 "") positionless_setup setup_state)
     = Raise (SystemExit "1").
Proof.
  repeat (split; [reflexivity|]).
  exact (proj1 (setup_manual_requires_position (demo_config 10 "") positionless_setup
                  setup_state eq_refl eq_refl eq_refl)).
Defined.


Lemma setup_enables_service_on_yes_only_witness :
  fst (run_setup (demo_config 10 "") demo_setup setup_state) = Ok tt
  /\ s_cmds (snd (run_setup (demo_config 10 "") demo_setup setup_state))
     = [["systemctl"; "daemon-reload"];
        ["systemctl"; "enable"; "--now"; "jimbo-cam.service"]].
Proof.
  assert (fst (run_setup (demo_config 10 "") demo_setup setup_state) = Ok tt) as H
    by (vm_compute; reflexivity).
  split; [exact H|].
  rewrite (proj2 (proj2 (setup_enables_service_on_yes_only (demo_config 10 "")
                           demo_setup setup_state H))).
  reflexivity.
Defined.

(** The environment file of the concrete setup. *)
Example setup_environment_file :
  String.concat ""
    (env_file_lines (strip (sx_token demo_setup)) (strip (sx_fingerprint demo_setup))
       "man" "1.2")
  = String.concat nl
      ["PRUSA_TOKEN=secret"; "PRUSA_INTERVAL_SEC=10"; "PRUSA_WIDTH=1280";
       "PRUSA_HEIGHT=720"; "PRUSA_JPEG_QUALITY=85"; "PRUSA_HTTP_TIMEOUT=10";
       "PRUSA_AF_MODE=man"; "PRUSA_AF_POSITION=1.2"; ""].
Proof. vm_compute. reflexivity. Qed.
